(** * Cucumber report pipeline: status calculator, integrity validator, sanitizer

    A shallow embedding of four classes of the report viewer:

    - [TestStatusCalculator]   (status of a scenario and of a feature),
    - [DataIntegrityValidator] (count validation and count-set comparison),
    - [CucumberJsonValidator]  (sanitization of a raw report),
    - [ReportService]          (the counting and enhancing the service does
                                with the first two).

    The JavaScript code is duck-typed: every function receives arbitrary
    parsed JSON.  The embedding therefore works on a type [value] of JSON
    values, reads properties the way JavaScript does (a read on [null] or
    [undefined] throws a TypeError), and keeps the [try]/[catch] blocks of
    the source. *)

From Stdlib Require Import String Ascii List ZArith Bool Arith Lia DecimalString.
From Stdlib Require SpecFloat.
Import ListNotations.
Open Scope list_scope.
Open Scope string_scope.

(* ===================================================================== *)
(** ** JSON values *)
(* ===================================================================== *)

(** A parsed JSON document.  An object is the list of its properties in
    insertion order (what [Object.keys] enumerates for non-index keys); a
    property is read by its first binding.  Numbers are integers ([NaN] and
    fractions do not occur in the counts and indices the code computes with).
    A string is a sequence of code units below 256. *)
#[warnings="-register-all"]
Inductive value : Type :=
| VUndefined
| VNull
| VBool (b : bool)
| VNum (n : Z)
| VStr (s : string)
| VArr (l : list value)
| VObj (o : list (string * value)).

(** JavaScript [ToBoolean]. *)
Definition truthy (v : value) : bool :=
  match v with
  | VUndefined | VNull => false
  | VBool b => b
  | VNum n => negb (n =? 0)%Z
  | VStr s => negb (s =? "")
  | VArr _ | VObj _ => true
  end.

(** [a || b] on values. *)
Definition orElse (a b : value) : value := if truthy a then a else b.

(** [Array.isArray(v)]. *)
Definition isArray (v : value) : bool :=
  match v with VArr _ => true | _ => false end.

(** [typeof v === 'object'] (true of [null], arrays and objects). *)
Definition typeofObject (v : value) : bool :=
  match v with VNull | VArr _ | VObj _ => true | _ => false end.

(** [v === 'lit'] for a string literal. *)
Definition isStr (v : value) (lit : string) : bool :=
  match v with VStr s => s =? lit | _ => false end.

Fixpoint lookup (k : string) (o : list (string * value)) : option value :=
  match o with
  | [] => None
  | (k', v) :: rest => if k' =? k then Some v else lookup k rest
  end.

(** [v.k] where [v] is known not to be [null] or [undefined].  The code only
    reads the data properties [before], [steps], [after], [name], [id],
    [type], [result], [status], [match], [keyword], [elements], [scenarios],
    [error_message], [errorMessage] and [_calculatedStatus]; none of them
    exists on an array, a string, a number or a boolean. *)
Definition prop (v : value) (k : string) : value :=
  match v with
  | VObj o => match lookup k o with Some x => x | None => VUndefined end
  | _ => VUndefined
  end.

(** [o.k = x] on an object: an existing property keeps its place, a new one
    is appended. *)
Fixpoint setprop (o : list (string * value)) (k : string) (x : value)
  : list (string * value) :=
  match o with
  | [] => [(k, x)]
  | (k', v) :: rest =>
      if k' =? k then (k', x) :: rest else (k', v) :: setprop rest k x
  end.

(** Decimal rendering of an index, as a template literal prints it. *)
Definition showNat (n : nat) : string := NilZero.string_of_uint (Nat.to_uint n).

Fixpoint indexed (i : nat) (l : list value) : list (string * value) :=
  match l with
  | [] => []
  | x :: rest => (showNat i, x) :: indexed (S i) rest
  end.

(** [{...v}]: the own enumerable properties of [v]. *)
Definition spread (v : value) : list (string * value) :=
  match v with
  | VObj o => o
  | VArr l => indexed 0 l
  | _ => []
  end.

(* ===================================================================== *)
(** ** Strings *)
(* ===================================================================== *)

(** White space and line terminators below code unit 256: TAB, LF, VT, FF,
    CR, SPACE and NBSP. *)
Definition isWhiteSpace (c : ascii) : bool :=
  let n := nat_of_ascii c in
  (((9 <=? n) && (n <=? 13)) || (n =? 32) || (n =? 160))%nat.

Fixpoint trimStart (s : string) : string :=
  match s with
  | EmptyString => EmptyString
  | String c r => if isWhiteSpace c then trimStart r else s
  end.

Fixpoint trimEnd (s : string) : string :=
  match s with
  | EmptyString => EmptyString
  | String c r =>
      match trimEnd r with
      | EmptyString => if isWhiteSpace c then EmptyString else String c EmptyString
      | r' => String c r'
      end
  end.

(** [String.prototype.trim]. *)
Definition trim (s : string) : string := trimEnd (trimStart s).

(* ===================================================================== *)
(** ** Exceptions *)
(* ===================================================================== *)

(** The result of running code that may throw; [Throw] carries
    [error.message]. *)
Inductive outcome (A : Type) : Type :=
| Ret (a : A)
| Throw (msg : string).
Arguments Ret {A} a.
Arguments Throw {A} msg.

Definition bindE {A B : Type} (c : outcome A) (k : A -> outcome B) : outcome B :=
  match c with
  | Ret a => k a
  | Throw m => Throw m
  end.

Declare Scope exn_scope.
Delimit Scope exn_scope with exn.
Notation "x <- c ;; k" := (bindE c (fun x => k))
  (at level 61, c at next level, right associativity) : exn_scope.

(** [v.k] in general: a TypeError on [null] and [undefined] (the message is
    the one V8 prints). *)
Definition getp (v : value) (k : string) : outcome value :=
  match v with
  | VUndefined =>
      Throw ("Cannot read properties of undefined (reading '" ++ k ++ "')")
  | VNull =>
      Throw ("Cannot read properties of null (reading '" ++ k ++ "')")
  | _ => Ret (prop v k)
  end.

Local Open Scope exn_scope.

(** [a && a.k]. *)
Definition andGet (a : value) (k : string) : outcome value :=
  if truthy a then getp a k else Ret a.

(* ===================================================================== *)
(** ** TestStatusCalculator *)
(* ===================================================================== *)

Module TestStatusCalculator.

(** [this.options] ([logLevel] only steers console output). *)
Record CalcOptions : Type := {
  treatSetupFailuresAsFailed : bool;
  treatTeardownFailuresAsFailed : bool
}.

(** [new TestStatusCalculator()]: both flags are [!== false], hence on. *)
Definition defaultCalcOptions : CalcOptions :=
  {| treatSetupFailuresAsFailed := true; treatTeardownFailuresAsFailed := true |}.

(** The result of a hook phase ([hasHooks]) or of the step phase
    ([hasSteps]); [failureReason] is [null] or a string. *)
Record PhaseResult : Type := {
  phaseStatus : string;
  hasItems : bool;
  failureReason : option string
}.

Record StatusDetails : Type := {
  setupStatus : string;
  executionStatus : string;
  teardownStatus : string;
  hasSteps : bool;
  hasSetup : bool;
  hasTeardown : bool
}.

(** What [calculateScenarioStatus] returns; the early return for a missing
    scenario has no [details]. *)
Record StatusResult : Type := {
  status : string;
  reason : string;
  details : option StatusDetails
}.

Definition sanitizeErrorMessage (errorMessage : value) : string :=
  match errorMessage with
  | VStr s =>
      if s =? "" then "Unknown error"
      else if (500 <? String.length s)%nat
           then substring 0 500 s ++ "... (truncated)"
           else trim s
  | _ => "Unknown error"
  end.

Definition getHookStatus (hook : value) : outcome value :=
  if negb (truthy hook) then Ret (VStr "unknown") else
  r <- getp hook "result" ;;
  if truthy r then
    s <- getp r "status" ;;
    Ret (orElse s (VStr "unknown"))
  else
    s <- getp hook "status" ;;
    if truthy s then Ret s else Ret (VStr "unknown").

Definition getStepStatus (step : value) : outcome value :=
  if negb (truthy step) then Ret (VStr "unknown") else
  r <- getp step "result" ;;
  if truthy r then
    s <- getp r "status" ;;
    Ret (orElse s (VStr "unknown"))
  else
    s <- getp step "status" ;;
    if truthy s then Ret s else Ret (VStr "unknown").

Definition extractErrorMessage (item : value) : outcome (option string) :=
  if negb (truthy item) then Ret None else
  r1 <- getp item "result" ;;
  m1 <- andGet r1 "error_message" ;;
  if truthy m1 then Ret (Some (sanitizeErrorMessage m1)) else
  r2 <- getp item "result" ;;
  m2 <- andGet r2 "errorMessage" ;;
  if truthy m2 then Ret (Some (sanitizeErrorMessage m2)) else
  m3 <- getp item "error_message" ;;
  if truthy m3 then Ret (Some (sanitizeErrorMessage m3)) else
  r4 <- getp item "result" ;;
  s4 <- andGet r4 "status" ;;
  if truthy r4 && isStr s4 "failed"
  then Ret (Some "Step or hook failed (no error message available)")
  else Ret None.

(** The [for ... of] loop shared by [analyzeSetupPhase] and
    [analyzeTeardownPhase]: the first failed hook ends it. *)
Fixpoint hookLoop (hooks : list value) (result : PhaseResult)
  : outcome PhaseResult :=
  match hooks with
  | [] => Ret result
  | hook :: rest =>
      hookStatus <- getHookStatus hook ;;
      if isStr hookStatus "failed" then
        msg <- extractErrorMessage hook ;;
        Ret {| phaseStatus := "failed"; hasItems := hasItems result;
               failureReason := msg |}
      else if isStr hookStatus "passed" then
        hookLoop rest {| phaseStatus := "passed"; hasItems := hasItems result;
                         failureReason := failureReason result |}
      else hookLoop rest result
  end.

Definition notExecuted : PhaseResult :=
  {| phaseStatus := "not_executed"; hasItems := false; failureReason := None |}.

Definition analyzeHooks (scenario : value) (key : string) : outcome PhaseResult :=
  hooks <- getp scenario key ;;
  match hooks with
  | VArr l =>
      hookLoop l {| phaseStatus := "not_executed";
                    hasItems := negb (Nat.eqb (List.length l) 0);
                    failureReason := None |}
  | _ => Ret notExecuted
  end.

Definition analyzeSetupPhase (scenario : value) : outcome PhaseResult :=
  analyzeHooks scenario "before".

Definition analyzeTeardownPhase (scenario : value) : outcome PhaseResult :=
  analyzeHooks scenario "after".

(** The local variables of the step loop. *)
Record StepFlags : Type := {
  hasPassedSteps : bool;
  hasFailedSteps : bool;
  hasSkippedSteps : bool;
  stepFailure : option string
}.

Definition noFlags : StepFlags :=
  {| hasPassedSteps := false; hasFailedSteps := false;
     hasSkippedSteps := false; stepFailure := None |}.

Fixpoint stepLoop (steps : list value) (fl : StepFlags) : outcome StepFlags :=
  match steps with
  | [] => Ret fl
  | step :: rest =>
      stepStatus <- getStepStatus step ;;
      if isStr stepStatus "passed" then
        stepLoop rest {| hasPassedSteps := true;
                         hasFailedSteps := hasFailedSteps fl;
                         hasSkippedSteps := hasSkippedSteps fl;
                         stepFailure := stepFailure fl |}
      else if isStr stepStatus "failed" then
        msg <- extractErrorMessage step ;;
        stepLoop rest {| hasPassedSteps := hasPassedSteps fl;
                         hasFailedSteps := true;
                         hasSkippedSteps := hasSkippedSteps fl;
                         stepFailure := msg |}
      else if isStr stepStatus "skipped" then
        stepLoop rest {| hasPassedSteps := hasPassedSteps fl;
                         hasFailedSteps := hasFailedSteps fl;
                         hasSkippedSteps := true;
                         stepFailure := stepFailure fl |}
      else stepLoop rest fl
  end.

Definition executionStatusOf (fl : StepFlags) : string :=
  if hasFailedSteps fl then "failed"
  else if hasPassedSteps fl && negb (hasSkippedSteps fl) then "passed"
  else if hasSkippedSteps fl && negb (hasPassedSteps fl) then "skipped"
  else if hasPassedSteps fl && hasSkippedSteps fl then "mixed"
  else "not_executed".

Definition analyzeExecutionPhase (scenario : value) : outcome PhaseResult :=
  steps <- getp scenario "steps" ;;
  match steps with
  | VArr l =>
      fl <- stepLoop l noFlags ;;
      Ret {| phaseStatus := executionStatusOf fl;
             hasItems := negb (Nat.eqb (List.length l) 0);
             failureReason := stepFailure fl |}
  | _ => Ret notExecuted
  end.

(** [reason || fallback] inside a template literal. *)
Definition reasonOr (r : option string) (fallback : string) : string :=
  match r with
  | Some s => if s =? "" then fallback else s
  | None => fallback
  end.

Definition determineOverallStatus (opts : CalcOptions)
  (setupResult executionResult teardownResult : PhaseResult)
  : string * string :=
  if treatSetupFailuresAsFailed opts && (phaseStatus setupResult =? "failed") then
    ("failed",
     "Setup failed: " ++ reasonOr (failureReason setupResult) "Before hook failed")
  else if treatTeardownFailuresAsFailed opts
          && (phaseStatus teardownResult =? "failed") then
    ("failed",
     "Teardown failed: "
       ++ reasonOr (failureReason teardownResult) "After hook failed")
  else if phaseStatus executionResult =? "failed" then
    ("failed",
     "Test execution failed: "
       ++ reasonOr (failureReason executionResult) "Step failed")
  else if phaseStatus executionResult =? "passed" then
    ("passed", "All steps passed successfully")
  else if phaseStatus executionResult =? "skipped" then
    ("skipped", "Test steps were skipped")
  else if phaseStatus executionResult =? "mixed" then
    ("failed", "Some steps failed or were skipped")
  else if phaseStatus executionResult =? "not_executed" then
    if negb (hasItems executionResult)
    then ("skipped", "No executable steps found")
    else ("unknown", "Steps present but execution status unclear")
  else ("unknown", "Unable to determine execution status").

Definition initialDetails : StatusDetails :=
  {| setupStatus := "not_executed"; executionStatus := "not_executed";
     teardownStatus := "not_executed";
     hasSteps := false; hasSetup := false; hasTeardown := false |}.

(** The [catch] block: the details assigned before the throw stay. *)
Definition caught (d : StatusDetails) (msg : string) : StatusResult :=
  {| status := "error";
     reason := "Status calculation error: " ++ msg;
     details := Some d |}.

(** [String(v)] as a template literal performs it, kept for the one effect
    it can have on a result: the TypeError.  A parsed object that has a
    property [toString] of its own cannot be converted (a JSON value is not
    callable, and [valueOf], its own or the inherited one, does not yield a
    primitive); any other object prints as ["[object Object]"]; an array is
    joined, which converts its entries in turn; every other value converts.
    The message is the one V8 prints. *)
Fixpoint ToString (v : value) : outcome unit :=
  match v with
  | VObj o =>
      match lookup "toString" o with
      | Some _ => Throw "Cannot convert object to primitive value"
      | None => Ret tt
      end
  | VArr l =>
      (fix join (l : list value) : outcome unit :=
         match l with
         | [] => Ret tt
         | x :: rest => _ <- ToString x ;; join rest
         end) l
  | _ => Ret tt
  end.

(** The argument of the [this.log] call that ends the [try] block: the
    template literal converts [scenario.name || 'unnamed'] (the status and
    the reason it also prints are strings).  What [log] then writes to the
    console is no part of the result. *)
Definition logScenario (scenario : value) : outcome unit :=
  ToString (orElse (prop scenario "name") (VStr "unnamed")).

Definition calculateScenarioStatus (opts : CalcOptions) (scenario : value)
  : StatusResult :=
  if negb (truthy scenario) then
    {| status := "unknown"; reason := "Scenario is null or undefined";
       details := None |}
  else
    let d0 := initialDetails in
    match analyzeSetupPhase scenario with
    | Throw m => caught d0 m
    | Ret setupResult =>
        let d1 := {| setupStatus := phaseStatus setupResult;
                     executionStatus := executionStatus d0;
                     teardownStatus := teardownStatus d0;
                     hasSteps := hasSteps d0;
                     hasSetup := hasItems setupResult;
                     hasTeardown := hasTeardown d0 |} in
        match analyzeExecutionPhase scenario with
        | Throw m => caught d1 m
        | Ret executionResult =>
            let d2 := {| setupStatus := setupStatus d1;
                         executionStatus := phaseStatus executionResult;
                         teardownStatus := teardownStatus d1;
                         hasSteps := hasItems executionResult;
                         hasSetup := hasSetup d1;
                         hasTeardown := hasTeardown d1 |} in
            match analyzeTeardownPhase scenario with
            | Throw m => caught d2 m
            | Ret teardownResult =>
                let d3 := {| setupStatus := setupStatus d2;
                             executionStatus := executionStatus d2;
                             teardownStatus := phaseStatus teardownResult;
                             hasSteps := hasSteps d2;
                             hasSetup := hasSetup d2;
                             hasTeardown := hasItems teardownResult |} in
                let overall :=
                  determineOverallStatus opts setupResult executionResult
                    teardownResult in
                match logScenario scenario with
                | Throw m => caught d3 m
                | Ret _ =>
                    {| status := fst overall; reason := snd overall;
                       details := Some d3 |}
                end
            end
        end
    end.

(** [counts] of a feature result. *)
Record Counts : Type := {
  passed : nat;
  failed : nat;
  skipped : nat;
  errors : nat;
  total : nat
}.

(** What [calculateFeatureStatus] returns; the two early returns have no
    [counts]. *)
Record FeatureResult : Type := {
  featureStatus : string;
  featureReason : string;
  counts : option Counts
}.

(** [arr.filter(p)] for a predicate that may throw. *)
Fixpoint filterE (p : value -> outcome bool) (l : list value)
  : outcome (list value) :=
  match l with
  | [] => Ret []
  | x :: rest =>
      b <- p x ;;
      keep <- filterE p rest ;;
      Ret (if b then x :: keep else keep)
  end.

(** [el => el.type !== 'background']. *)
Definition notBackground (el : value) : outcome bool :=
  t <- getp el "type" ;;
  Ret (negb (isStr t "background")).

(** The four counters of the [forEach] over the scenarios. *)
Record Tally : Type := {
  nPassed : nat;
  nFailed : nat;
  nSkipped : nat;
  nErrors : nat
}.

Definition countScenario (opts : CalcOptions) (t : Tally) (scenario : value)
  : Tally :=
  let scenarioStatus := status (calculateScenarioStatus opts scenario) in
  if scenarioStatus =? "passed" then
    {| nPassed := S (nPassed t); nFailed := nFailed t;
       nSkipped := nSkipped t; nErrors := nErrors t |}
  else if scenarioStatus =? "failed" then
    {| nPassed := nPassed t; nFailed := S (nFailed t);
       nSkipped := nSkipped t; nErrors := nErrors t |}
  else if scenarioStatus =? "skipped" then
    {| nPassed := nPassed t; nFailed := nFailed t;
       nSkipped := S (nSkipped t); nErrors := nErrors t |}
  else
    {| nPassed := nPassed t; nFailed := nFailed t;
       nSkipped := nSkipped t; nErrors := S (nErrors t) |}.

Definition countScenarios (opts : CalcOptions) (scenarios : list value) : Tally :=
  fold_left (countScenario opts) scenarios
    {| nPassed := 0; nFailed := 0; nSkipped := 0; nErrors := 0 |}.

Definition aggregate (t : Tally) (n : nat) : string * string :=
  if (0 <? nErrors t)%nat then
    ("error", showNat (nErrors t) ++ " scenarios have errors")
  else if (0 <? nFailed t)%nat then
    ("failed",
     showNat (nFailed t) ++ " of " ++ showNat n ++ " scenarios failed")
  else if (nSkipped t =? n)%nat then ("skipped", "All scenarios were skipped")
  else if (nPassed t =? n)%nat then ("passed", "All scenarios passed")
  else
    ("mixed",
     showNat (nPassed t) ++ " passed, " ++ showNat (nFailed t) ++ " failed, "
       ++ showNat (nSkipped t) ++ " skipped").

Definition calculateFeatureStatus (opts : CalcOptions) (feature : value)
  : outcome FeatureResult :=
  if negb (truthy feature) then
    Ret {| featureStatus := "unknown"; featureReason := "Feature has no scenarios";
           counts := None |}
  else
    elements <- getp feature "elements" ;;
    if negb (truthy elements) then
      Ret {| featureStatus := "unknown";
             featureReason := "Feature has no scenarios"; counts := None |}
    else
      match elements with
      | VArr l =>
          scenarios <- filterE notBackground l ;;
          if (List.length scenarios =? 0)%nat then
            Ret {| featureStatus := "unknown";
                   featureReason := "No executable scenarios found";
                   counts := None |}
          else
            let t := countScenarios opts scenarios in
            let verdict := aggregate t (List.length scenarios) in
            Ret {| featureStatus := fst verdict; featureReason := snd verdict;
                   counts := Some {| passed := nPassed t; failed := nFailed t;
                                     skipped := nSkipped t; errors := nErrors t;
                                     total := List.length scenarios |} |}
      | _ => Throw "feature.elements.filter is not a function"
      end.

(** What [handleSetupFailures] returns. *)
Record SetupFailures : Type := {
  setupFailed : bool;
  teardownFailed : bool;
  setupError : option string;
  teardownError : option string;
  shouldFailTest : bool
}.

(** One of the two loops of [handleSetupFailures]: it stops at the first
    failed hook and yields its error message. *)
Fixpoint firstFailure (hooks : list value) : outcome (option (option string)) :=
  match hooks with
  | [] => Ret None
  | hook :: rest =>
      hookStatus <- getHookStatus hook ;;
      if isStr hookStatus "failed" then
        msg <- extractErrorMessage hook ;;
        Ret (Some msg)
      else firstFailure rest
  end.

(** [hooks && Array.isArray(hooks)] guards each loop. *)
Definition failureIn (hooks : value) : outcome (option (option string)) :=
  match hooks with
  | VArr l => firstFailure l
  | _ => Ret None
  end.

Definition handleSetupFailures (opts : CalcOptions)
  (beforeHooks afterHooks : value) : outcome SetupFailures :=
  b <- failureIn beforeHooks ;;
  a <- failureIn afterHooks ;;
  Ret {| setupFailed := match b with Some _ => true | None => false end;
         teardownFailed := match a with Some _ => true | None => false end;
         setupError := match b with Some m => m | None => None end;
         teardownError := match a with Some m => m | None => None end;
         shouldFailTest :=
           match b with
           | Some _ => treatSetupFailuresAsFailed opts
           | None => false
           end
           || match a with
              | Some _ => treatTeardownFailuresAsFailed opts
              | None => false
              end |}.

(** What [classifyTestResult] returns: one of its own two literals, a
    feature result or a scenario result. *)
Inductive Classification : Type :=
| Unclassified (unclassifiedStatus unclassifiedReason : string)
| FeatureLevel (r : FeatureResult)
| ScenarioLevel (r : StatusResult).

(** [.status] of the object returned. *)
Definition classifiedStatus (c : Classification) : string :=
  match c with
  | Unclassified st _ => st
  | FeatureLevel r => featureStatus r
  | ScenarioLevel r => status r
  end.

Definition classifyTestResult (opts : CalcOptions) (testData : value)
  : outcome Classification :=
  if negb (truthy testData) then
    Ret (Unclassified "error" "No test data provided")
  else if truthy (prop testData "elements") then
    r <- calculateFeatureStatus opts testData ;;
    Ret (FeatureLevel r)
  else if truthy (prop testData "steps") || truthy (prop testData "before")
          || truthy (prop testData "after") then
    Ret (ScenarioLevel (calculateScenarioStatus opts testData))
  else
    Ret (Unclassified "unknown" "Unrecognized test data format").

End TestStatusCalculator.

(* ===================================================================== *)
(** ** DataIntegrityValidator *)
(* ===================================================================== *)

Module DataIntegrityValidator.

(** [this.options]; [strictMode] and [logLevel] play no part in the
    computations below.  The [ErrorHandler] the class calls only logs (its
    own log arrays, the console, local storage) and [recordValidation] only
    appends to [validationHistory]; neither is part of a returned value.
    The percentage is a whole number, as the default 5 is. *)
Record Options : Type := {
  tolerancePercentage : Z
}.

(** [options.tolerancePercentage || 5]. *)
Definition defaultOptions : Options := {| tolerancePercentage := 5 |}.

(** A count object: integer properties by name.  The source holds a count
    as a double, and on whole numbers its arithmetic is the integer
    arithmetic below as long as no sum or product leaves the range up to
    2^53; the tallies of [calculateSummaryFromRawData] never do, and the
    statements about tolerances name the range they are made for.  What the
    tolerance test does beyond it is [flaggedInDoubles]. *)
Definition countSet : Type := list (string * Z).

Fixpoint field (c : countSet) (k : string) : option Z :=
  match c with
  | [] => None
  | (k', n) :: rest => if k' =? k then Some n else field rest k
  end.

(** [c[k] || 0]. *)
Definition fieldOr0 (c : countSet) (k : string) : Z :=
  match field c k with
  | Some n => n
  | None => 0%Z
  end.

(** The object [calculateSummaryFromRawData] fills in. *)
Record Summary : Type := {
  features : Z;
  scenarios : Z;
  steps : Z;
  passed : Z;
  failed : Z;
  skipped : Z;
  errors : Z
}.

Definition emptySummary : Summary :=
  {| features := 0; scenarios := 0; steps := 0; passed := 0; failed := 0;
     skipped := 0; errors := 0 |}.

Definition countsOf (s : Summary) : countSet :=
  [("features", features s); ("scenarios", scenarios s); ("steps", steps s);
   ("passed", passed s); ("failed", failed s); ("skipped", skipped s);
   ("errors", errors s)].

(** [arr.some(p)]: stops at the first hit. *)
Fixpoint someE (p : value -> outcome bool) (l : list value) : outcome bool :=
  match l with
  | [] => Ret false
  | x :: rest =>
      b <- p x ;;
      if b then Ret true else someE p rest
  end.

(** [step => (step.result ? step.result.status : step.status) === lit]. *)
Definition stepHasStatus (lit : string) (step : value) : outcome bool :=
  r <- getp step "result" ;;
  s <- (if truthy r then getp r "status" else getp step "status") ;;
  Ret (isStr s lit).

(** The final [switch] of the scenario callback. *)
Definition bump (s : Summary) (scenarioStatus : string) : Summary :=
  if scenarioStatus =? "passed" then
    {| features := features s; scenarios := scenarios s; steps := steps s;
       passed := passed s + 1; failed := failed s; skipped := skipped s;
       errors := errors s |}
  else if scenarioStatus =? "failed" then
    {| features := features s; scenarios := scenarios s; steps := steps s;
       passed := passed s; failed := failed s + 1; skipped := skipped s;
       errors := errors s |}
  else if scenarioStatus =? "skipped" then
    {| features := features s; scenarios := scenarios s; steps := steps s;
       passed := passed s; failed := failed s; skipped := skipped s + 1;
       errors := errors s |}
  else
    {| features := features s; scenarios := scenarios s; steps := steps s;
       passed := passed s; failed := failed s; skipped := skipped s;
       errors := errors s + 1 |}.

Definition addScenario (s : Summary) (scenario : value) : outcome Summary :=
  t <- getp scenario "type" ;;
  if isStr t "background" then Ret s else
  let s1 := {| features := features s; scenarios := scenarios s + 1;
               steps := steps s; passed := passed s; failed := failed s;
               skipped := skipped s; errors := errors s |} in
  st <- getp scenario "steps" ;;
  match st with
  | VArr l =>
      let s2 := {| features := features s1; scenarios := scenarios s1;
                   steps := steps s1 + Z.of_nat (List.length l);
                   passed := passed s1; failed := failed s1;
                   skipped := skipped s1; errors := errors s1 |} in
      hasFailedSteps <- someE (stepHasStatus "failed") l ;;
      hasPassedSteps <- someE (stepHasStatus "passed") l ;;
      Ret (bump s2 (if hasFailedSteps then "failed"
                    else if hasPassedSteps then "passed" else "skipped"))
  | _ => Ret (bump s1 "unknown")
  end.

(** [arr.forEach] threading the summary the callback mutates. *)
Fixpoint forEachE {A : Type} (f : A -> value -> outcome A) (l : list value)
  (a : A) : outcome A :=
  match l with
  | [] => Ret a
  | x :: rest =>
      a' <- f a x ;;
      forEachE f rest a'
  end.

Definition addFeature (s : Summary) (feature : value) : outcome Summary :=
  let s1 := {| features := features s + 1; scenarios := scenarios s;
               steps := steps s; passed := passed s; failed := failed s;
               skipped := skipped s; errors := errors s |} in
  e1 <- getp feature "elements" ;;
  e2 <- (if truthy e1 then Ret e1 else getp feature "scenarios") ;;
  match orElse e2 (VArr []) with
  | VArr l => forEachE addScenario l s1
  | _ => Throw "elements.forEach is not a function"
  end.

Definition calculateSummaryFromRawData (jsonData : value) : outcome Summary :=
  match jsonData with
  | VArr l => forEachE addFeature l emptySummary
  | _ => Ret emptySummary
  end.

(** The two shapes pushed to [validation.discrepancies]. *)
Inductive Discrepancy : Type :=
| CountMismatch (fld : string) (expected calculated difference : Z)
| CrossValidationMismatch (fld : string)
    (provided calculated difference tolerance : Z).

Definition discrepancyType (d : Discrepancy) : string :=
  match d with
  | CountMismatch _ _ _ _ => "count_mismatch"
  | CrossValidationMismatch _ _ _ _ _ => "cross_validation_mismatch"
  end.

(** [validation.summary]. *)
Record ProvidedSummary : Type := {
  totalTests : Z;
  sumPassed : Z;
  sumFailed : Z;
  sumSkipped : Z;
  sumErrors : Z
}.

(** [validation.summary[field === 'scenarios' ? 'totalTests' : field] || 0]
    for the four fields checked. *)
Definition providedField (s : ProvidedSummary) (fld : string) : Z :=
  if fld =? "scenarios" then totalTests s
  else if fld =? "passed" then sumPassed s
  else if fld =? "failed" then sumFailed s
  else if fld =? "skipped" then sumSkipped s
  else 0%Z.

(** What [validateTestCounts] returns; an issue is kept by its message. *)
Record Validation : Type := {
  isValid : bool;
  issues : list string;
  summary : ProvidedSummary;
  calculatedSummary : option Summary;
  discrepancies : list Discrepancy
}.

(** The callback of [fieldsToCheck.forEach]: the discrepancies so far and
    the validity flag. *)
Definition checkField (opts : Options) (s : ProvidedSummary) (calc : Summary)
  (acc : list Discrepancy * bool) (fld : string) : list Discrepancy * bool :=
  let provided := providedField s fld in
  let calculated := fieldOr0 (countsOf calc) fld in
  if (provided =? calculated)%Z then acc else
  let tolerance := Z.max 1 (provided * tolerancePercentage opts / 100) in
  let difference := Z.abs (provided - calculated) in
  if (tolerance <? difference)%Z then
    (fst acc ++ [CrossValidationMismatch fld provided calculated
                   (calculated - provided) tolerance], false)%list
  else acc.

Definition fieldsToCheck : list string :=
  ["scenarios"; "passed"; "failed"; "skipped"].

Definition validateTestCounts (opts : Options) (sum : countSet)
  (reportData : value) : Validation :=
  let s := {| totalTests := fieldOr0 sum "scenarios";
              sumPassed := fieldOr0 sum "passed";
              sumFailed := fieldOr0 sum "failed";
              sumSkipped := fieldOr0 sum "skipped";
              sumErrors := fieldOr0 sum "errors" |} in
  let expectedTotal := (sumPassed s + sumFailed s + sumSkipped s + sumErrors s)%Z in
  let st1 : list Discrepancy * bool :=
    if (expectedTotal =? totalTests s)%Z then ([], true)
    else ([CountMismatch "total_scenarios" (totalTests s) expectedTotal
             (expectedTotal - totalTests s)], false) in
  if truthy reportData && isArray reportData then
    match calculateSummaryFromRawData reportData with
    | Ret calc =>
        let st2 := fold_left (checkField opts s calc) fieldsToCheck st1 in
        {| isValid := snd st2; issues := []; summary := s;
           calculatedSummary := Some calc; discrepancies := fst st2 |}
    | Throw m =>
        {| isValid := false; issues := [m]; summary := s;
           calculatedSummary := None; discrepancies := fst st1 |}
    end
  else
    {| isValid := snd st1; issues := []; summary := s;
       calculatedSummary := None; discrepancies := fst st1 |}.

(** An entry of [comparison.discrepancies]. *)
Record FieldDiscrepancy : Type := {
  dField : string;
  value1 : Z;
  value2 : Z;
  dDifference : Z;
  dTolerance : Z
}.

(** What [compareCountSets] returns. *)
Record Comparison : Type := {
  comparisonType : string;
  isConsistent : bool;
  compDiscrepancies : list FieldDiscrepancy;
  compTolerance : Z
}.

Definition fieldsToCompare : list string :=
  ["features"; "scenarios"; "steps"; "passed"; "failed"; "skipped"].

(** [Math.max(1, Math.floor(Math.max(v1, v2) * tolerancePercentage / 100))]. *)
Definition toleranceFor (opts : Options) (v1 v2 : Z) : Z :=
  Z.max 1 (Z.max v1 v2 * tolerancePercentage opts / 100).

Definition compareField (opts : Options) (counts1 counts2 : countSet)
  (c : Comparison) (fld : string) : Comparison :=
  let v1 := fieldOr0 counts1 fld in
  let v2 := fieldOr0 counts2 fld in
  if (v1 =? v2)%Z then c else
  let tolerance := toleranceFor opts v1 v2 in
  let difference := Z.abs (v1 - v2) in
  if (tolerance <? difference)%Z then
    {| comparisonType := comparisonType c;
       isConsistent := false;
       compDiscrepancies :=
         (compDiscrepancies c ++
          [{| dField := fld; value1 := v1; value2 := v2;
              dDifference := v2 - v1; dTolerance := tolerance |}])%list;
       compTolerance := compTolerance c |}
  else c.

Definition compareCountSets (opts : Options) (counts1 counts2 : countSet)
  (cmpType : string) : Comparison :=
  fold_left (compareField opts counts1 counts2) fieldsToCompare
    {| comparisonType := cmpType; isConsistent := true;
       compDiscrepancies := []; compTolerance := tolerancePercentage opts |}.






(** [a || b || 0] on two properties of a count object. *)
Definition fieldOrAlias (c : countSet) (k alias : string) : Z :=
  if (fieldOr0 c k =? 0)%Z then fieldOr0 c alias else fieldOr0 c k.

Definition normalizeExpectedCounts (expectedCounts : countSet) : countSet :=
  [("features", fieldOrAlias expectedCounts "features" "totalFeatures");
   ("scenarios", fieldOrAlias expectedCounts "scenarios" "totalScenarios");
   ("steps", fieldOrAlias expectedCounts "steps" "totalSteps");
   ("passed", fieldOrAlias expectedCounts "passed" "totalPassed");
   ("failed", fieldOrAlias expectedCounts "failed" "totalFailed");
   ("skipped", fieldOrAlias expectedCounts "skipped" "totalSkipped");
   ("errors", fieldOrAlias expectedCounts "errors" "totalErrors")].




(** An entry of [validationHistory]. *)
Record HistoryEntry : Type := {
  hTimestamp : string;
  hIsValid : bool;
  issueCount : nat;
  discrepancyCount : nat
}.

(** [recordValidation(validation)] as a function of the history; [now] is
    the time stamp [new Date().toISOString()] yields. *)
Definition recordValidation (now : string) (history : list HistoryEntry)
  (validation : Validation) : list HistoryEntry :=
  let pushed :=
    (history ++ [{| hTimestamp := now;
                    hIsValid := isValid validation;
                    issueCount := List.length (issues validation);
                    discrepancyCount := List.length (discrepancies validation) |}])%list in
  if (20 <? List.length pushed)%nat
  then skipn (List.length pushed - 20) pushed
  else pushed.

End DataIntegrityValidator.

(* ===================================================================== *)
(** ** CucumberJsonValidator *)
(* ===================================================================== *)

Module CucumberJsonValidator.

(** [this.options] after the constructor's defaults ([strictMode] and
    [logLevel] are never read by the sanitizer). *)
Record Options : Type := {
  generatePlaceholders : bool;
  maxErrors : nat
}.

Definition defaultOptions : Options :=
  {| generatePlaceholders := true; maxErrors := 100 |}.

(** An entry of [validationErrors] or [validationWarnings]; the [context]
    object and the [timestamp] are left out. *)
Record Entry : Type := {
  entryType : string;
  location : string;
  message : string
}.

(** The mutable fields of the validator. *)
Record VState : Type := {
  validationErrors : list Entry;
  validationWarnings : list Entry;
  processedEntries : nat;
  skippedEntries : nat
}.

(** [reset()]. *)
Definition reset : VState :=
  {| validationErrors := []; validationWarnings := [];
     processedEntries := 0; skippedEntries := 0 |}.

(** Code that mutates the validator and may throw: the mutations made before
    a throw stay. *)
Definition M (A : Type) : Type := VState -> outcome A * VState.

Definition retM {A : Type} (a : A) : M A := fun st => (Ret a, st).

Definition bindM {A B : Type} (c : M A) (k : A -> M B) : M B :=
  fun st =>
    match c st with
    | (Ret a, st') => k a st'
    | (Throw m, st') => (Throw m, st')
    end.

Definition liftE {A : Type} (c : outcome A) : M A := fun st => (c, st).

(** [try { c } catch (error) { h(error.message) }]. *)
Definition tryCatch {A : Type} (c : M A) (h : string -> M A) : M A :=
  fun st =>
    match c st with
    | (Ret a, st') => (Ret a, st')
    | (Throw m, st') => h m st'
    end.

Declare Scope validator_scope.
Delimit Scope validator_scope with validator.
Notation "x <- c ;; k" := (bindM c (fun x => k))
  (at level 61, c at next level, right associativity) : validator_scope.
Notation "c ;;; k" := (bindM c (fun _ => k))
  (at level 61, right associativity) : validator_scope.

Local Open Scope validator_scope.

Definition addError (opts : Options) (loc msg : string) : M unit :=
  fun st =>
    if (maxErrors opts <=? List.length (validationErrors st))%nat then (Ret tt, st)
    else
      (Ret tt,
       {| validationErrors :=
            (validationErrors st ++
             [{| entryType := "error"; location := loc; message := msg |}])%list;
          validationWarnings := validationWarnings st;
          processedEntries := processedEntries st;
          skippedEntries := skippedEntries st |}).

Definition addWarning (loc msg : string) : M unit :=
  fun st =>
    (Ret tt,
     {| validationErrors := validationErrors st;
        validationWarnings :=
          (validationWarnings st ++
           [{| entryType := "warning"; location := loc; message := msg |}])%list;
        processedEntries := processedEntries st;
        skippedEntries := skippedEntries st |}).

(** [this.skippedEntries++]. *)
Definition incrSkipped : M unit :=
  fun st =>
    (Ret tt,
     {| validationErrors := validationErrors st;
        validationWarnings := validationWarnings st;
        processedEntries := processedEntries st;
        skippedEntries := S (skippedEntries st) |}).

(** [this.processedEntries++]. *)
Definition incrProcessed : M unit :=
  fun st =>
    (Ret tt,
     {| validationErrors := validationErrors st;
        validationWarnings := validationWarnings st;
        processedEntries := S (processedEntries st);
        skippedEntries := skippedEntries st |}).

(** [!v || typeof v !== 'object']. *)
Definition notAnObject (v : value) : bool :=
  negb (truthy v) || negb (typeofObject v).

(** The branch of [sanitizeTestName] for a missing or blank name. *)
Definition replaceName (opts : Options) (fallback type : string) : M string :=
  if generatePlaceholders opts then
    let placeholder := fallback ++ " (auto-generated)" in
    addWarning "Name Sanitization"
      ("Empty " ++ type ++ " name replaced with placeholder: " ++ placeholder) ;;;
    retM placeholder
  else
    addError opts "Name Sanitization" (type ++ " name is null or empty") ;;;
    retM fallback.

Definition sanitizeTestName (opts : Options) (name : value)
  (fallback type : string) : M string :=
  match name with
  | VStr s =>
      if (s =? "") || (trim s =? "") then replaceName opts fallback type
      else retM (trim s)
  | _ => replaceName opts fallback type
  end.

(** [String.prototype.toLowerCase] on code units below 256: the letters A-Z
    and the accented capitals 0xC0-0xDE other than the sign 0xD7. *)
Definition lowerChar (c : ascii) : ascii :=
  let n := nat_of_ascii c in
  if (((65 <=? n) && (n <=? 90))
      || ((192 <=? n) && (n <=? 222) && negb (n =? 215)))%nat
  then ascii_of_nat (n + 32)
  else c.

Fixpoint toLowerCase (s : string) : string :=
  match s with
  | EmptyString => EmptyString
  | String c r => String (lowerChar c) (toLowerCase r)
  end.

(** [s.replace(/[^a-z0-9]/g, '-')]. *)
Definition dashChar (c : ascii) : ascii :=
  let n := nat_of_ascii c in
  if (((97 <=? n) && (n <=? 122)) || ((48 <=? n) && (n <=? 57)))%nat
  then c
  else "-"%char.

Fixpoint dashNonAlnum (s : string) : string :=
  match s with
  | EmptyString => EmptyString
  | String c r => String (dashChar c) (dashNonAlnum r)
  end.

(** [baseName.toLowerCase] exists only on a string. *)
Definition generateId (name : value) (featureIndex scenarioIndex : nat)
  : outcome string :=
  let baseName := orElse name (VStr ("scenario-" ++ showNat scenarioIndex)) in
  match baseName with
  | VStr b =>
      Ret ("feature-" ++ showNat featureIndex ++ "-"
             ++ dashNonAlnum (toLowerCase b) ++ "-" ++ showNat scenarioIndex)
  | _ => Throw "baseName.toLowerCase is not a function"
  end.

Definition defaultResult : value :=
  VObj [("status", VStr "unknown"); ("duration", VNum 0)].

(** After its guard [step] is an array or an object, so the property reads
    of the body cannot throw. *)
Definition sanitizeStep (opts : Options) (step : value)
  (featureIndex scenarioIndex stepIndex : nat) : M (option value) :=
  let loc := "Feature " ++ showNat featureIndex ++ ", Scenario "
               ++ showNat scenarioIndex ++ ", Step " ++ showNat stepIndex in
  if notAnObject step then
    addError opts loc "Step must be an object" ;;;
    retM None
  else
    name <- sanitizeTestName opts (prop step "name")
              ("Step " ++ showNat stepIndex) "step" ;;
    let sanitizedStep :=
      setprop (setprop (spread step) "name" (VStr name))
        "keyword" (orElse (prop step "keyword") (VStr "Given ")) in
    if negb (truthy (prop step "result")) && negb (truthy (prop step "status"))
    then
      addWarning loc "Step missing result/status, defaulting to unknown" ;;;
      retM (Some (VObj (setprop sanitizedStep "result" defaultResult)))
    else retM (Some (VObj sanitizedStep)).

Definition sanitizeHook (hook : value) (type : string) : value :=
  if notAnObject hook then
    VObj [("result", defaultResult);
          ("match", VObj [("location", VStr ("unknown " ++ type ++ " hook"))])]
  else
    VObj (setprop
            (setprop (spread hook) "result"
               (orElse (prop hook "result") defaultResult))
            "match"
            (orElse (prop hook "match")
               (VObj [("location", VStr (type ++ " hook"))]))).

(** [arr.map((x, i) => f(x, i))] from index [i] on. *)
Fixpoint mapiM {B : Type} (f : value -> nat -> M B) (i : nat) (l : list value)
  : M (list B) :=
  match l with
  | [] => retM []
  | x :: rest =>
      y <- f x i ;;
      ys <- mapiM f (S i) rest ;;
      retM (y :: ys)
  end.

(** [arr.filter(x => x !== null)] on the results of [sanitizeStep]. *)
Fixpoint nonNull (l : list (option value)) : list value :=
  match l with
  | [] => []
  | Some v :: rest => v :: nonNull rest
  | None :: rest => nonNull rest
  end.

(** [if (steps && Array.isArray(steps))
      o.steps = steps.map(sanitizeStep).filter(step => step !== null)]. *)
Definition sanitizeSteps (opts : Options) (featureIndex scenarioIndex : nat)
  (o : list (string * value)) (steps : value) : M (list (string * value)) :=
  match steps with
  | VArr l =>
      out <- mapiM (fun step stepIndex =>
                      sanitizeStep opts step featureIndex scenarioIndex
                        stepIndex) 0 l ;;
      retM (setprop o "steps" (VArr (nonNull out)))
  | _ => retM o
  end.

(** [if (hooks && Array.isArray(hooks))
      o.k = hooks.map(hook => sanitizeHook(hook, k))]. *)
Definition sanitizeHooks (o : list (string * value)) (k : string)
  (hooks : value) : list (string * value) :=
  match hooks with
  | VArr l => setprop o k (VArr (map (fun hook => sanitizeHook hook k) l))
  | _ => o
  end.

Definition sanitizeScenario (opts : Options) (scenario : value)
  (featureIndex scenarioIndex : nat) : M (option value) :=
  if notAnObject scenario then
    addError opts
      ("Feature " ++ showNat featureIndex ++ ", Scenario "
         ++ showNat scenarioIndex)
      "Scenario must be an object" ;;;
    retM None
  else
    name <- sanitizeTestName opts (prop scenario "name")
              ("Scenario " ++ showNat scenarioIndex) "scenario" ;;
    id <- (if truthy (prop scenario "id") then retM (prop scenario "id")
           else
             g <- liftE (generateId (prop scenario "name") featureIndex
                           scenarioIndex) ;;
             retM (VStr g)) ;;
    let s1 :=
      setprop (setprop (setprop (spread scenario) "name" (VStr name)) "id" id)
        "type" (orElse (prop scenario "type") (VStr "scenario")) in
    s2 <- sanitizeSteps opts featureIndex scenarioIndex s1
            (prop scenario "steps") ;;
    let s3 := sanitizeHooks s2 "before" (prop scenario "before") in
    let s4 := sanitizeHooks s3 "after" (prop scenario "after") in
    retM (Some (VObj s4)).

(** The [forEach] of [sanitizeFeature]: the scenarios pushed to
    [sanitizedFeature.elements], in order. *)
Fixpoint sanitizeElements (opts : Options) (featureIndex elementIndex : nat)
  (elements : list value) : M (list value) :=
  match elements with
  | [] => retM []
  | element :: rest =>
      pushed <- tryCatch
                  (sanitizedElement <- sanitizeScenario opts element
                                         featureIndex elementIndex ;;
                   match sanitizedElement with
                   | Some v => retM [v]
                   | None => incrSkipped ;;; retM []
                   end)
                  (fun msg =>
                     addError opts
                       ("Feature " ++ showNat featureIndex ++ ", Scenario "
                          ++ showNat elementIndex) msg ;;;
                     retM []) ;;
      later <- sanitizeElements opts featureIndex (S elementIndex) rest ;;
      retM (pushed ++ later)%list
  end.

Definition sanitizeFeature (opts : Options) (feature : value)
  (featureIndex : nat) : M (option value) :=
  if notAnObject feature then
    addError opts ("Feature " ++ showNat featureIndex)
      "Feature must be an object" ;;;
    retM None
  else
    name <- sanitizeTestName opts (prop feature "name")
              ("Feature " ++ showNat featureIndex) "feature" ;;
    let sanitizedFeature := setprop (spread feature) "name" (VStr name) in
    let elements :=
      orElse (orElse (prop feature "elements") (prop feature "scenarios"))
        (VArr []) in
    pushed <- match elements with
              | VArr l => sanitizeElements opts featureIndex 0 l
              | _ => retM []
              end ;;
    retM (Some (VObj (setprop sanitizedFeature "elements" (VArr pushed)))).

(** [validateBasicStructure]. *)
Definition validateBasicStructure (opts : Options) (json : value) : M bool :=
  match json with
  | VArr l =>
      if (List.length l =? 0)%nat
      then addWarning "Root" "Empty features array" ;;; retM true
      else retM true
  | _ =>
      addError opts "Root" "Cucumber JSON must be an array of features" ;;;
      retM false
  end.

(** [countOriginalEntries]: [feature.elements] is read unguarded. *)
Fixpoint countEntries (l : list value) (count : nat) : outcome nat :=
  match l with
  | [] => Ret count
  | feature :: rest =>
      (elements <- getp feature "elements" ;;
       match elements with
       | VArr els => countEntries rest (S count + List.length els)
       | _ => countEntries rest (S count)
       end)%exn
  end.

Definition countOriginalEntries (json : value) : outcome nat :=
  match json with
  | VArr l => countEntries l 0
  | _ => Ret 0
  end.

(** An entry of [result.skippedEntries]. *)
Record SkippedEntry : Type := {
  skippedType : string;
  skippedIndex : nat;
  skippedReason : string
}.

(** The [forEach] of [validateReport]: the features pushed to
    [sanitizedFeatures] and the entries pushed to [result.skippedEntries]. *)
Fixpoint sanitizeFeatures (opts : Options) (featureIndex : nat)
  (features : list value) : M (list value * list SkippedEntry) :=
  match features with
  | [] => retM ([], [])
  | feature :: rest =>
      one <- tryCatch
               (sanitizedFeature <- sanitizeFeature opts feature featureIndex ;;
                match sanitizedFeature with
                | Some v => incrProcessed ;;; retM ([v], [])
                | None =>
                    incrSkipped ;;;
                    retM ([], [{| skippedType := "feature";
                                  skippedIndex := featureIndex;
                                  skippedReason := "Failed sanitization" |}])
                end)
               (fun msg =>
                  addError opts ("Feature " ++ showNat featureIndex) msg ;;;
                  incrSkipped ;;;
                  retM ([], [{| skippedType := "feature";
                                skippedIndex := featureIndex;
                                skippedReason := msg |}])) ;;
      later <- sanitizeFeatures opts (S featureIndex) rest ;;
      retM (fst one ++ fst later, snd one ++ snd later)%list
  end.

(** What [validateReport] returns ([skipped] is [result.skippedEntries];
    [sanitizedData] is [VNull] where the source leaves it [null]). *)
Record ValidationResult : Type := {
  isValid : bool;
  errors : list Entry;
  warnings : list Entry;
  sanitizedData : value;
  originalEntryCount : nat;
  processedEntryCount : nat;
  skipped : list SkippedEntry
}.

Definition features_of (json : value) : list value :=
  match json with VArr l => l | _ => [] end.

(** The body of the outer [try] after the structure check. *)
Definition sanitizeAll (opts : Options) (json : value) : M ValidationResult :=
  count <- liftE (countOriginalEntries json) ;;
  out <- sanitizeFeatures opts 0 (features_of json) ;;
  fun st =>
    (Ret {| isValid := (List.length (validationErrors st) =? 0)%nat;
            errors := validationErrors st;
            warnings := validationWarnings st;
            sanitizedData := VArr (fst out);
            originalEntryCount := count;
            processedEntryCount := processedEntries st;
            skipped := snd out |}, st).

(** [validateReport(json, filename)]; [filename] only occurs in the context
    objects and in the log line.  The outer [catch] finds [result] as it was
    initialised, since every assignment to it follows the last call that can
    throw. *)
Definition validateReport (opts : Options) (json : value) : ValidationResult :=
  match validateBasicStructure opts json reset with
  | (Ret false, st) =>
      {| isValid := false; errors := validationErrors st; warnings := [];
         sanitizedData := VNull; originalEntryCount := 0;
         processedEntryCount := 0; skipped := [] |}
  | (Ret true, st) =>
      match sanitizeAll opts json st with
      | (Ret result, _) => result
      | (Throw msg, _) =>
          {| isValid := false;
             errors := [{| entryType := "critical"; location := "";
                           message := "Critical validation error: " ++ msg |}];
             warnings := []; sanitizedData := VNull; originalEntryCount := 0;
             processedEntryCount := 0; skipped := [] |}
      end
  | (Throw msg, _) =>
      {| isValid := false;
         errors := [{| entryType := "critical"; location := "";
                       message := "Critical validation error: " ++ msg |}];
         warnings := []; sanitizedData := VNull; originalEntryCount := 0;
         processedEntryCount := 0; skipped := [] |}
  end.

(** The [context] argument of [handleMalformedEntry]: [fallbackName] is any
    value, the two indices are numbers (a missing index counts as 0, which
    is what [context.featureIndex || 0] makes of it). *)
Record RecoveryContext : Type := {
  fallbackName : value;
  featureIndex : nat;
  scenarioIndex : nat
}.

(** What [handleMalformedEntry] returns. *)
Record Recovery : Type := {
  recovered : bool;
  sanitizedEntry : value;
  recoveryErrors : list string
}.

(** [typeof v] for a value that is not an object. *)
Definition typeofName (v : value) : string :=
  match v with
  | VUndefined => "undefined"
  | VBool _ => "boolean"
  | VNum _ => "number"
  | VStr _ => "string"
  | VNull | VArr _ | VObj _ => "object"
  end.

(** [o.k] on the property list of an object. *)
Definition read (o : list (string * value)) (k : string) : value :=
  match lookup k o with Some x => x | None => VUndefined end.

Definition handleMalformedEntry (entry : value) (context : RecoveryContext)
  : Recovery :=
  if negb (truthy entry) then
    {| recovered := false; sanitizedEntry := VNull;
       recoveryErrors := ["Entry is null or undefined"] |}
  else if negb (typeofObject entry) then
    {| recovered := false; sanitizedEntry := VNull;
       recoveryErrors := ["Entry is not an object: " ++ typeofName entry] |}
  else
    let sanitized := spread entry in
    let named :=
      if negb (truthy (read sanitized "name"))
      then setprop sanitized "name"
             (orElse (fallbackName context) (VStr "Recovered Entry"))
      else sanitized in
    if negb (truthy (read named "id")) then
      match generateId (read named "name") (featureIndex context)
              (scenarioIndex context) with
      | Ret id =>
          {| recovered := true;
             sanitizedEntry := VObj (setprop named "id" (VStr id));
             recoveryErrors := [] |}
      | Throw msg =>
          {| recovered := false; sanitizedEntry := VNull;
             recoveryErrors := ["Recovery failed: " ++ msg] |}
      end
    else
      {| recovered := true; sanitizedEntry := VObj named;
         recoveryErrors := [] |}.

End CucumberJsonValidator.

(* ===================================================================== *)
(** ** ReportService *)
(* ===================================================================== *)

Module ReportService.

Import DataIntegrityValidator.

(** The two collaborators the functions below call. *)
Record Service : Type := {
  statusCalculator : TestStatusCalculator.CalcOptions;
  integrityValidator : DataIntegrityValidator.Options
}.

(** [new ReportService()]: both flags of the calculator on, a tolerance of
    5 percent. *)
Definition newReportService : Service :=
  {| statusCalculator :=
       {| TestStatusCalculator.treatSetupFailuresAsFailed := true;
          TestStatusCalculator.treatTeardownFailuresAsFailed := true |};
     integrityValidator := {| tolerancePercentage := 5 |} |}.

(** The objects the calculator returns, as the values stored under
    [_calculatedStatus]. *)
Definition statusDetailsValue (d : TestStatusCalculator.StatusDetails) : value :=
  VObj [("setupStatus", VStr (TestStatusCalculator.setupStatus d));
        ("executionStatus", VStr (TestStatusCalculator.executionStatus d));
        ("teardownStatus", VStr (TestStatusCalculator.teardownStatus d));
        ("hasSteps", VBool (TestStatusCalculator.hasSteps d));
        ("hasSetup", VBool (TestStatusCalculator.hasSetup d));
        ("hasTeardown", VBool (TestStatusCalculator.hasTeardown d))].

Definition statusResultValue (r : TestStatusCalculator.StatusResult) : value :=
  VObj ([("status", VStr (TestStatusCalculator.status r));
         ("reason", VStr (TestStatusCalculator.reason r))]
          ++ match TestStatusCalculator.details r with
             | Some d => [("details", statusDetailsValue d)]
             | None => []
             end)%list.

Definition countsValue (c : TestStatusCalculator.Counts) : value :=
  VObj [("passed", VNum (Z.of_nat (TestStatusCalculator.passed c)));
        ("failed", VNum (Z.of_nat (TestStatusCalculator.failed c)));
        ("skipped", VNum (Z.of_nat (TestStatusCalculator.skipped c)));
        ("errors", VNum (Z.of_nat (TestStatusCalculator.errors c)));
        ("total", VNum (Z.of_nat (TestStatusCalculator.total c)))].

Definition featureResultValue (r : TestStatusCalculator.FeatureResult) : value :=
  VObj ([("status", VStr (TestStatusCalculator.featureStatus r));
         ("reason", VStr (TestStatusCalculator.featureReason r))]
          ++ match TestStatusCalculator.counts r with
             | Some c => [("counts", countsValue c)]
             | None => []
             end)%list.

(** [{...v}] for any value: a string spreads into its characters, [null],
    [undefined], a number and a boolean into nothing. *)
Definition spreadAny (v : value) : list (string * value) :=
  match v with
  | VStr s =>
      indexed 0 (map (fun c => VStr (String c EmptyString))
                   (list_ascii_of_string s))
  | _ => spread v
  end.

(** [arr.map(f)] for a callback that may throw. *)
Fixpoint mapE {A B : Type} (f : A -> outcome B) (l : list A)
  : outcome (list B) :=
  match l with
  | [] => Ret []
  | x :: rest =>
      y <- f x ;;
      ys <- mapE f rest ;;
      Ret (y :: ys)
  end.

(** The callback of [feature.elements.map]. *)
Definition enhanceScenario (this : Service) (scenario : value) : value :=
  VObj (setprop (spreadAny scenario) "_calculatedStatus"
          (statusResultValue
             (TestStatusCalculator.calculateScenarioStatus
                (statusCalculator this) scenario))).

(** The callback of [reportData.map]. *)
Definition enhanceFeature (this : Service) (feature : value) : outcome value :=
  featureStatus <-
    TestStatusCalculator.calculateFeatureStatus (statusCalculator this) feature ;;
  let enhancedFeature :=
    setprop (spreadAny feature) "_calculatedStatus"
      (featureResultValue featureStatus) in
  elements <- getp feature "elements" ;;
  match elements with
  | VArr l =>
      Ret (VObj (setprop enhancedFeature "elements"
                   (VArr (map (enhanceScenario this) l))))
  | _ => Ret (VObj enhancedFeature)
  end.

Definition enhanceReportWithAccurateStatus (this : Service) (reportData : value)
  : outcome value :=
  match reportData with
  | VArr l =>
      enhancedFeatures <- mapE (enhanceFeature this) l ;;
      Ret (VArr enhancedFeatures)
  | _ => Ret reportData
  end.

(** The [switch] of [extractAccurateTestCounts]; the status read from
    [_calculatedStatus] is any value. *)
Definition countStatus (counts : Summary) (scenarioStatus : value) : Summary :=
  if isStr scenarioStatus "passed" then
    {| features := features counts; scenarios := scenarios counts;
       steps := steps counts; passed := passed counts + 1;
       failed := failed counts; skipped := skipped counts;
       errors := errors counts |}
  else if isStr scenarioStatus "failed" then
    {| features := features counts; scenarios := scenarios counts;
       steps := steps counts; passed := passed counts;
       failed := failed counts + 1; skipped := skipped counts;
       errors := errors counts |}
  else if isStr scenarioStatus "skipped" then
    {| features := features counts; scenarios := scenarios counts;
       steps := steps counts; passed := passed counts;
       failed := failed counts; skipped := skipped counts + 1;
       errors := errors counts |}
  else
    {| features := features counts; scenarios := scenarios counts;
       steps := steps counts; passed := passed counts;
       failed := failed counts; skipped := skipped counts;
       errors := errors counts + 1 |}.

(** The callback of [feature.elements.forEach]. *)
Definition countScenario (this : Service) (counts : Summary) (scenario : value)
  : outcome Summary :=
  t <- getp scenario "type" ;;
  if isStr t "background" then Ret counts else
  let c1 := {| features := features counts; scenarios := scenarios counts + 1;
               steps := steps counts; passed := passed counts;
               failed := failed counts; skipped := skipped counts;
               errors := errors counts |} in
  let calculated := prop scenario "_calculatedStatus" in
  let scenarioStatus :=
    if truthy calculated then prop calculated "status"
    else VStr (TestStatusCalculator.status
                 (TestStatusCalculator.calculateScenarioStatus
                    (statusCalculator this) scenario)) in
  let c2 := countStatus c1 scenarioStatus in
  match prop scenario "steps" with
  | VArr l =>
      Ret {| features := features c2; scenarios := scenarios c2;
             steps := steps c2 + Z.of_nat (List.length l);
             passed := passed c2; failed := failed c2;
             skipped := skipped c2; errors := errors c2 |}
  | _ => Ret c2
  end.

(** The callback of [reportData.forEach]. *)
Definition countFeature (this : Service) (counts : Summary) (feature : value)
  : outcome Summary :=
  let c1 := {| features := features counts + 1; scenarios := scenarios counts;
               steps := steps counts; passed := passed counts;
               failed := failed counts; skipped := skipped counts;
               errors := errors counts |} in
  elements <- getp feature "elements" ;;
  match elements with
  | VArr l => forEachE (countScenario this) l c1
  | _ => Ret c1
  end.

Definition extractAccurateTestCounts (this : Service) (reportData : value)
  : outcome Summary :=
  match reportData with
  | VArr l => forEachE (countFeature this) l emptySummary
  | _ => Ret emptySummary
  end.

(** The class defines [validateReportConsistency] twice; the second
    definition is the one a class body keeps. *)
Definition validateReportConsistency (this : Service) (reportData : value)
  : outcome Validation :=
  counts <- extractAccurateTestCounts this reportData ;;
  Ret (validateTestCounts (integrityValidator this) (countsOf counts)
         reportData).

End ReportService.

(* ===================================================================== *)
(** ** Vocabulary of the statements *)
(* ===================================================================== *)

(** [v] is [null] or [undefined]. *)
Definition nullish (v : value) : bool :=
  match v with VUndefined | VNull => true | _ => false end.

(** [v] converts to a string without a TypeError.  Strings, numbers,
    booleans, [null] and [undefined] do, and so does a missing name. *)
Definition printable (v : value) : Prop :=
  TestStatusCalculator.ToString v = Ret tt.

(** A scenario without steps or hooks whose name is the parsed object
    [{"toString": 1}]. *)
Definition unprintableScenario : value :=
  VObj [("name", VObj [("toString", VNum 1)])].

(** [v] holds no items: it is missing, not an array, or an empty array. *)
Definition noItems (v : value) : bool :=
  match v with VArr (_ :: _) => false | _ => true end.

(** [el.type !== 'background']: the element counts as a scenario. *)
Definition isScenario (el : value) : bool :=
  negb (isStr (prop el "type") "background").

(** The matching rule in the words of the specification:
    [|a-b| <= max(1, floor(max(a,b) * tolerancePercentage/100))]. *)
Definition withinTolerance (pct a b : Z) : Prop :=
  (Z.abs (a - b) <= Z.max 1 (Z.max a b * pct / 100))%Z.


(** The discrepancy entry [compareCountSets] pushes for a field. *)
Definition fieldEntry (opts : DataIntegrityValidator.Options)
  (counts1 counts2 : DataIntegrityValidator.countSet) (fld : string)
  : DataIntegrityValidator.FieldDiscrepancy :=
  let a := DataIntegrityValidator.fieldOr0 counts1 fld in
  let b := DataIntegrityValidator.fieldOr0 counts2 fld in
  {| DataIntegrityValidator.dField := fld;
     DataIntegrityValidator.value1 := a;
     DataIntegrityValidator.value2 := b;
     DataIntegrityValidator.dDifference := b - a;
     DataIntegrityValidator.dTolerance :=
       DataIntegrityValidator.toleranceFor opts a b |}.

(** A step in the canonical shape [{name, result: {status}}]. *)
Definition stepWith (st : string) : value :=
  VObj [("name", VStr "s"); ("result", VObj [("status", VStr st)])].

(** A hook in the canonical shape [{result: {status}}]. *)
Definition hookWith (st : string) : value :=
  VObj [("result", VObj [("status", VStr st)])].

(** A scenario all of whose steps have the given status. *)
Definition scenarioWith (st : string) : value :=
  VObj [("type", VStr "scenario"); ("steps", VArr [stepWith st])].

(** A feature with a background and three scenarios. *)
Definition exampleFeature : value :=
  VObj [("name", VStr "F");
        ("elements",
         VArr [VObj [("type", VStr "background");
                     ("steps", VArr [stepWith "passed"])];
               scenarioWith "passed";
               VObj [("steps", VArr [stepWith "passed"; stepWith "skipped"])];
               scenarioWith "pending"])].

(** A feature whose only element is a background. *)
Definition backgroundOnlyFeature : value :=
  VObj [("name", VStr "B");
        ("elements", VArr [VObj [("type", VStr "background")]])].

(** Scenario 2, Scenario 3 and an empty scenario of the specification. *)
Definition setupFailureScenario : value :=
  VObj [("before", VArr [hookWith "failed"]);
        ("steps", VArr [stepWith "passed"; stepWith "passed"])].

Definition mixedScenario : value :=
  VObj [("steps", VArr [stepWith "passed"; stepWith "skipped"])].

Definition emptyScenario : value := VObj [("name", VStr "S")].

(** A report whose only step has a legacy [status] and no [result], and one
    whose only step has neither. *)
Definition statusOnlyReport : value :=
  VArr [VObj [("name", VStr "F");
              ("elements",
               VArr [VObj [("name", VStr "S"); ("id", VStr "f;s");
                           ("type", VStr "scenario");
                           ("steps",
                            VArr [VObj [("name", VStr "s");
                                        ("status", VStr "passed")]])]])]].

Definition bareStepReport : value :=
  VArr [VObj [("name", VStr "F");
              ("elements",
               VArr [VObj [("name", VStr "S"); ("id", VStr "f;s");
                           ("type", VStr "scenario");
                           ("steps", VArr [VObj [("name", VStr "s")]])]])]].

(** The only step of [bareStepReport], sanitized. *)
Definition defaultedStep : value :=
  VObj [("name", VStr "s"); ("keyword", VStr "Given ");
        ("result", CucumberJsonValidator.defaultResult)].

(** A scenario whose steps pass and whose [after] hook fails. *)
Definition teardownFailureScenario : value :=
  VObj [("steps", VArr [stepWith "passed"]);
        ("after", VArr [hookWith "failed"])].

(** [new TestStatusCalculator({treatSetupFailuresAsFailed: false,
    treatTeardownFailuresAsFailed: false})]. *)
Definition lenientCalcOptions : TestStatusCalculator.CalcOptions :=
  {| TestStatusCalculator.treatSetupFailuresAsFailed := false;
     TestStatusCalculator.treatTeardownFailuresAsFailed := false |}.

(** The statuses of the non-background elements of a feature, in order. *)
Definition scenarioStatuses (opts : TestStatusCalculator.CalcOptions)
  (els : list value) : list string :=
  map (fun scenario =>
         TestStatusCalculator.status
           (TestStatusCalculator.calculateScenarioStatus opts scenario))
    (filter isScenario els).

(** How many of the statuses are [lit]. *)
Definition countOf (lit : string) (sts : list string) : nat :=
  List.length (filter (fun st => st =? lit) sts).

(** What the raw summary keeps true across scenarios and features: the four
    status counts add up to the scenario count, and no count is negative. *)
Definition balanced (s : DataIntegrityValidator.Summary) : Prop :=
  (DataIntegrityValidator.passed s + DataIntegrityValidator.failed s
   + DataIntegrityValidator.skipped s + DataIntegrityValidator.errors s
   = DataIntegrityValidator.scenarios s
   /\ 0 <= DataIntegrityValidator.scenarios s
   /\ 0 <= DataIntegrityValidator.steps s
   /\ 0 <= DataIntegrityValidator.passed s
   /\ 0 <= DataIntegrityValidator.failed s
   /\ 0 <= DataIntegrityValidator.skipped s
   /\ 0 <= DataIntegrityValidator.errors s)%Z.

(** A report with a [null] entry between two features. *)
Definition nullEntryReport : value :=
  VArr [VObj [("name", VStr "F"); ("elements", VArr [scenarioWith "passed"])];
        VNull;
        VObj [("name", VStr "G"); ("elements", VArr [scenarioWith "failed"])]].

(** The features a report holds: its entries, or none when it is not an
    array. *)
Definition itemsOfReport (jsonData : value) : list value :=
  match jsonData with
  | VArr l => l
  | _ => []
  end.

(** Scenario 4 of the specification: the provided summary, and a raw report
    of 11 scenarios counted as 7 passed, 2 failed and 2 skipped. *)
Definition scenario4Summary : DataIntegrityValidator.countSet :=
  [("scenarios", 10%Z); ("passed", 7%Z); ("failed", 2%Z); ("skipped", 1%Z)].

Definition scenario4Report : value :=
  VArr [VObj [("name", VStr "F");
              ("elements",
               VArr (List.repeat (scenarioWith "passed") 7
                     ++ List.repeat (scenarioWith "failed") 2
                     ++ List.repeat (scenarioWith "skipped") 2)%list)]].

(** The key starts with a decimal digit, as every index key does. *)
Definition headDigit (k : string) : bool :=
  match k with
  | String c _ => ((48 <=? nat_of_ascii c) && (nat_of_ascii c <=? 57))%nat
  | EmptyString => false
  end.

(** No character of the string is white space. *)
Fixpoint noWhiteSpace (s : string) : bool :=
  match s with
  | EmptyString => true
  | String c r => negb (isWhiteSpace c) && noWhiteSpace r
  end.

(** A name the sanitizer leaves alone: not empty and already trimmed. *)
Definition stableName (n : string) : Prop := n <> "" /\ trim n = n.

(** Sanitizing the value again, at any index and in any state of the
    validator, returns it unchanged. *)
Definition stableStep (opts : CucumberJsonValidator.Options) (v : value) : Prop :=
  forall fi si sti st,
  exists st',
    CucumberJsonValidator.sanitizeStep opts v fi si sti st = (Ret (Some v), st').

Definition stableScenario (opts : CucumberJsonValidator.Options) (v : value)
  : Prop :=
  forall fi si st,
  exists st',
    CucumberJsonValidator.sanitizeScenario opts v fi si st = (Ret (Some v), st').

Definition stableFeature (opts : CucumberJsonValidator.Options) (v : value)
  : Prop :=
  forall fi st,
  exists st',
    CucumberJsonValidator.sanitizeFeature opts v fi st = (Ret (Some v), st').

(** The object [sanitizeStep] builds from a step and its sanitized name. *)
Definition stepObject (step : value) (name : string) : list (string * value) :=
  let base :=
    setprop (setprop (spread step) "name" (VStr name))
      "keyword" (orElse (prop step "keyword") (VStr "Given ")) in
  if negb (truthy (prop step "result")) && negb (truthy (prop step "status"))
  then setprop base "result" CucumberJsonValidator.defaultResult
  else base.

(** [if (steps is an array) o.steps = out]. *)
Definition withSteps (o : list (string * value)) (steps : value)
  (out : list value) : list (string * value) :=
  match steps with
  | VArr _ => setprop o "steps" (VArr out)
  | _ => o
  end.

(** The object [sanitizeScenario] builds from a scenario, its sanitized
    name, its id and its sanitized steps. *)
Definition scenarioObject (scenario : value) (name : string) (id : value)
  (out : list value) : list (string * value) :=
  let s1 :=
    setprop (setprop (setprop (spread scenario) "name" (VStr name)) "id" id)
      "type" (orElse (prop scenario "type") (VStr "scenario")) in
  let s2 := withSteps s1 (prop scenario "steps") out in
  let s3 :=
    CucumberJsonValidator.sanitizeHooks s2 "before" (prop scenario "before") in
  CucumberJsonValidator.sanitizeHooks s3 "after" (prop scenario "after").

(** The object [sanitizeFeature] builds from a feature, its sanitized name
    and its sanitized elements. *)
Definition featureObject (feature : value) (name : string)
  (pushed : list value) : list (string * value) :=
  setprop (setprop (spread feature) "name" (VStr name))
    "elements" (VArr pushed).

(** A step with a truthy [result] or a truthy [status]. *)
Definition goodStep (step : value) : Prop :=
  truthy (prop step "result") = true \/ truthy (prop step "status") = true.

Definition goodScenario (scenario : value) : Prop :=
  forall steps, prop scenario "steps" = VArr steps -> Forall goodStep steps.

Definition goodFeature (feature : value) : Prop :=
  forall els, prop feature "elements" = VArr els -> Forall goodScenario els.

(** The steps and the hooks the calculator iterates over: the array under
    the key, or nothing when the key holds no array. *)
Definition itemsOf (scenario : value) (key : string) : list value :=
  match prop scenario key with
  | VArr l => l
  | _ => []
  end.

(** Some step of the scenario is read with the given status. *)
Definition someStep (scenario : value) (lit : string) : Prop :=
  exists s,
    In s (itemsOf scenario "steps")
    /\ TestStatusCalculator.getStepStatus s = Ret (VStr lit).

(** Some hook under [key] is read with the given status. *)
Definition someHook (scenario : value) (key lit : string) : Prop :=
  exists h,
    In h (itemsOf scenario key)
    /\ TestStatusCalculator.getHookStatus h = Ret (VStr lit).

(** The raw summary of [scenario4Report]. *)
Definition scenario4Counts : DataIntegrityValidator.Summary :=
  {| DataIntegrityValidator.features := 1;
     DataIntegrityValidator.scenarios := 11;
     DataIntegrityValidator.steps := 11;
     DataIntegrityValidator.passed := 7;
     DataIntegrityValidator.failed := 2;
     DataIntegrityValidator.skipped := 2;
     DataIntegrityValidator.errors := 0 |}.

(** The collected errors respect the cap [maxErrors]. *)
Definition errorsWithin (opts : CucumberJsonValidator.Options)
  (st : CucumberJsonValidator.VState) : Prop :=
  List.length (CucumberJsonValidator.validationErrors st)
  <= CucumberJsonValidator.maxErrors opts.

(** How the validator's fields may change while one feature is sanitized:
    the counter of processed entries stays, the cap on the errors is kept,
    and no collected error is lost. *)
Definition evolves (opts : CucumberJsonValidator.Options)
  (st st' : CucumberJsonValidator.VState) : Prop :=
  CucumberJsonValidator.processedEntries st'
  = CucumberJsonValidator.processedEntries st
  /\ (errorsWithin opts st -> errorsWithin opts st')
  /\ List.length (CucumberJsonValidator.validationErrors st)
     <= List.length (CucumberJsonValidator.validationErrors st').

(** The code [c] changes the validator only in that way, whether it returns
    or throws. *)
Definition keeps (opts : CucumberJsonValidator.Options) {A : Type}
  (c : CucumberJsonValidator.M A) : Prop :=
  forall st, evolves opts st (snd (c st)).

(** The characters of a generated id: lower-case letters, digits, dash. *)
Definition idChar (c : ascii) : bool :=
  let n := nat_of_ascii c in
  (((97 <=? n) && (n <=? 122)) || ((48 <=? n) && (n <=? 57)) || (n =? 45))%nat.

Fixpoint allChars (p : ascii -> bool) (s : string) : bool :=
  match s with
  | EmptyString => true
  | String c r => p c && allChars p r
  end.

(** The entry has a name that is a non-empty, trimmed string. *)
Definition namedWell (v : value) : Prop :=
  exists n, prop v "name" = VStr n /\ stableName n.

(** A report with a [before] hook that is [null]. *)
Definition nullHookReport : value :=
  VArr [VObj [("name", VStr "F");
              ("elements",
               VArr [VObj [("name", VStr "S"); ("id", VStr "f;s");
                           ("before", VArr [VNull]);
                           ("steps", VArr [stepWith "passed"])]])]].

(** A report whose two scenarios each have a passed and a skipped step. *)
Definition twoMixedReport : value :=
  VArr [VObj [("name", VStr "F");
              ("elements", VArr [mixedScenario; mixedScenario])]].

(** What the service counts in [twoMixedReport]. *)
Definition twoMixedCounts : DataIntegrityValidator.Summary :=
  {| DataIntegrityValidator.features := 1;
     DataIntegrityValidator.scenarios := 2;
     DataIntegrityValidator.steps := 4;
     DataIntegrityValidator.passed := 0;
     DataIntegrityValidator.failed := 2;
     DataIntegrityValidator.skipped := 0;
     DataIntegrityValidator.errors := 0 |}.

(** No scenario of the report carries a [_calculatedStatus] of its own. *)
Definition noStaleStatus (reportData : value) : Prop :=
  forall f sc,
    In f (itemsOfReport reportData) ->
    In sc (itemsOf f "elements") ->
    truthy (prop sc "_calculatedStatus") = false.

(** A scenario both counters can read: it is not [null] or [undefined], and
    neither is any step of its [steps] array. *)
Definition countableScenario (sc : value) : Prop :=
  nullish sc = false
  /\ forall l st, prop sc "steps" = VArr l -> In st l -> nullish st = false.

(** A feature whose [elements] are an array of such scenarios. *)
Definition countableFeature (f : value) : Prop :=
  exists els,
    prop f "elements" = VArr els /\ Forall countableScenario els.

(** The two counters agree on features, scenarios and steps. *)
Definition sameSizes (a b : DataIntegrityValidator.Summary) : Prop :=
  DataIntegrityValidator.features a = DataIntegrityValidator.features b
  /\ DataIntegrityValidator.scenarios a = DataIntegrityValidator.scenarios b
  /\ DataIntegrityValidator.steps a = DataIntegrityValidator.steps b.

(** The name [handleMalformedEntry] derives an id from. *)
Definition recoveryName (entry : value)
  (context : CucumberJsonValidator.RecoveryContext) : value :=
  orElse (prop entry "name")
    (orElse (CucumberJsonValidator.fallbackName context)
       (VStr "Recovered Entry")).

(* ===================================================================== *)
(** ** Properties of the status calculator *)
(* ===================================================================== *)

Section StatusCalculator.

Import TestStatusCalculator.

Lemma truthy_not_nullish (v : value) : truthy v = true -> nullish v = false.
Proof. destruct v; simpl; congruence. Qed.

Lemma getp_ok (v : value) (k : string) :
  nullish v = false -> getp v k = Ret (prop v k).
Proof. destruct v; simpl; congruence. Qed.

Lemma getp_truthy (v : value) (k : string) :
  truthy v = true -> getp v k = Ret (prop v k).
Proof. intro H. apply getp_ok, truthy_not_nullish, H. Qed.

Lemma andGet_total (a : value) (k : string) : exists x, andGet a k = Ret x.
Proof.
  unfold andGet. destruct (truthy a) eqn:T.
  - rewrite getp_truthy by exact T. eauto.
  - eauto.
Qed.

Lemma isStr_true (v : value) (lit : string) :
  isStr v lit = true <-> v = VStr lit.
Proof.
  destruct v; simpl; split; try congruence.
  - intro H. apply String.eqb_eq in H. congruence.
  - intro H. injection H as ->. apply String.eqb_refl.
Qed.

Lemma isStr_false (v : value) (lit : string) :
  isStr v lit = false <-> v <> VStr lit.
Proof.
  rewrite <- isStr_true. destruct (isStr v lit); split; congruence.
Qed.

(** Reading the status of a hook or of a step never throws. *)
Lemma getHookStatus_total (hook : value) : exists s, getHookStatus hook = Ret s.
Proof.
  unfold getHookStatus. destruct (truthy hook) eqn:T; simpl; [|eauto].
  rewrite (getp_truthy hook "result" T); simpl.
  destruct (truthy (prop hook "result")) eqn:R.
  - rewrite (getp_truthy _ "status" R); simpl. eauto.
  - rewrite (getp_truthy hook "status" T); simpl.
    destruct (truthy (prop hook "status")); eauto.
Qed.

Lemma getStepStatus_total (step : value) : exists s, getStepStatus step = Ret s.
Proof. exact (getHookStatus_total step). Qed.

Lemma extractErrorMessage_total (item : value) :
  exists m, extractErrorMessage item = Ret m.
Proof.
  unfold extractErrorMessage. destruct (truthy item) eqn:T; simpl; [|eauto].
  rewrite (getp_truthy item "result" T); simpl.
  destruct (andGet_total (prop item "result") "error_message") as [m1 ->]; simpl.
  destruct (truthy m1); [eauto|].
  destruct (andGet_total (prop item "result") "errorMessage") as [m2 ->]; simpl.
  destruct (truthy m2); [eauto|].
  rewrite (getp_truthy item "error_message" T); simpl.
  destruct (truthy (prop item "error_message")); [eauto|].
  destruct (andGet_total (prop item "result") "status") as [s4 ->]; simpl.
  destruct (truthy (prop item "result") && isStr s4 "failed"); eauto.
Qed.

(** The hook loop always returns; its status is [failed] exactly when it was
    so on entry or some hook of the list has status [failed]. *)
Lemma hookLoop_total (hooks : list value) :
  forall r, exists r', hookLoop hooks r = Ret r'.
Proof.
  induction hooks as [|h rest IH]; intro r; simpl; [eauto|].
  destruct (getHookStatus_total h) as [s ->]; simpl.
  destruct (isStr s "failed").
  - destruct (extractErrorMessage_total h) as [m ->]; simpl. eauto.
  - destruct (isStr s "passed"); apply IH.
Qed.

Lemma hookLoop_finds_failure (hooks : list value) :
  forall r r',
    hookLoop hooks r = Ret r' ->
    (exists h, In h hooks /\ getHookStatus h = Ret (VStr "failed")) ->
    phaseStatus r' = "failed".
Proof.
  induction hooks as [|h rest IH]; intros r r' Hrun [x [Hin Hx]];
    [destruct Hin|].
  simpl in Hrun.
  destruct (getHookStatus_total h) as [s Hs]. rewrite Hs in Hrun; simpl in Hrun.
  destruct (isStr s "failed") eqn:F.
  - destruct (extractErrorMessage_total h) as [m Hm].
    rewrite Hm in Hrun; simpl in Hrun. injection Hrun as <-. reflexivity.
  - assert (Hrest : exists y, In y rest /\ getHookStatus y = Ret (VStr "failed")).
    { destruct Hin as [<- | Hin]; [|eauto].
      rewrite Hs in Hx. injection Hx as ->. discriminate F. }
    destruct (isStr s "passed"); eapply IH; eauto.
Qed.


Lemma analyzeHooks_total (scenario : value) (key : string) :
  truthy scenario = true -> exists r, analyzeHooks scenario key = Ret r.
Proof.
  intro T. unfold analyzeHooks. rewrite (getp_truthy _ key T); simpl.
  destruct (prop scenario key); eauto using hookLoop_total.
Qed.

(** The step loop always returns, and each flag records whether some step
    had the status. *)
Lemma stepLoop_total (steps : list value) :
  forall fl, exists fl', stepLoop steps fl = Ret fl'.
Proof.
  induction steps as [|s rest IH]; intro fl; simpl; [eauto|].
  destruct (getStepStatus_total s) as [st ->]; simpl.
  destruct (isStr st "passed"); [apply IH|].
  destruct (isStr st "failed").
  - destruct (extractErrorMessage_total s) as [m ->]; simpl. apply IH.
  - destruct (isStr st "skipped"); apply IH.
Qed.

Lemma stepLoop_flags (steps : list value) :
  forall fl fl',
    stepLoop steps fl = Ret fl' ->
    (hasPassedSteps fl' = true <->
       hasPassedSteps fl = true
       \/ exists s, In s steps /\ getStepStatus s = Ret (VStr "passed"))
    /\ (hasFailedSteps fl' = true <->
          hasFailedSteps fl = true
          \/ exists s, In s steps /\ getStepStatus s = Ret (VStr "failed"))
    /\ (hasSkippedSteps fl' = true <->
          hasSkippedSteps fl = true
          \/ exists s, In s steps /\ getStepStatus s = Ret (VStr "skipped")).
Proof.
  induction steps as [|s rest IH]; intros fl fl' Hrun; simpl in Hrun.
  - injection Hrun as <-.
    repeat split; auto; intros [H | [x [[] _]]]; exact H.
  - destruct (getStepStatus_total s) as [st Hs].
    rewrite Hs in Hrun; simpl in Hrun.
    assert (Hhead : forall lit,
               (exists x, In x (s :: rest) /\ getStepStatus x = Ret (VStr lit))
               <-> isStr st lit = true
                   \/ exists x, In x rest /\ getStepStatus x = Ret (VStr lit)).
    { intro lit. rewrite isStr_true. split.
      - intros [x [[<- | Hin] Hx]]; [left; congruence | right; eauto].
      - intros [-> | [x [Hin Hx]]]; [exists s | exists x]; simpl; auto. }
    rewrite !Hhead.
    destruct (isStr st "passed") eqn:P.
    { apply isStr_true in P; subst st. apply IH in Hrun; simpl in Hrun.
      simpl. intuition (auto; discriminate). }
    destruct (isStr st "failed") eqn:F.
    { apply isStr_true in F; subst st.
      destruct (extractErrorMessage_total s) as [m Hm].
      rewrite Hm in Hrun; simpl in Hrun.
      apply IH in Hrun; simpl in Hrun. simpl. intuition (auto; discriminate). }
    destruct (isStr st "skipped") eqn:K.
    { apply IH in Hrun; simpl in Hrun. intuition (auto; discriminate). }
    apply IH in Hrun. intuition (auto; discriminate).
Qed.

Lemma analyzeExecutionPhase_total (scenario : value) :
  truthy scenario = true -> exists r, analyzeExecutionPhase scenario = Ret r.
Proof.
  intro T. unfold analyzeExecutionPhase.
  rewrite (getp_truthy _ "steps" T); simpl.
  destruct (prop scenario "steps"); eauto.
  destruct (stepLoop_total l noFlags) as [fl ->]; simpl. eauto.
Qed.

(** The verdict is one of four statuses, never ['error']. *)
Lemma determineOverallStatus_range (opts : CalcOptions) (s e t : PhaseResult) :
  In (fst (determineOverallStatus opts s e t))
    ["passed"; "failed"; "skipped"; "unknown"].
Proof.
  unfold determineOverallStatus.
  repeat match goal with
         | |- context [if ?b then _ else _] => destruct b
         end; simpl; auto 6.
Qed.

Lemma ToString_falsy (v : value) : truthy v = false -> ToString v = Ret tt.
Proof. destruct v; simpl; try reflexivity; discriminate. Qed.

(** The fallback ['unnamed'] plays no part in whether the log call throws. *)
Lemma logScenario_name (scenario : value) :
  logScenario scenario = ToString (prop scenario "name").
Proof.
  unfold logScenario, orElse.
  destruct (truthy (prop scenario "name")) eqn:T; [reflexivity|].
  rewrite (ToString_falsy _ T). reflexivity.
Qed.

Lemma ToString_cases :
  forall v,
    ToString v = Ret tt
    \/ ToString v = Throw "Cannot convert object to primitive value".
Proof.
  fix IH 1. intros [| | | | | l | o]; simpl; auto.
  - revert l. fix IHl 1. intros [|x rest]; [auto|].
    destruct (IH x) as [E | E]; rewrite E; simpl; [apply IHl | auto].
  - destruct (lookup "toString" o); auto.
Qed.

Lemma printable_dec (v : value) : printable v \/ ~ printable v.
Proof.
  unfold printable. destruct (ToString_cases v) as [E | E]; rewrite E;
    [left; reflexivity | right; discriminate].
Qed.

(** On a scenario that is not falsy the three phases return, so the [catch]
    block is reached only from the log call: where the name converts, the
    result is built from the verdict. *)
Lemma calculateScenarioStatus_phases (opts : CalcOptions) (scenario : value) :
  truthy scenario = true ->
  printable (prop scenario "name") ->
  exists s e t,
    analyzeSetupPhase scenario = Ret s
    /\ analyzeExecutionPhase scenario = Ret e
    /\ analyzeTeardownPhase scenario = Ret t
    /\ status (calculateScenarioStatus opts scenario)
       = fst (determineOverallStatus opts s e t)
    /\ reason (calculateScenarioStatus opts scenario)
       = snd (determineOverallStatus opts s e t).
Proof.
  intros T P.
  destruct (analyzeHooks_total scenario "before" T) as [s Hs].
  destruct (analyzeExecutionPhase_total scenario T) as [e He].
  destruct (analyzeHooks_total scenario "after" T) as [t Ht].
  exists s, e, t. unfold calculateScenarioStatus, analyzeSetupPhase,
    analyzeTeardownPhase.
  rewrite T, Hs, He, Ht, logScenario_name, P. simpl. auto.
Qed.

(** Where the name does not convert, the log call throws and the [catch]
    block answers. *)
Lemma unprintable_status (opts : CalcOptions) (scenario : value) :
  truthy scenario = true ->
  ~ printable (prop scenario "name") ->
  status (calculateScenarioStatus opts scenario) = "error"
  /\ reason (calculateScenarioStatus opts scenario)
     = "Status calculation error: Cannot convert object to primitive value"
  /\ details (calculateScenarioStatus opts scenario) <> None.
Proof.
  intros T NP.
  destruct (analyzeHooks_total scenario "before" T) as [s Hs].
  destruct (analyzeExecutionPhase_total scenario T) as [e He].
  destruct (analyzeHooks_total scenario "after" T) as [t Ht].
  unfold calculateScenarioStatus, analyzeSetupPhase, analyzeTeardownPhase.
  rewrite T, Hs, He, Ht, logScenario_name. simpl.
  destruct (ToString_cases (prop scenario "name")) as [E | E];
    [contradiction|].
  rewrite E. simpl. repeat split. discriminate.
Qed.

Lemma prop_array_truthy (v : value) (k : string) (l : list value) :
  prop v k = VArr l -> truthy v = true.
Proof. destruct v; simpl; intro H; try discriminate; reflexivity. Qed.


(** Without steps and without hooks every phase is [not_executed] and the
    verdict is [skipped]. *)
Lemma analyzeHooks_noItems (scenario : value) (key : string) :
  truthy scenario = true ->
  noItems (prop scenario key) = true ->
  analyzeHooks scenario key = Ret notExecuted.
Proof.
  intros T N. unfold analyzeHooks. rewrite (getp_truthy _ key T); simpl.
  destruct (prop scenario key) as [| | | | |[|x l]|]; try reflexivity.
  discriminate N.
Qed.

Lemma analyzeExecutionPhase_noItems (scenario : value) :
  truthy scenario = true ->
  noItems (prop scenario "steps") = true ->
  analyzeExecutionPhase scenario = Ret notExecuted.
Proof.
  intros T N. unfold analyzeExecutionPhase.
  rewrite (getp_truthy _ "steps" T); simpl.
  destruct (prop scenario "steps") as [| | | | |[|x l]|]; try reflexivity.
  discriminate N.
Qed.

Lemma empty_scenario_skipped (opts : CalcOptions) (scenario : value) :
  truthy scenario = true ->
  printable (prop scenario "name") ->
  noItems (prop scenario "steps") = true ->
  noItems (prop scenario "before") = true ->
  noItems (prop scenario "after") = true ->
  status (calculateScenarioStatus opts scenario) = "skipped"
  /\ reason (calculateScenarioStatus opts scenario) = "No executable steps found".
Proof.
  intros T P Hs Hb Ha.
  unfold calculateScenarioStatus, analyzeSetupPhase, analyzeTeardownPhase.
  rewrite T, (analyzeHooks_noItems _ "before" T Hb),
    (analyzeExecutionPhase_noItems _ T Hs), (analyzeHooks_noItems _ "after" T Ha),
    logScenario_name, P.
  destruct opts as [[] []]; split; reflexivity.
Qed.





(** C7, as the code has it: a scenario (any value that is not falsy, with a
    name that converts to a string) without steps and without [before] and
    [after] hooks is [skipped], with the reason "No executable steps found";
    it is not [unknown]. *)
Theorem no_steps_no_hooks_is_skipped (opts : CalcOptions) (scenario : value) :
  truthy scenario = true ->
  printable (prop scenario "name") ->
  noItems (prop scenario "steps") = true ->
  noItems (prop scenario "before") = true ->
  noItems (prop scenario "after") = true ->
  status (calculateScenarioStatus opts scenario) = "skipped"
  /\ reason (calculateScenarioStatus opts scenario) = "No executable steps found".
Proof. apply empty_scenario_skipped. Qed.

Lemma no_steps_no_hooks_is_skipped_witness :
  status (calculateScenarioStatus defaultCalcOptions emptyScenario) = "skipped"
  /\ reason (calculateScenarioStatus defaultCalcOptions emptyScenario)
     = "No executable steps found".
Proof.
  apply (no_steps_no_hooks_is_skipped defaultCalcOptions emptyScenario);
    reflexivity.
Defined.

(** C7 as stated fails: the scenario [{name: "S"}] has no steps and no hooks
    and its status is not [unknown]. *)
Lemma no_steps_no_hooks_not_unknown :
  ~ (status (calculateScenarioStatus defaultCalcOptions emptyScenario)
     = "unknown").
Proof. intro H. vm_compute in H. discriminate H. Qed.

(** C8, as the code has it: the calculator returns a result on every input,
    and the status is ['error'] only where the name of the scenario cannot
    be converted to a string.  A falsy input ([null], [undefined], [0],
    [""], [false]) gives [unknown] with the reason "Scenario is null or
    undefined" and no details; any other input that is not an object or an
    array gives [skipped] with the reason "No executable steps found". *)
Theorem malformed_scenario_result (opts : CalcOptions) (scenario : value) :
  (status (calculateScenarioStatus opts scenario) = "error"
   <-> truthy scenario = true /\ ~ printable (prop scenario "name"))
  /\ (status (calculateScenarioStatus opts scenario) = "error" ->
      reason (calculateScenarioStatus opts scenario)
      = "Status calculation error: Cannot convert object to primitive value")
  /\ (truthy scenario = false ->
      calculateScenarioStatus opts scenario
      = {| status := "unknown"; reason := "Scenario is null or undefined";
           details := None |})
  /\ (truthy scenario = true -> typeofObject scenario = false ->
      status (calculateScenarioStatus opts scenario) = "skipped"
      /\ reason (calculateScenarioStatus opts scenario)
         = "No executable steps found").
Proof.
  assert (Hiff : status (calculateScenarioStatus opts scenario) = "error"
                 <-> truthy scenario = true
                     /\ ~ printable (prop scenario "name")).
  { destruct (truthy scenario) eqn:T.
    - destruct (printable_dec (prop scenario "name")) as [P | NP].
      + destruct (calculateScenarioStatus_phases opts scenario T P)
          as [s [e [t [_ [_ [_ [Hst _]]]]]]].
        rewrite Hst.
        pose proof (determineOverallStatus_range opts s e t) as R.
        simpl in R. split; [|intros [_ NP]; contradiction].
        intro E. rewrite E in R.
        repeat (destruct R as [R | R]; [discriminate R|]). destruct R.
      + destruct (unprintable_status opts scenario T NP) as [E _].
        rewrite E. split; auto.
    - unfold calculateScenarioStatus. rewrite T. simpl.
      split; [discriminate | intros [D _]; discriminate D]. }
  split; [exact Hiff|]. split; [|split].
  - intro E. apply Hiff in E. destruct E as [T NP].
    apply (unprintable_status opts scenario T NP).
  - intro T. unfold calculateScenarioStatus. rewrite T. reflexivity.
  - intros T Ho.
    destruct scenario; try discriminate;
      apply empty_scenario_skipped; auto; reflexivity.
Qed.

Lemma malformed_scenario_result_witness :
  status (calculateScenarioStatus defaultCalcOptions (VNum 42)) <> "error"
  /\ status (calculateScenarioStatus defaultCalcOptions (VNum 42)) = "skipped"
  /\ calculateScenarioStatus defaultCalcOptions VNull
     = {| status := "unknown"; reason := "Scenario is null or undefined";
          details := None |}
  /\ status (calculateScenarioStatus defaultCalcOptions unprintableScenario)
     = "error".
Proof.
  split; [|split; [|split]].
  - intro E.
    apply (proj1 (malformed_scenario_result defaultCalcOptions (VNum 42)))
      in E.
    destruct E as [_ N]. apply N. reflexivity.
  - apply (malformed_scenario_result defaultCalcOptions (VNum 42));
      reflexivity.
  - apply (malformed_scenario_result defaultCalcOptions VNull). reflexivity.
  - apply (proj1 (malformed_scenario_result defaultCalcOptions
                    unprintableScenario)).
    split; [reflexivity | intro P; discriminate P].
Defined.

(** C8 as stated fails: [null] and the number [42] are not objects, and the
    calculator answers [unknown] and [skipped], not ['error']. *)
Lemma malformed_scenario_not_error :
  ~ (status (calculateScenarioStatus defaultCalcOptions VNull) = "error")
  /\ ~ (status (calculateScenarioStatus defaultCalcOptions (VNum 42)) = "error").
Proof. split; simpl; discriminate. Qed.

(** *** Features *)

Lemma filterE_notBackground (els : list value) :
  (forall e, In e els -> nullish e = false) ->
  filterE notBackground els = Ret (filter isScenario els).
Proof.
  induction els as [|e rest IH]; intro Hok; simpl; [reflexivity|].
  unfold notBackground at 1. rewrite getp_ok by (apply Hok; simpl; auto).
  simpl. rewrite IH by (intros x Hx; apply Hok; simpl; auto). simpl.
  unfold isScenario. destruct (isStr (prop e "type") "background"); reflexivity.
Qed.

Lemma countScenario_sum (opts : CalcOptions) (t : Tally) (scenario : value) :
  let t' := countScenario opts t scenario in
  nPassed t' + nFailed t' + nSkipped t' + nErrors t'
  = S (nPassed t + nFailed t + nSkipped t + nErrors t).
Proof.
  unfold countScenario.
  repeat match goal with
         | |- context [if ?b then _ else _] => destruct b
         end; simpl; lia.
Qed.

Lemma fold_countScenario_sum (opts : CalcOptions) (scenarios : list value) :
  forall t,
    let t' := fold_left (countScenario opts) scenarios t in
    nPassed t' + nFailed t' + nSkipped t' + nErrors t'
    = nPassed t + nFailed t + nSkipped t + nErrors t + List.length scenarios.
Proof.
  induction scenarios as [|x rest IH]; intro t; simpl; [lia|].
  rewrite IH. pose proof (countScenario_sum opts t x) as H. simpl in H. lia.
Qed.

Lemma feature_with_scenarios
  (opts : CalcOptions) (feature : value) (els : list value) :
  prop feature "elements" = VArr els ->
  (forall e, In e els -> nullish e = false) ->
  (exists e, In e els /\ isScenario e = true) ->
  exists r c,
    calculateFeatureStatus opts feature = Ret r
    /\ counts r = Some c
    /\ passed c + failed c + skipped c + errors c = total c
    /\ total c = List.length (filter isScenario els).
Proof.
  intros Hels Hok [e [Hin He]].
  pose proof (prop_array_truthy _ _ _ Hels) as T.
  unfold calculateFeatureStatus. rewrite T; simpl.
  rewrite (getp_truthy _ "elements" T); simpl. rewrite Hels; simpl.
  rewrite (filterE_notBackground els Hok); simpl.
  assert (Hne : (List.length (filter isScenario els) =? 0)%nat = false).
  { apply Nat.eqb_neq. intro Hz. apply length_zero_iff_nil in Hz.
    assert (Hf : In e (filter isScenario els)) by (apply filter_In; auto).
    rewrite Hz in Hf. destruct Hf. }
  rewrite Hne. eexists. eexists. split; [reflexivity|]. simpl.
  split; [reflexivity|]. split; [|reflexivity].
  unfold countScenarios.
  pose proof (fold_countScenario_sum opts (filter isScenario els)
                {| nPassed := 0; nFailed := 0; nSkipped := 0; nErrors := 0 |})
    as H.
  simpl in H. exact H.
Qed.

Lemma filter_all_background (els : list value) :
  (forall e, In e els -> prop e "type" = VStr "background") ->
  filter isScenario els = [].
Proof.
  induction els as [|e rest IH]; intro H; simpl; [reflexivity|].
  unfold isScenario at 1. rewrite (H e) by (simpl; auto). simpl.
  apply IH. intros x Hx. apply H. simpl. auto.
Qed.

Lemma typed_not_nullish (e : value) (t : string) :
  prop e "type" = VStr t -> nullish e = false.
Proof. destruct e; simpl; intro H; try discriminate; reflexivity. Qed.

(** C3: for a feature whose [elements] hold scenario objects, at least one
    of them not a background, the result carries counts with
    [passed + failed + skipped + errors = total], and [total] is the number
    of non-background elements. *)
Theorem feature_counts_are_conserved
  (opts : CalcOptions) (feature : value) (els : list value) :
  prop feature "elements" = VArr els ->
  (forall e, In e els -> nullish e = false) ->
  (exists e, In e els /\ isScenario e = true) ->
  exists r c,
    calculateFeatureStatus opts feature = Ret r
    /\ counts r = Some c
    /\ passed c + failed c + skipped c + errors c = total c
    /\ total c = List.length (filter isScenario els).
Proof. apply feature_with_scenarios. Qed.

(** C10: a feature that is missing, whose [elements] are missing (or
    otherwise falsy), or all of whose elements have type [background], gets
    the status [unknown] and a result without counts; a feature with a
    non-background scenario gets a result with counts. *)
Theorem feature_without_scenarios_has_no_counts
  (opts : CalcOptions) (feature : value) :
  (truthy feature = false
   \/ truthy (prop feature "elements") = false
   \/ exists els,
        prop feature "elements" = VArr els
        /\ forall e, In e els -> prop e "type" = VStr "background") ->
  (exists r,
     calculateFeatureStatus opts feature = Ret r
     /\ featureStatus r = "unknown"
     /\ (featureReason r = "Feature has no scenarios"
         \/ featureReason r = "No executable scenarios found")
     /\ counts r = None)
  /\ (forall feature' els,
        prop feature' "elements" = VArr els ->
        (forall e, In e els -> nullish e = false) ->
        (exists e, In e els /\ isScenario e = true) ->
        exists r, calculateFeatureStatus opts feature' = Ret r
                  /\ counts r <> None).
Proof.
  intro H. split.
  - unfold calculateFeatureStatus.
    destruct (truthy feature) eqn:T; simpl;
      [|eexists; split; [reflexivity|simpl; auto]].
    rewrite (getp_truthy _ "elements" T); simpl.
    destruct H as [H | [H | [els [Hels Hbg]]]]; [discriminate H| |].
    + rewrite H. simpl. eexists; split; [reflexivity|simpl; auto].
    + rewrite Hels. simpl.
      rewrite filterE_notBackground
        by (intros e He; eapply typed_not_nullish; eauto).
      rewrite (filter_all_background els Hbg). simpl.
      eexists; split; [reflexivity|simpl; auto].
  - intros feature' els Hels Hok Hex.
    destruct (feature_with_scenarios opts feature' els Hels Hok Hex)
      as [r [c [Hr [Hc _]]]].
    exists r. split; [exact Hr|]. rewrite Hc. discriminate.
Qed.

Lemma feature_counts_are_conserved_witness :
  exists r c,
    calculateFeatureStatus defaultCalcOptions exampleFeature = Ret r
    /\ counts r = Some c
    /\ passed c + failed c + skipped c + errors c = total c
    /\ total c = 3.
Proof.
  destruct (feature_counts_are_conserved defaultCalcOptions exampleFeature
              (match prop exampleFeature "elements" with
               | VArr l => l
               | _ => []
               end))
    as [r [c [Hr [Hc [Hsum Htotal]]]]].
  - reflexivity.
  - intros e He. simpl in He.
    repeat (destruct He as [<- | He]; [reflexivity|]). destruct He.
  - exists (scenarioWith "passed"). split; [simpl; auto | reflexivity].
  - exists r, c. repeat split; assumption.
Defined.

Lemma feature_without_scenarios_has_no_counts_witness :
  exists r,
    calculateFeatureStatus defaultCalcOptions backgroundOnlyFeature = Ret r
    /\ featureStatus r = "unknown"
    /\ counts r = None.
Proof.
  destruct (feature_without_scenarios_has_no_counts defaultCalcOptions
              backgroundOnlyFeature) as [[r [Hr [Hs [_ Hc]]]] _].
  - right. right. exists [VObj [("type", VStr "background")]].
    split; [reflexivity|].
    intros e [<- | []]. reflexivity.
  - exists r. repeat split; assumption.
Defined.

End StatusCalculator.

(* ===================================================================== *)
(** ** Properties of the integrity validator *)
(* ===================================================================== *)

Section IntegrityValidator.

Import DataIntegrityValidator.

Variable opts : Options.

(** The tolerance is never below 1, so equal values are within it. *)
Lemma toleranceFor_pos (a b : Z) : (1 <= toleranceFor opts a b)%Z.
Proof. unfold toleranceFor. lia. Qed.

Lemma withinTolerance_toleranceFor (a b : Z) :
  withinTolerance (tolerancePercentage opts) a b
  <-> (Z.abs (a - b) <= toleranceFor opts a b)%Z.
Proof. reflexivity. Qed.

Lemma compareField_cases (counts1 counts2 : countSet) (c : Comparison)
  (fld : string) :
  let a := fieldOr0 counts1 fld in
  let b := fieldOr0 counts2 fld in
  (withinTolerance (tolerancePercentage opts) a b
   /\ compareField opts counts1 counts2 c fld = c)
  \/ (~ withinTolerance (tolerancePercentage opts) a b
      /\ compareField opts counts1 counts2 c fld
         = {| comparisonType := comparisonType c;
              isConsistent := false;
              compDiscrepancies :=
                (compDiscrepancies c ++ [fieldEntry opts counts1 counts2 fld])%list;
              compTolerance := compTolerance c |}).
Proof.
  intros a b. unfold compareField. fold a b.
  rewrite withinTolerance_toleranceFor.
  pose proof (toleranceFor_pos a b) as Hpos.
  destruct (Z.eqb_spec a b) as [E | E].
  - left. split; [lia | reflexivity].
  - destruct (Z.ltb_spec (toleranceFor opts a b) (Z.abs (a - b))) as [L | L].
    + right. split; [lia | reflexivity].
    + left. split; [lia | reflexivity].
Qed.

Lemma fold_compareField (counts1 counts2 : countSet) (flds : list string) :
  forall c,
    let r := fold_left (compareField opts counts1 counts2) flds c in
    (forall d,
        In d (compDiscrepancies r)
        <-> In d (compDiscrepancies c)
            \/ exists fld,
                 In fld flds
                 /\ ~ withinTolerance (tolerancePercentage opts)
                        (fieldOr0 counts1 fld) (fieldOr0 counts2 fld)
                 /\ d = fieldEntry opts counts1 counts2 fld)
    /\ (isConsistent r = true
        <-> isConsistent c = true
            /\ forall fld,
                 In fld flds ->
                 withinTolerance (tolerancePercentage opts)
                   (fieldOr0 counts1 fld) (fieldOr0 counts2 fld)).
Proof.
  induction flds as [|f rest IH]; intro c; simpl.
  - split.
    + intro d. split; [auto | intros [H | [x [[] _]]]; exact H].
    + split; [intro H; split; [exact H | intros x []] | intros [H _]; exact H].
  - destruct (IH (compareField opts counts1 counts2 c f)) as [ID IC].
    destruct (compareField_cases counts1 counts2 c f) as [[W E] | [W E]];
      rewrite E in ID, IC; rewrite E; clear E; simpl in ID, IC.
    + split.
      * intro d. rewrite ID. split.
        -- intros [H | [x [Hin Hx]]]; [auto | right; exists x; auto].
        -- intros [H | [x [[<- | Hin] [Hx Hd]]]];
             [auto | contradiction | right; exists x; auto].
      * rewrite IC. split.
        -- intros [H1 H2]. split; [exact H1|].
           intros x [<- | Hin]; auto.
        -- intros [H1 H2]. split; [exact H1 | intros x Hx; apply H2; auto].
    + split.
      * intro d. rewrite ID, in_app_iff. simpl. split.
        -- intros [[H | [<- | []]] | [x [Hin Hx]]];
             [auto | right; exists f; auto | right; exists x; auto].
        -- intros [H | [x [[<- | Hin] [Hx Hd]]]];
             [auto | subst d; auto | right; exists x; auto].
      * rewrite IC. split.
        -- intros [H _]. discriminate H.
        -- intros [_ H]. exfalso. apply W, H. auto.
Qed.


(** *** Count validation *)

(** The cross-validation loop only appends discrepancies of the second
    shape, and never turns an invalid result valid. *)
Lemma checkField_cases (s : ProvidedSummary) (calc : Summary)
  (acc : list Discrepancy * bool) (f : string) :
  checkField opts s calc acc f = acc
  \/ exists p c d t,
       checkField opts s calc acc f
       = ((fst acc ++ [CrossValidationMismatch f p c d t])%list, false).
Proof.
  unfold checkField.
  destruct (providedField s f =? fieldOr0 (countsOf calc) f)%Z; [auto|].
  destruct (Z.max 1 (providedField s f * tolerancePercentage opts / 100)
            <? Z.abs (providedField s f - fieldOr0 (countsOf calc) f))%Z;
    [right; eauto 6 | auto].
Qed.

Lemma fold_checkField (s : ProvidedSummary) (calc : Summary)
  (flds : list string) :
  forall acc,
    (forall d, In d (fst acc) ->
               In d (fst (fold_left (checkField opts s calc) flds acc)))
    /\ (forall d, In d (fst (fold_left (checkField opts s calc) flds acc)) ->
                  In d (fst acc)
                  \/ discrepancyType d = "cross_validation_mismatch")
    /\ (snd acc = false ->
        snd (fold_left (checkField opts s calc) flds acc) = false).
Proof.
  induction flds as [|f rest IH]; intro acc; simpl; [auto|].
  destruct (IH (checkField opts s calc acc f)) as [I1 [I2 I3]].
  destruct (checkField_cases s calc acc f) as [E | [p [c [d0 [t E]]]]];
    rewrite E in I1, I2, I3; rewrite E; [auto|].
  simpl in I1, I2, I3. repeat split.
  - intros d Hd. apply I1, in_app_iff. auto.
  - intros d Hd. apply I2 in Hd. destruct Hd as [Hd | Hd]; [|auto].
    apply in_app_iff in Hd. destruct Hd as [Hd | [<- | []]]; auto.
  - intros _. apply I3. reflexivity.
Qed.

(** The internal consistency check: a [count_mismatch] is flagged exactly
    when [passed + failed + skipped + errors] differs from [scenarios], and
    then the result is invalid. *)
Lemma count_mismatch_iff (sum : countSet) (reportData : value) :
  let v := validateTestCounts opts sum reportData in
  ((exists d, In d (discrepancies v) /\ discrepancyType d = "count_mismatch")
   <-> (fieldOr0 sum "passed" + fieldOr0 sum "failed" + fieldOr0 sum "skipped"
        + fieldOr0 sum "errors" <> fieldOr0 sum "scenarios")%Z)
  /\ ((fieldOr0 sum "passed" + fieldOr0 sum "failed" + fieldOr0 sum "skipped"
       + fieldOr0 sum "errors" <> fieldOr0 sum "scenarios")%Z ->
      isValid v = false).
Proof.
  unfold validateTestCounts. simpl.
  set (total := (fieldOr0 sum "passed" + fieldOr0 sum "failed"
                 + fieldOr0 sum "skipped" + fieldOr0 sum "errors")%Z).
  set (s := {| totalTests := fieldOr0 sum "scenarios";
               sumPassed := fieldOr0 sum "passed";
               sumFailed := fieldOr0 sum "failed";
               sumSkipped := fieldOr0 sum "skipped";
               sumErrors := fieldOr0 sum "errors" |}).
  set (st1 := if (total =? fieldOr0 sum "scenarios")%Z
              then ([], true)
              else ([CountMismatch "total_scenarios" (fieldOr0 sum "scenarios")
                       total (total - fieldOr0 sum "scenarios")], false)).
  assert (H1 : (exists d, In d (fst st1)
                          /\ discrepancyType d = "count_mismatch")
               <-> total <> fieldOr0 sum "scenarios").
  { subst st1. destruct (Z.eqb_spec total (fieldOr0 sum "scenarios")) as [E|E];
      simpl.
    - split; [intros [d [[] _]] | contradiction].
    - split; [auto | intros _; eexists; split; [left; reflexivity|reflexivity]]. }
  assert (H2 : total <> fieldOr0 sum "scenarios" -> snd st1 = false).
  { subst st1. destruct (Z.eqb_spec total (fieldOr0 sum "scenarios"));
      [contradiction | reflexivity]. }
  destruct (truthy reportData && isArray reportData);
    [|split; [exact H1 | exact H2]].
  destruct (calculateSummaryFromRawData reportData) as [calc | m]; simpl;
    [|split; [exact H1 | reflexivity]].
  destruct (fold_checkField s calc fieldsToCheck st1) as [I1 [I2 I3]].
  split.
  - rewrite <- H1. split.
    + intros [d [Hd Ht]]. exists d. split; [|exact Ht].
      apply I2 in Hd. destruct Hd as [Hd | Hd]; [exact Hd|].
      rewrite Ht in Hd. discriminate Hd.
    + intros [d [Hd Ht]]. exists d. auto.
  - intro Hne. apply I3, H2, Hne.
Qed.

(** C5, as the code has it: the provided summary of Scenario 4 is consistent
    in itself (7 + 2 + 1 + 0 = 10), and against a raw report counted as 11
    scenarios, 7 passed, 2 failed and 2 skipped, each checked field differs
    by at most the tolerance [max(1, floor(provided * pct / 100)) >= 1]: no
    discrepancy is flagged, in particular no [count_mismatch], and the result
    is valid. *)
Theorem validateTestCounts_scenario4 (report : value) (calc : Summary) :
  isArray report = true ->
  calculateSummaryFromRawData report = Ret calc ->
  scenarios calc = 11%Z -> passed calc = 7%Z ->
  failed calc = 2%Z -> skipped calc = 2%Z ->
  isValid (validateTestCounts opts scenario4Summary report) = true
  /\ discrepancies (validateTestCounts opts scenario4Summary report) = []
  /\ issues (validateTestCounts opts scenario4Summary report) = []
  /\ calculatedSummary (validateTestCounts opts scenario4Summary report)
     = Some calc.
Proof.
  intros Harr Hcalc Hsc Hpa Hfa Hsk.
  unfold validateTestCounts.
  assert (T : truthy report && isArray report = true)
    by (destruct report; try discriminate Harr; reflexivity).
  rewrite T, Hcalc.
  cbv [scenario4Summary fieldOr0 field String.eqb Ascii.eqb Bool.eqb
       fieldsToCheck fold_left checkField providedField countsOf
       totalTests sumPassed sumFailed sumSkipped sumErrors].
  rewrite Hsc, Hpa, Hfa, Hsk.
  assert (L : forall p, (Z.max 1 p <? 1)%Z = false)
    by (intro p; apply Z.ltb_ge; lia).
  simpl. rewrite !L. simpl. auto.
Qed.

End IntegrityValidator.



Lemma validateTestCounts_scenario4_witness :
  DataIntegrityValidator.isValid
    (DataIntegrityValidator.validateTestCounts
       DataIntegrityValidator.defaultOptions scenario4Summary scenario4Report)
  = true
  /\ DataIntegrityValidator.discrepancies
       (DataIntegrityValidator.validateTestCounts
          DataIntegrityValidator.defaultOptions scenario4Summary scenario4Report)
     = [].
Proof.
  destruct (validateTestCounts_scenario4 DataIntegrityValidator.defaultOptions
              scenario4Report
              {| DataIntegrityValidator.features := 1;
                 DataIntegrityValidator.scenarios := 11;
                 DataIntegrityValidator.steps := 11;
                 DataIntegrityValidator.passed := 7;
                 DataIntegrityValidator.failed := 2;
                 DataIntegrityValidator.skipped := 2;
                 DataIntegrityValidator.errors := 0 |})
    as [V [D _]]; try reflexivity.
  split; [exact V | exact D].
Defined.

(** C5 as stated fails: the raw report of Scenario 4 is counted as 7 passed,
    2 failed and 2 skipped of 11 scenarios, and validating the provided
    summary against it gives neither [isValid = false] nor a
    [count_mismatch]. *)
Lemma scenario4_is_not_flagged :
  DataIntegrityValidator.calculateSummaryFromRawData scenario4Report
  = Ret {| DataIntegrityValidator.features := 1;
           DataIntegrityValidator.scenarios := 11;
           DataIntegrityValidator.steps := 11;
           DataIntegrityValidator.passed := 7;
           DataIntegrityValidator.failed := 2;
           DataIntegrityValidator.skipped := 2;
           DataIntegrityValidator.errors := 0 |}
  /\ ~ (DataIntegrityValidator.isValid
          (DataIntegrityValidator.validateTestCounts
             DataIntegrityValidator.defaultOptions scenario4Summary
             scenario4Report) = false)
  /\ ~ (exists d,
          In d (DataIntegrityValidator.discrepancies
                  (DataIntegrityValidator.validateTestCounts
                     DataIntegrityValidator.defaultOptions scenario4Summary
                     scenario4Report))
          /\ DataIntegrityValidator.discrepancyType d = "count_mismatch").
Proof.
  split; [reflexivity|]. split.
  - intro H. vm_compute in H. discriminate H.
  - intros [d [Hd _]]. vm_compute in Hd. exact Hd.
Qed.

(* ===================================================================== *)
(** ** Properties of the sanitizer *)
(* ===================================================================== *)

Section Strings.

Lemma trimStart_head (s : string) :
  trimStart s = ""
  \/ exists c r, trimStart s = String c r /\ isWhiteSpace c = false.
Proof.
  induction s as [|c r IH]; simpl; [auto|].
  destruct (isWhiteSpace c) eqn:W; [exact IH | right; eauto].
Qed.

Lemma trimEnd_head (c : ascii) (r : string) :
  isWhiteSpace c = false -> exists r', trimEnd (String c r) = String c r'.
Proof.
  intro W. simpl. rewrite W. destruct (trimEnd r); eauto.
Qed.

Lemma trimEnd_idem (s : string) : trimEnd (trimEnd s) = trimEnd s.
Proof.
  induction s as [|c r IH]; simpl; [reflexivity|].
  destruct (trimEnd r) as [|c' r'] eqn:E.
  - destruct (isWhiteSpace c) eqn:W; simpl; [reflexivity|].
    rewrite W. reflexivity.
  - simpl. simpl in IH. rewrite IH. reflexivity.
Qed.

Lemma trim_idem (s : string) : trim (trim s) = trim s.
Proof.
  unfold trim. destruct (trimStart_head s) as [-> | [c [r [-> W]]]];
    [reflexivity|].
  destruct (trimEnd_head c r W) as [r' E].
  rewrite E. simpl trimStart. rewrite W. rewrite <- E. apply trimEnd_idem.
Qed.

Lemma trimEnd_app (a b : string) :
  b <> "" -> trimEnd b = b -> trimEnd (a ++ b) = a ++ b.
Proof.
  intros Hne Hb. induction a as [|c a IH]; simpl; [exact Hb|].
  rewrite IH. destruct (a ++ b) eqn:E; [|reflexivity].
  destruct a; simpl in E; [contradiction | discriminate].
Qed.

Lemma trimEnd_noWhiteSpace (s : string) : noWhiteSpace s = true -> trimEnd s = s.
Proof.
  induction s as [|c r IH]; simpl; [reflexivity|].
  intro H. apply andb_true_iff in H. destruct H as [W N].
  rewrite (IH N). destruct r; [|reflexivity].
  destruct (isWhiteSpace c); [discriminate W | reflexivity].
Qed.

(** The decimal rendering of an index: digits only, at least one. *)
Lemma string_of_uint_noWhiteSpace (d : Decimal.uint) :
  noWhiteSpace (NilEmpty.string_of_uint d) = true.
Proof. induction d; simpl; auto. Qed.

Lemma showNat_noWhiteSpace (n : nat) : noWhiteSpace (showNat n) = true.
Proof.
  unfold showNat, NilZero.string_of_uint.
  destruct (Nat.to_uint n); try reflexivity;
    apply string_of_uint_noWhiteSpace.
Qed.

Lemma showNat_headDigit (n : nat) : headDigit (showNat n) = true.
Proof.
  unfold showNat, NilZero.string_of_uint.
  destruct (Nat.to_uint n); reflexivity.
Qed.

Lemma showNat_nonempty (n : nat) : showNat n <> "".
Proof.
  pose proof (showNat_headDigit n) as H.
  destruct (showNat n); [discriminate H | discriminate].
Qed.

(** The fallback names ["Feature 3"], ["Scenario 0"], ["Step 12"] and the
    placeholders built on them are stable. *)
Lemma stableName_fallback (c : ascii) (p : string) (n : nat) :
  isWhiteSpace c = false ->
  stableName (String c p ++ showNat n)
  /\ stableName ((String c p ++ showNat n) ++ " (auto-generated)").
Proof.
  intro W. split; (split; [discriminate|]); unfold trim; simpl; rewrite W.
  - change (String c (p ++ ?x)) with (String c p ++ x).
    apply trimEnd_app; [apply showNat_nonempty|].
    apply trimEnd_noWhiteSpace, showNat_noWhiteSpace.
  - change (String c ((p ++ ?x) ++ ?y)) with ((String c p ++ x) ++ y).
    apply trimEnd_app; [discriminate | reflexivity].
Qed.

Lemma stableName_trim (s : string) : trim s <> "" -> stableName (trim s).
Proof. intro H. split; [exact H | apply trim_idem]. Qed.

End Strings.

Section Objects.

Lemma lookup_setprop_same (o : list (string * value)) (k : string) (x : value) :
  lookup k (setprop o k x) = Some x.
Proof.
  induction o as [|[k' v] rest IH]; simpl.
  - rewrite String.eqb_refl. reflexivity.
  - destruct (k' =? k) eqn:E; simpl; rewrite E; [reflexivity | exact IH].
Qed.

Lemma lookup_setprop_other (o : list (string * value)) (k k' : string)
  (x : value) :
  k <> k' -> lookup k (setprop o k' x) = lookup k o.
Proof.
  intro Hne. induction o as [|[k0 v] rest IH]; simpl.
  - destruct (String.eqb_spec k' k); [congruence | reflexivity].
  - destruct (String.eqb_spec k0 k') as [E | E]; simpl.
    + subst k0. destruct (String.eqb_spec k' k); [congruence | reflexivity].
    + rewrite IH. reflexivity.
Qed.

(** Assigning to a property the value it has changes nothing. *)
Lemma setprop_same (o : list (string * value)) (k : string) (x : value) :
  lookup k o = Some x -> setprop o k x = o.
Proof.
  induction o as [|[k' v] rest IH]; simpl; [discriminate|].
  destruct (k' =? k); intro H.
  - injection H as ->. reflexivity.
  - rewrite (IH H). reflexivity.
Qed.

Lemma lookup_indexed (k : string) (l : list value) :
  headDigit k = false -> forall i, lookup k (indexed i l) = None.
Proof.
  intro H. induction l as [|x rest IH]; intro i; simpl; [reflexivity|].
  destruct (String.eqb_spec (showNat i) k) as [E | E]; [|apply IH].
  rewrite <- E, showNat_headDigit in H. discriminate H.
Qed.

(** On an array or an object, a property whose name is not an index is read
    from the spread copy. *)
Lemma prop_spread (v : value) (k : string) :
  headDigit k = false ->
  prop v k = match lookup k (spread v) with Some x => x | None => VUndefined end.
Proof.
  intro H. destruct v; simpl; try reflexivity.
  rewrite (lookup_indexed k l H). reflexivity.
Qed.

Lemma orElse_truthy (a b : value) : truthy b = true -> truthy (orElse a b) = true.
Proof. intro H. unfold orElse. destruct (truthy a) eqn:E; assumption. Qed.

Lemma orElse_left (a b : value) : truthy a = true -> orElse a b = a.
Proof. intro H. unfold orElse. rewrite H. reflexivity. Qed.

End Objects.

Section Sanitizer.

Import CucumberJsonValidator.
Local Open Scope validator_scope.

Variable opts : Options.

(** *** Running the validator's code *)

Lemma bindM_run {A B : Type} (c : M A) (k : A -> M B) (st st1 : VState) (a : A) :
  c st = (Ret a, st1) -> bindM c k st = k a st1.
Proof. intro H. unfold bindM. rewrite H. reflexivity. Qed.

Lemma bindM_inv {A B : Type} (c : M A) (k : A -> M B) (st st' : VState) (b : B) :
  bindM c k st = (Ret b, st') ->
  exists a st1, c st = (Ret a, st1) /\ k a st1 = (Ret b, st').
Proof.
  unfold bindM. destruct (c st) as [[a | m] st1]; intro H; [eauto | discriminate].
Qed.

Lemma tryCatch_run {A : Type} (c : M A) (h : string -> M A) (st st1 : VState)
  (a : A) :
  c st = (Ret a, st1) -> tryCatch c h st = (Ret a, st1).
Proof. intro H. unfold tryCatch. rewrite H. reflexivity. Qed.

Lemma addError_run (loc msg : string) (st : VState) :
  exists st', addError opts loc msg st = (Ret tt, st').
Proof.
  unfold addError.
  destruct (maxErrors opts <=? List.length (validationErrors st))%nat; eauto.
Qed.

(** Runs the [addError] call the goal starts with, from state [st]. *)
Ltac run_addError st st' E :=
  match goal with
  | |- context [addError opts ?l ?m] =>
      destruct (addError_run l m st) as [st' E];
      rewrite (bindM_run _ _ _ _ _ E)
  end.

Lemma replaceName_run (fallback type : string) (st : VState) :
  exists n st',
    replaceName opts fallback type st = (Ret n, st')
    /\ (n = fallback \/ n = fallback ++ " (auto-generated)").
Proof.
  unfold replaceName. destruct (generatePlaceholders opts).
  - eexists _, _. split; [reflexivity | auto].
  - destruct (addError_run "Name Sanitization" (type ++ " name is null or empty") st)
      as [st' E].
    eexists _, _. split; [|left; reflexivity].
    rewrite (bindM_run _ _ _ _ _ E). reflexivity.
Qed.

(** [sanitizeTestName] never throws, and returns a stable name. *)
Lemma sanitizeTestName_run (name : value) (fallback type : string) (st : VState) :
  stableName fallback ->
  stableName (fallback ++ " (auto-generated)") ->
  exists n st',
    sanitizeTestName opts name fallback type st = (Ret n, st') /\ stableName n.
Proof.
  intros Hf Hp.
  assert (R : exists n st',
             replaceName opts fallback type st = (Ret n, st') /\ stableName n).
  { destruct (replaceName_run fallback type st) as [n [st' [E [-> | ->]]]];
      eauto. }
  unfold sanitizeTestName. destruct name; try exact R.
  destruct ((s =? "") || (trim s =? "")) eqn:E; [exact R|].
  apply orb_false_iff in E. destruct E as [_ E]. apply String.eqb_neq in E.
  eexists _, _. split; [reflexivity | apply stableName_trim, E].
Qed.

(** A stable name is returned as it is, and nothing is logged. *)
Lemma sanitizeTestName_stable (n fallback type : string) (st : VState) :
  stableName n -> sanitizeTestName opts (VStr n) fallback type st = (Ret n, st).
Proof.
  intros [Hne Ht]. unfold sanitizeTestName. rewrite Ht.
  apply String.eqb_neq in Hne. rewrite Hne. reflexivity.
Qed.

(** *** Steps *)

Lemma sanitizeStep_shape (step : value) (fi si sti : nat) (st : VState) :
  exists r st',
    sanitizeStep opts step fi si sti st = (Ret r, st')
    /\ ((notAnObject step = true /\ r = None)
        \/ (notAnObject step = false
            /\ exists name,
                 stableName name /\ r = Some (VObj (stepObject step name)))).
Proof.
  unfold sanitizeStep. destruct (notAnObject step) eqn:N.
  - run_addError st st' E.
    eexists _, _. split; [reflexivity | left; auto].
  - destruct (stableName_fallback "S" "tep " sti eq_refl) as [Hf Hp].
    destruct (sanitizeTestName_run (prop step "name") ("Step " ++ showNat sti)
                "step" st Hf Hp) as [name [st1 [E Hn]]].
    rewrite (bindM_run _ _ _ _ _ E). unfold stepObject.
    destruct (negb (truthy (prop step "result"))
              && negb (truthy (prop step "status")));
      eexists _, _; (split; [reflexivity | right; eauto]).
Qed.

Lemma stepObject_lookups (step : value) (name : string) :
  notAnObject step = false ->
  let o := stepObject step name in
  lookup "name" o = Some (VStr name)
  /\ lookup "keyword" o = Some (orElse (prop step "keyword") (VStr "Given "))
  /\ (truthy (prop (VObj o) "result") = true
      \/ truthy (prop (VObj o) "status") = true)
  /\ (truthy (prop step "result") = false ->
      truthy (prop step "status") = false ->
      prop (VObj o) "result" = defaultResult)
  /\ (truthy (prop step "result") = true ->
      prop (VObj o) "result" = prop step "result").
Proof.
  intros N o. subst o. unfold stepObject.
  assert (R : forall k x1 x2,
             headDigit k = false -> k <> "name" -> k <> "keyword" ->
             prop (VObj (setprop (setprop (spread step) "name" x1) "keyword" x2)) k
             = prop step k).
  { intros k x1 x2 Hd H1 H2. simpl.
    rewrite !lookup_setprop_other by assumption.
    symmetry. apply prop_spread, Hd. }
  destruct (truthy (prop step "result")) eqn:TR;
    [|destruct (truthy (prop step "status")) eqn:TS]; simpl andb; cbv iota.
  - repeat split.
    + rewrite lookup_setprop_other by discriminate.
      apply lookup_setprop_same.
    + apply lookup_setprop_same.
    + left. rewrite R by (reflexivity || discriminate). exact TR.
    + discriminate.
    + intros _. apply R; reflexivity || discriminate.
  - repeat split.
    + rewrite lookup_setprop_other by discriminate.
      apply lookup_setprop_same.
    + apply lookup_setprop_same.
    + right. rewrite R by (reflexivity || discriminate). exact TS.
    + discriminate.
    + discriminate.
  - repeat split.
    + rewrite !lookup_setprop_other by discriminate.
      apply lookup_setprop_same.
    + rewrite lookup_setprop_other by discriminate.
      apply lookup_setprop_same.
    + left. simpl. rewrite lookup_setprop_same. reflexivity.
    + intros _ _. simpl. rewrite lookup_setprop_same. reflexivity.
    + discriminate.
Qed.

(** A sanitized step is left unchanged by [sanitizeStep]. *)
Lemma stepObject_stable (step : value) (name : string) :
  notAnObject step = false ->
  stableName name ->
  stableStep opts (VObj (stepObject step name)).
Proof.
  intros N Hn fi si sti st.
  destruct (stepObject_lookups step name N) as [Lname [Lkw [Good _]]].
  set (o := stepObject step name) in *.
  unfold sanitizeStep. change (notAnObject (VObj o)) with false. cbv iota.
  assert (Pn : prop (VObj o) "name" = VStr name) by (simpl; rewrite Lname; auto).
  assert (Pk : prop (VObj o) "keyword"
               = orElse (prop step "keyword") (VStr "Given "))
    by (simpl; rewrite Lkw; auto).
  rewrite Pn.
  rewrite (bindM_run _ _ _ _ _ (sanitizeTestName_stable name _ "step" st Hn)).
  rewrite Pk, orElse_left by (apply orElse_truthy; reflexivity).
  change (spread (VObj o)) with o.
  rewrite (setprop_same o "name" _ Lname), (setprop_same o "keyword" _ Lkw).
  assert (C : negb (truthy (prop (VObj o) "result"))
              && negb (truthy (prop (VObj o) "status")) = false).
  { destruct Good as [-> | ->]; [reflexivity | apply andb_false_r]. }
  rewrite C. eexists. reflexivity.
Qed.

Lemma stepObject_good (step : value) (name : string) :
  notAnObject step = false -> goodStep (VObj (stepObject step name)).
Proof. intro N. apply (stepObject_lookups step name N). Qed.

Lemma nonNull_map_Some (l : list value) : nonNull (map Some l) = l.
Proof. induction l as [|x rest IH]; simpl; [|rewrite IH]; reflexivity. Qed.

(** Mapping [sanitizeStep] over an array never throws; the steps it keeps
    are stable and have a result or a status. *)
Lemma mapiM_sanitizeStep_run (fi si : nat) (l : list value) :
  forall i st,
  exists out st',
    mapiM (fun step stepIndex => sanitizeStep opts step fi si stepIndex) i l st
    = (Ret out, st')
    /\ Forall (stableStep opts) (nonNull out)
    /\ Forall goodStep (nonNull out).
Proof.
  induction l as [|x rest IH]; intros i st; simpl.
  - eexists _, _. split; [reflexivity | split; constructor].
  - destruct (sanitizeStep_shape x fi si i st) as [r [st1 [E Hr]]].
    destruct (IH (S i) st1) as [out [st2 [E2 [Hs Hg]]]].
    rewrite (bindM_run _ _ _ _ _ E), (bindM_run _ _ _ _ _ E2).
    eexists _, _. split; [reflexivity|].
    destruct Hr as [[_ ->] | [N [name [Hn ->]]]]; simpl; [auto|].
    split; constructor; auto using stepObject_stable, stepObject_good.
Qed.

Lemma mapiM_sanitizeStep_stable (fi si : nat) (l : list value) :
  Forall (stableStep opts) l ->
  forall i st,
  exists st',
    mapiM (fun step stepIndex => sanitizeStep opts step fi si stepIndex) i l st
    = (Ret (map Some l), st').
Proof.
  induction 1 as [|x rest Hx _ IH]; intros i st; simpl.
  - eexists. reflexivity.
  - destruct (Hx fi si i st) as [st1 E].
    destruct (IH (S i) st1) as [st2 E2].
    rewrite (bindM_run _ _ _ _ _ E), (bindM_run _ _ _ _ _ E2).
    eexists. reflexivity.
Qed.

Lemma sanitizeSteps_run (fi si : nat) (o : list (string * value)) (v : value)
  (st : VState) :
  exists out st',
    sanitizeSteps opts fi si o v st = (Ret (withSteps o v out), st')
    /\ Forall (stableStep opts) out
    /\ Forall goodStep out.
Proof.
  destruct v;
    try (exists [], st; split; [reflexivity | split; constructor]).
  simpl. destruct (mapiM_sanitizeStep_run fi si l 0 st) as [out [st' [E [Hs Hg]]]].
  exists (nonNull out), st'. split; [|auto].
  rewrite (bindM_run _ _ _ _ _ E). reflexivity.
Qed.

(** *** Hooks *)

Lemma sanitizeHook_idem (hook : value) (type : string) :
  sanitizeHook (sanitizeHook hook type) type = sanitizeHook hook type.
Proof.
  destruct (notAnObject hook) eqn:N.
  - assert (E : sanitizeHook hook type
                = VObj [("result", defaultResult);
                        ("match",
                         VObj [("location",
                                VStr ("unknown " ++ type ++ " hook"))])])
      by (unfold sanitizeHook; rewrite N; reflexivity).
    rewrite E. reflexivity.
  - set (r := orElse (prop hook "result") defaultResult).
    set (m := orElse (prop hook "match")
                (VObj [("location", VStr (type ++ " hook"))])).
    set (o := setprop (setprop (spread hook) "result" r) "match" m).
    assert (E : sanitizeHook hook type = VObj o)
      by (unfold sanitizeHook; rewrite N; reflexivity).
    rewrite E.
    assert (Lr : lookup "result" o = Some r).
    { subst o. rewrite lookup_setprop_other by discriminate.
      apply lookup_setprop_same. }
    assert (Lm : lookup "match" o = Some m) by apply lookup_setprop_same.
    unfold sanitizeHook. change (notAnObject (VObj o)) with false. cbv iota.
    change (spread (VObj o)) with o. simpl prop. rewrite Lr, Lm.
    rewrite !orElse_left by (apply orElse_truthy; reflexivity).
    rewrite (setprop_same o "result" r Lr), (setprop_same o "match" m Lm).
    reflexivity.
Qed.

Lemma map_sanitizeHook_idem (l : list value) (type : string) :
  map (fun hook => sanitizeHook hook type)
    (map (fun hook => sanitizeHook hook type) l)
  = map (fun hook => sanitizeHook hook type) l.
Proof.
  rewrite map_map. apply map_ext. intro h. apply sanitizeHook_idem.
Qed.

Lemma lookup_sanitizeHooks_other (o : list (string * value)) (k k' : string)
  (v : value) :
  k <> k' -> lookup k (sanitizeHooks o k' v) = lookup k o.
Proof.
  intro H. destruct v; simpl; try reflexivity.
  apply lookup_setprop_other, H.
Qed.

Lemma lookup_withSteps_other (o : list (string * value)) (k : string)
  (v : value) (out : list value) :
  k <> "steps" -> lookup k (withSteps o v out) = lookup k o.
Proof.
  intro H. destruct v; simpl; try reflexivity.
  apply lookup_setprop_other, H.
Qed.

(** Sanitizing the hooks of an object whose hooks are sanitized hooks of the
    same kind, or are not an array, changes nothing. *)
Lemma sanitizeHooks_stable (o : list (string * value)) (k : string) (v : value) :
  (exists l,
      v = VArr l
      /\ lookup k o = Some (VArr (map (fun hook => sanitizeHook hook k) l)))
  \/ (isArray v = false /\ prop (VObj o) k = v) ->
  sanitizeHooks o k (prop (VObj o) k) = o.
Proof.
  intros [[l [-> L]] | [A P]].
  - simpl. rewrite L. simpl. rewrite map_sanitizeHook_idem.
    apply setprop_same, L.
  - rewrite P. destruct v; try reflexivity. discriminate A.
Qed.

(** *** Scenarios *)

Lemma generateId_truthy (name : value) (fi si : nat) (g : string) :
  generateId name fi si = Ret g -> truthy (VStr g) = true.
Proof.
  unfold generateId.
  destruct (orElse name (VStr ("scenario-" ++ showNat si))); try discriminate.
  intro H. injection H as <-. reflexivity.
Qed.

(** What a kept scenario looks like. *)
Lemma sanitizeScenario_shape (scenario : value) (fi si : nat) (st st' : VState)
  (v : value) :
  sanitizeScenario opts scenario fi si st = (Ret (Some v), st') ->
  notAnObject scenario = false
  /\ exists name id out,
       stableName name
       /\ truthy id = true
       /\ Forall (stableStep opts) out
       /\ Forall goodStep out
       /\ v = VObj (scenarioObject scenario name id out).
Proof.
  unfold sanitizeScenario. destruct (notAnObject scenario) eqn:N.
  - run_addError st st1 E. discriminate.
  - intro H. split; [reflexivity|].
    apply bindM_inv in H. destruct H as [name [st1 [E1 H]]].
    destruct (stableName_fallback "S" "cenario " si eq_refl) as [Hf Hp].
    destruct (sanitizeTestName_run (prop scenario "name")
                ("Scenario " ++ showNat si) "scenario" st Hf Hp)
      as [name' [st1' [E1' Hn]]].
    rewrite E1 in E1'. injection E1' as <- <-.
    apply bindM_inv in H. destruct H as [id [st2 [E2 H]]].
    assert (Tid : truthy id = true).
    { destruct (truthy (prop scenario "id")) eqn:T.
      - injection E2 as <- _. exact T.
      - apply bindM_inv in E2. destruct E2 as [g [st2' [Eg E2]]].
        injection E2 as <- _. unfold liftE in Eg.
        injection Eg as Eg _. eapply generateId_truthy, Eg. }
    apply bindM_inv in H. destruct H as [s2 [st3 [E3 H]]].
    match type of E3 with
    | sanitizeSteps _ _ _ ?o ?x _ = _ =>
        destruct (sanitizeSteps_run fi si o x st2) as [out [st3' [E3' [Hs Hg]]]]
    end.
    rewrite E3 in E3'. injection E3' as -> _.
    injection H as <- _.
    exists name, id, out.
    split; [exact Hn|]. split; [exact Tid|]. split; [exact Hs|].
    split; [exact Hg | reflexivity].
Qed.

Lemma prop_VObj (o : list (string * value)) (k : string) :
  prop (VObj o) k
  = match lookup k o with Some x => x | None => VUndefined end.
Proof. reflexivity. Qed.

Lemma sanitizeHooks_cases (o : list (string * value)) (k : string) (v : value) :
  (exists l,
      v = VArr l
      /\ lookup k (sanitizeHooks o k v)
         = Some (VArr (map (fun hook => sanitizeHook hook k) l)))
  \/ (isArray v = false /\ sanitizeHooks o k v = o).
Proof.
  destruct v; try (right; split; reflexivity).
  left. exists l. split; [reflexivity|]. apply lookup_setprop_same.
Qed.

Lemma scenarioObject_lookups (scenario : value) (name : string) (id : value)
  (out : list value) :
  let o := scenarioObject scenario name id out in
  lookup "name" o = Some (VStr name)
  /\ lookup "id" o = Some id
  /\ lookup "type" o = Some (orElse (prop scenario "type") (VStr "scenario"))
  /\ ((isArray (prop scenario "steps") = true
       /\ lookup "steps" o = Some (VArr out))
      \/ (isArray (prop scenario "steps") = false
          /\ prop (VObj o) "steps" = prop scenario "steps"))
  /\ (forall k,
         k = "before" \/ k = "after" ->
         (exists l,
             prop scenario k = VArr l
             /\ lookup k o
                = Some (VArr (map (fun hook => sanitizeHook hook k) l)))
         \/ (isArray (prop scenario k) = false
             /\ prop (VObj o) k = prop scenario k)).
Proof.
  intro o. subst o. unfold scenarioObject.
  set (s1 := setprop (setprop (setprop (spread scenario) "name" (VStr name))
                        "id" id)
               "type" (orElse (prop scenario "type") (VStr "scenario"))).
  assert (S1 : forall k,
             headDigit k = false -> k <> "name" -> k <> "id" -> k <> "type" ->
             lookup k s1 = lookup k (spread scenario)).
  { intros k _ H1 H2 H3. subst s1.
    rewrite !lookup_setprop_other by assumption. reflexivity. }
  repeat split.
  - rewrite !lookup_sanitizeHooks_other, lookup_withSteps_other by discriminate.
    subst s1. rewrite !lookup_setprop_other by discriminate.
    apply lookup_setprop_same.
  - rewrite !lookup_sanitizeHooks_other, lookup_withSteps_other by discriminate.
    subst s1. rewrite lookup_setprop_other by discriminate.
    apply lookup_setprop_same.
  - rewrite !lookup_sanitizeHooks_other, lookup_withSteps_other by discriminate.
    subst s1. apply lookup_setprop_same.
  - destruct (isArray (prop scenario "steps")) eqn:A; [left | right];
      (split; [reflexivity|]).
    + rewrite !lookup_sanitizeHooks_other by discriminate.
      destruct (prop scenario "steps"); try discriminate A.
      apply lookup_setprop_same.
    + simpl. rewrite !lookup_sanitizeHooks_other by discriminate.
      assert (W : withSteps s1 (prop scenario "steps") out = s1)
        by (destruct (prop scenario "steps"); try reflexivity; discriminate A).
      rewrite W, S1 by (reflexivity || discriminate).
      symmetry. apply prop_spread. reflexivity.
  - intros k Hk.
    assert (Base : lookup k (withSteps s1 (prop scenario "steps") out)
                   = lookup k (spread scenario)).
    { destruct Hk as [-> | ->];
        rewrite lookup_withSteps_other, S1 by (reflexivity || discriminate);
        reflexivity. }
    assert (Hd : headDigit k = false) by (destruct Hk as [-> | ->]; reflexivity).
    set (s2 := withSteps s1 (prop scenario "steps") out) in *.
    assert (P : prop scenario k
                = match lookup k s2 with Some x => x | None => VUndefined end)
      by (rewrite Base; apply prop_spread, Hd).
    rewrite prop_VObj.
    destruct Hk as [-> | ->].
    + rewrite lookup_sanitizeHooks_other by discriminate.
      destruct (sanitizeHooks_cases s2 "before" (prop scenario "before"))
        as [[l [E L]] | [A E]].
      * left. exists l. split; [exact E | exact L].
      * right. split; [exact A|]. rewrite E. symmetry. exact P.
    + destruct (sanitizeHooks_cases
                  (sanitizeHooks s2 "before" (prop scenario "before"))
                  "after" (prop scenario "after")) as [[l [E L]] | [A E]].
      * left. exists l. split; [exact E | exact L].
      * right. split; [exact A|].
        rewrite E, lookup_sanitizeHooks_other by discriminate.
        symmetry. exact P.
Qed.

Lemma sanitizeSteps_stable (fi si : nat) (o : list (string * value))
  (v : value) (out : list value) (st : VState) :
  Forall (stableStep opts) out ->
  (isArray v = true /\ lookup "steps" o = Some (VArr out))
  \/ (isArray v = false /\ prop (VObj o) "steps" = v) ->
  exists st', sanitizeSteps opts fi si o (prop (VObj o) "steps") st = (Ret o, st').
Proof.
  intros Hs [[_ L] | [A P]].
  - simpl prop. rewrite L. simpl.
    destruct (mapiM_sanitizeStep_stable fi si out Hs 0 st) as [st' E].
    rewrite (bindM_run _ _ _ _ _ E). unfold retM.
    rewrite nonNull_map_Some, (setprop_same o "steps" _ L). eauto.
  - rewrite P. destruct v; try discriminate A; eexists; reflexivity.
Qed.

(** A sanitized scenario is left unchanged by [sanitizeScenario]. *)
Lemma scenarioObject_stable (scenario : value) (name : string) (id : value)
  (out : list value) :
  stableName name ->
  truthy id = true ->
  Forall (stableStep opts) out ->
  stableScenario opts (VObj (scenarioObject scenario name id out)).
Proof.
  intros Hn Tid Hs fi si st.
  destruct (scenarioObject_lookups scenario name id out)
    as [Lname [Lid [Ltype [Lsteps Lhooks]]]].
  set (o := scenarioObject scenario name id out) in *.
  unfold sanitizeScenario. change (notAnObject (VObj o)) with false. cbv iota.
  assert (Pn : prop (VObj o) "name" = VStr name) by (simpl; rewrite Lname; auto).
  assert (Pi : prop (VObj o) "id" = id) by (simpl; rewrite Lid; auto).
  assert (Pt : prop (VObj o) "type"
               = orElse (prop scenario "type") (VStr "scenario"))
    by (simpl; rewrite Ltype; auto).
  rewrite Pn.
  rewrite (bindM_run _ _ _ _ _ (sanitizeTestName_stable name _ "scenario" st Hn)).
  rewrite Pi, Tid.
  rewrite (bindM_run _ _ st st id) by reflexivity.
  rewrite Pt, orElse_left by (apply orElse_truthy; reflexivity).
  change (spread (VObj o)) with o.
  rewrite (setprop_same o "name" _ Lname), (setprop_same o "id" _ Lid),
    (setprop_same o "type" _ Ltype).
  destruct (sanitizeSteps_stable fi si o (prop scenario "steps") out st Hs Lsteps)
    as [st' E].
  rewrite (bindM_run _ _ _ _ _ E).
  rewrite (sanitizeHooks_stable o "before" (prop scenario "before"))
    by (apply Lhooks; auto).
  rewrite (sanitizeHooks_stable o "after" (prop scenario "after"))
    by (apply Lhooks; auto).
  eexists. reflexivity.
Qed.

Lemma scenarioObject_good (scenario : value) (name : string) (id : value)
  (out : list value) :
  Forall goodStep out ->
  goodScenario (VObj (scenarioObject scenario name id out)).
Proof.
  intros Hg steps Hsteps.
  destruct (scenarioObject_lookups scenario name id out)
    as [_ [_ [_ [[[_ L] | [A P]] _]]]].
  - simpl in Hsteps. rewrite L in Hsteps. injection Hsteps as <-. exact Hg.
  - rewrite P in Hsteps. rewrite Hsteps in A. discriminate A.
Qed.

(** *** Features *)

(** The loop over the elements of a feature never throws; the scenarios it
    pushes are stable and their steps have a result or a status. *)
Lemma sanitizeElements_run (fi : nat) (l : list value) :
  forall ei st,
  exists pushed st',
    sanitizeElements opts fi ei l st = (Ret pushed, st')
    /\ Forall (stableScenario opts) pushed
    /\ Forall goodScenario pushed.
Proof.
  induction l as [|x rest IH]; intros ei st; simpl.
  - eexists _, _. split; [reflexivity | split; constructor].
  - assert (One : exists one st1,
               tryCatch
                 (sanitizedElement <- sanitizeScenario opts x fi ei ;;
                  match sanitizedElement with
                  | Some v => retM [v]
                  | None => incrSkipped ;;; retM []
                  end)
                 (fun msg =>
                    addError opts
                      ("Feature " ++ showNat fi ++ ", Scenario " ++ showNat ei)
                      msg ;;;
                    retM []) st = (Ret one, st1)
               /\ Forall (stableScenario opts) one
               /\ Forall goodScenario one).
    { unfold tryCatch, bindM at 1.
      destruct (sanitizeScenario opts x fi ei st) as [[[v|]|m] st1] eqn:E.
      - apply sanitizeScenario_shape in E.
        destruct E as [_ [name [id [out [Hn [Tid [Hs [Hg ->]]]]]]]].
        eexists _, _. split; [reflexivity|].
        split; constructor; auto using scenarioObject_stable, scenarioObject_good.
      - eexists _, _. split; [reflexivity | split; constructor].
      - run_addError st1 st2 E2.
        eexists _, _. split; [reflexivity | split; constructor]. }
    destruct One as [one [st1 [E1 [Hs1 Hg1]]]].
    destruct (IH (S ei) st1) as [later [st2 [E2 [Hs2 Hg2]]]].
    rewrite (bindM_run _ _ _ _ _ E1), (bindM_run _ _ _ _ _ E2).
    eexists _, _. split; [reflexivity|].
    split; apply Forall_app; auto.
Qed.

Lemma sanitizeElements_stable (fi : nat) (l : list value) :
  Forall (stableScenario opts) l ->
  forall ei st, exists st', sanitizeElements opts fi ei l st = (Ret l, st').
Proof.
  induction 1 as [|x rest Hx _ IH]; intros ei st; simpl.
  - eexists. reflexivity.
  - destruct (Hx fi ei st) as [st1 E].
    destruct (IH (S ei) st1) as [st2 E2].
    erewrite bindM_run;
      [|apply tryCatch_run; rewrite (bindM_run _ _ _ _ _ E); reflexivity].
    rewrite (bindM_run _ _ _ _ _ E2). eexists. reflexivity.
Qed.

Lemma sanitizeFeature_shape (feature : value) (fi : nat) (st : VState) :
  exists r st',
    sanitizeFeature opts feature fi st = (Ret r, st')
    /\ ((notAnObject feature = true /\ r = None)
        \/ (notAnObject feature = false
            /\ exists name pushed,
                 stableName name
                 /\ Forall (stableScenario opts) pushed
                 /\ Forall goodScenario pushed
                 /\ r = Some (VObj (featureObject feature name pushed)))).
Proof.
  unfold sanitizeFeature. destruct (notAnObject feature) eqn:N.
  - run_addError st st' E.
    eexists _, _. split; [reflexivity | left; auto].
  - destruct (stableName_fallback "F" "eature " fi eq_refl) as [Hf Hp].
    destruct (sanitizeTestName_run (prop feature "name")
                ("Feature " ++ showNat fi) "feature" st Hf Hp)
      as [name [st1 [E Hn]]].
    rewrite (bindM_run _ _ _ _ _ E).
    assert (Els : exists pushed st2,
               match
                 orElse (orElse (prop feature "elements")
                           (prop feature "scenarios")) (VArr [])
               with
               | VArr l => sanitizeElements opts fi 0 l
               | _ => retM []
               end st1 = (Ret pushed, st2)
               /\ Forall (stableScenario opts) pushed
               /\ Forall goodScenario pushed).
    { destruct (orElse (orElse (prop feature "elements")
                          (prop feature "scenarios")) (VArr []));
        try (eexists _, _; split; [reflexivity | split; constructor]).
      apply sanitizeElements_run. }
    destruct Els as [pushed [st2 [E2 [Hs Hg]]]].
    rewrite (bindM_run _ _ _ _ _ E2).
    eexists _, _. split; [reflexivity|]. right. split; [reflexivity|].
    exists name, pushed. auto.
Qed.

Lemma featureObject_lookups (feature : value) (name : string)
  (pushed : list value) :
  lookup "name" (featureObject feature name pushed) = Some (VStr name)
  /\ lookup "elements" (featureObject feature name pushed) = Some (VArr pushed).
Proof.
  unfold featureObject. split.
  - rewrite lookup_setprop_other by discriminate. apply lookup_setprop_same.
  - apply lookup_setprop_same.
Qed.

(** A sanitized feature is left unchanged by [sanitizeFeature]. *)
Lemma featureObject_stable (feature : value) (name : string)
  (pushed : list value) :
  stableName name ->
  Forall (stableScenario opts) pushed ->
  stableFeature opts (VObj (featureObject feature name pushed)).
Proof.
  intros Hn Hs fi st.
  destruct (featureObject_lookups feature name pushed) as [Ln Le].
  set (o := featureObject feature name pushed) in *.
  unfold sanitizeFeature. change (notAnObject (VObj o)) with false. cbv iota.
  rewrite !prop_VObj, Ln, Le.
  rewrite (bindM_run _ _ _ _ _ (sanitizeTestName_stable name _ "feature" st Hn)).
  change (orElse (orElse (VArr pushed) _) (VArr [])) with (VArr pushed).
  cbv iota.
  destruct (sanitizeElements_stable fi pushed Hs 0 st) as [st' E].
  rewrite (bindM_run _ _ _ _ _ E).
  change (spread (VObj o)) with o.
  rewrite (setprop_same o "name" _ Ln), (setprop_same o "elements" _ Le).
  eexists. reflexivity.
Qed.

Lemma featureObject_good (feature : value) (name : string)
  (pushed : list value) :
  Forall goodScenario pushed ->
  goodFeature (VObj (featureObject feature name pushed)).
Proof.
  intros Hg els Hels.
  destruct (featureObject_lookups feature name pushed) as [_ Le].
  rewrite prop_VObj, Le in Hels. injection Hels as <-. exact Hg.
Qed.

Lemma stableFeature_not_nullish (v : value) :
  stableFeature opts v -> nullish v = false.
Proof.
  intro H. destruct (H 0 reset) as [st' E].
  destruct (sanitizeFeature_shape v 0 reset) as [r [st1 [E1 Hr]]].
  rewrite E in E1. injection E1 as <- _.
  destruct Hr as [[_ Hnone] | [N _]]; [discriminate Hnone|].
  destruct v; try reflexivity; discriminate N.
Qed.

(** *** Reports *)

Lemma sanitizeFeatures_run (l : list value) :
  forall fi st,
  exists out st',
    sanitizeFeatures opts fi l st = (Ret out, st')
    /\ Forall (stableFeature opts) (fst out)
    /\ Forall goodFeature (fst out).
Proof.
  induction l as [|x rest IH]; intros fi st; simpl.
  - eexists _, _. split; [reflexivity | split; constructor].
  - destruct (sanitizeFeature_shape x fi st) as [r [st1 [E Hr]]].
    assert (One : exists one st2,
               tryCatch
                 (sanitizedFeature <- sanitizeFeature opts x fi ;;
                  match sanitizedFeature with
                  | Some v => incrProcessed ;;; retM ([v], [])
                  | None =>
                      incrSkipped ;;;
                      retM ([], [{| skippedType := "feature";
                                    skippedIndex := fi;
                                    skippedReason := "Failed sanitization" |}])
                  end)
                 (fun msg =>
                    addError opts ("Feature " ++ showNat fi) msg ;;;
                    incrSkipped ;;;
                    retM ([], [{| skippedType := "feature";
                                  skippedIndex := fi;
                                  skippedReason := msg |}])) st
               = (Ret one, st2)
               /\ Forall (stableFeature opts) (fst one)
               /\ Forall goodFeature (fst one)).
    { unfold tryCatch. rewrite (bindM_run _ _ _ _ _ E).
      destruct Hr as [[_ ->] | [_ [name [pushed [Hn [Hs [Hg ->]]]]]]].
      - eexists _, _. split; [reflexivity | split; constructor].
      - eexists _, _. split; [reflexivity|]. simpl.
        split; constructor;
          auto using featureObject_stable, featureObject_good. }
    destruct One as [one [st2 [E1 [Hs1 Hg1]]]].
    destruct (IH (S fi) st2) as [later [st3 [E2 [Hs2 Hg2]]]].
    rewrite (bindM_run _ _ _ _ _ E1), (bindM_run _ _ _ _ _ E2).
    eexists _, _. split; [reflexivity|]. simpl.
    split; apply Forall_app; auto.
Qed.

Lemma sanitizeFeatures_stable (l : list value) :
  Forall (stableFeature opts) l ->
  forall fi st,
  exists st', sanitizeFeatures opts fi l st = (Ret (l, []), st').
Proof.
  induction 1 as [|x rest Hx _ IH]; intros fi st; simpl.
  - eexists. reflexivity.
  - destruct (Hx fi st) as [st1 E].
    erewrite bindM_run;
      [|apply tryCatch_run; rewrite (bindM_run _ _ _ _ _ E); reflexivity].
    match goal with
    | |- exists _, bindM _ _ ?s = _ => destruct (IH (S fi) s) as [st2 E2]
    end.
    rewrite (bindM_run _ _ _ _ _ E2). eexists. reflexivity.
Qed.

Lemma countEntries_total (l : list value) :
  (forall f, In f l -> nullish f = false) ->
  forall count, exists n, countEntries l count = Ret n.
Proof.
  induction l as [|f rest IH]; intros Hok count; simpl; [eauto|].
  assert (Hf : nullish f = false) by (apply Hok; simpl; auto).
  assert (T : getp f "elements" = Ret (prop f "elements"))
    by (destruct f; try reflexivity; discriminate Hf).
  rewrite T. simpl.
  destruct (prop f "elements"); apply IH; intros x Hx; apply Hok; simpl; auto.
Qed.

(** [validateReport] on something that is not an array. *)
Lemma validateReport_not_array (json : value) :
  isArray json = false -> sanitizedData (validateReport opts json) = VNull.
Proof.
  intro A. unfold validateReport.
  assert (E : exists st,
             validateBasicStructure opts json reset = (Ret false, st)).
  { destruct (addError_run "Root" "Cucumber JSON must be an array of features"
                reset) as [st E].
    exists st.
    destruct json; try discriminate A; simpl;
      rewrite (bindM_run _ _ _ _ _ E); reflexivity. }
  destruct E as [st ->]. reflexivity.
Qed.

(** The sanitized data of a report: [null], or an array of stable features
    whose steps all have a result or a status. *)
Lemma validateReport_data (json : value) :
  sanitizedData (validateReport opts json) = VNull
  \/ exists fs,
       sanitizedData (validateReport opts json) = VArr fs
       /\ Forall (stableFeature opts) fs
       /\ Forall goodFeature fs.
Proof.
  destruct (isArray json) eqn:A;
    [|left; apply validateReport_not_array, A].
  destruct json; try discriminate A. unfold validateReport.
  assert (E : exists st,
             validateBasicStructure opts (VArr l) reset = (Ret true, st)).
  { simpl. destruct (List.length l =? 0)%nat; eexists; reflexivity. }
  destruct E as [st ->]. unfold sanitizeAll.
  destruct (countOriginalEntries (VArr l)) as [count | m] eqn:C.
  - rewrite (bindM_run _ _ st st count) by reflexivity.
    destruct (sanitizeFeatures_run l 0 st) as [out [st1 [E [Hs Hg]]]].
    simpl features_of. rewrite (bindM_run _ _ _ _ _ E).
    right. exists (fst out). auto.
  - left. reflexivity.
Qed.

Lemma validateReport_stable (fs : list value) :
  Forall (stableFeature opts) fs ->
  sanitizedData (validateReport opts (VArr fs)) = VArr fs.
Proof.
  intro Hs. unfold validateReport.
  assert (E : exists st,
             validateBasicStructure opts (VArr fs) reset = (Ret true, st)).
  { simpl. destruct (List.length fs =? 0)%nat; eexists; reflexivity. }
  destruct E as [st ->]. unfold sanitizeAll.
  destruct (countEntries_total fs) with (count := 0) as [n C].
  { intros f Hf. apply stableFeature_not_nullish.
    rewrite Forall_forall in Hs. apply Hs, Hf. }
  rewrite (bindM_run _ _ st st n) by (unfold liftE; simpl; rewrite C; reflexivity).
  destruct (sanitizeFeatures_stable fs Hs 0 st) as [st1 E].
  simpl features_of. rewrite (bindM_run _ _ _ _ _ E). reflexivity.
Qed.

(** C6: sanitizing the sanitized data of a report gives the same sanitized
    data again (also when the first pass rejects the report and the data is
    [null]). *)
Theorem sanitization_is_idempotent (json : value) :
  sanitizedData (validateReport opts (sanitizedData (validateReport opts json)))
  = sanitizedData (validateReport opts json).
Proof.
  destruct (validateReport_data json) as [E | [fs [E [Hs _]]]]; rewrite E.
  - apply validateReport_not_array. reflexivity.
  - apply validateReport_stable, Hs.
Qed.

(** C9, as the code has it: every step of every scenario of every feature of
    the sanitized data has a truthy [result] or a truthy [status]; a step
    that came without either gets the result [{status: 'unknown',
    duration: 0}], one that came with a result keeps it, and one that came
    with a status only is left without a result. *)
Theorem sanitized_steps_have_result_or_status (json : value) :
  (forall fs feature els scenario steps step,
      sanitizedData (validateReport opts json) = VArr fs ->
      In feature fs ->
      prop feature "elements" = VArr els ->
      In scenario els ->
      prop scenario "steps" = VArr steps ->
      In step steps ->
      truthy (prop step "result") = true \/ truthy (prop step "status") = true)
  /\ (forall step fi si sti st st' v,
         sanitizeStep opts step fi si sti st = (Ret (Some v), st') ->
         (truthy (prop step "result") = false ->
          truthy (prop step "status") = false ->
          prop v "result" = defaultResult)
         /\ (truthy (prop step "result") = true ->
             prop v "result" = prop step "result")
         /\ (truthy (prop step "result") = false ->
             truthy (prop step "status") = true ->
             truthy (prop v "result") = false)).
Proof.
  split.
  - intros fs feature els scenario steps step E Hf Hels Hsc Hsteps Hst.
    destruct (validateReport_data json) as [E' | [fs' [E' [_ Hg]]]];
      rewrite E in E'; [discriminate E'|].
    injection E' as <-.
    rewrite Forall_forall in Hg. pose proof (Hg feature Hf els Hels) as Hg1.
    rewrite Forall_forall in Hg1. pose proof (Hg1 scenario Hsc steps Hsteps) as Hg2.
    rewrite Forall_forall in Hg2. exact (Hg2 step Hst).
  - intros step fi si sti st st' v E.
    destruct (sanitizeStep_shape step fi si sti st) as [r [st1 [E1 Hr]]].
    rewrite E in E1. injection E1 as <- _.
    destruct Hr as [[_ Hnone] | [N [name [_ Hsome]]]]; [discriminate Hnone|].
    injection Hsome as ->.
    destruct (stepObject_lookups step name N) as [_ [_ [_ [Hdef Hkeep]]]].
    split; [exact Hdef|]. split; [exact Hkeep|].
    intros TR TS. unfold stepObject. rewrite TR, TS. simpl andb. cbv iota.
    rewrite prop_VObj, !lookup_setprop_other by discriminate.
    rewrite <- prop_spread by reflexivity. exact TR.
Qed.

End Sanitizer.

Lemma sanitized_steps_have_result_or_status_witness :
  truthy (prop defaultedStep "result") = true
  \/ truthy (prop defaultedStep "status") = true.
Proof.
  eapply (proj1 (sanitized_steps_have_result_or_status
                   CucumberJsonValidator.defaultOptions bareStepReport)).
  - reflexivity.
  - left. reflexivity.
  - reflexivity.
  - left. reflexivity.
  - reflexivity.
  - left. reflexivity.
Defined.

(** C9 as stated fails: the step [{name: "s", status: "passed"}] comes out of
    the sanitizer with a keyword added and still without a [result]. *)
Lemma status_only_step_has_no_result :
  CucumberJsonValidator.sanitizedData
    (CucumberJsonValidator.validateReport CucumberJsonValidator.defaultOptions
       statusOnlyReport)
  = VArr [VObj [("name", VStr "F");
                ("elements",
                 VArr [VObj [("name", VStr "S"); ("id", VStr "f;s");
                             ("type", VStr "scenario");
                             ("steps",
                              VArr [VObj [("name", VStr "s");
                                          ("status", VStr "passed");
                                          ("keyword", VStr "Given ")]])]])]]
  /\ prop (VObj [("name", VStr "s"); ("status", VStr "passed");
                 ("keyword", VStr "Given ")]) "result" = VUndefined.
Proof. split; reflexivity. Qed.

(* ===================================================================== *)
(** ** Further properties of the status calculator *)
(* ===================================================================== *)

Section Verdicts.

Import TestStatusCalculator.

Lemma hookLoop_failed_inv (hooks : list value) :
  forall r r',
    hookLoop hooks r = Ret r' ->
    phaseStatus r' = "failed" ->
    phaseStatus r = "failed"
    \/ exists h, In h hooks /\ getHookStatus h = Ret (VStr "failed").
Proof.
  induction hooks as [|a rest IH]; intros r r' Hrun Hf; simpl in Hrun.
  - injection Hrun as <-. auto.
  - destruct (getHookStatus_total a) as [s Hs].
    rewrite Hs in Hrun; simpl in Hrun.
    destruct (isStr s "failed") eqn:F.
    + right. exists a. split; [left; reflexivity|].
      apply isStr_true in F. subst s. exact Hs.
    + assert (Step : forall r0,
                 hookLoop rest r0 = Ret r' -> phaseStatus r0 <> "failed" ->
                 exists h, In h (a :: rest)
                           /\ getHookStatus h = Ret (VStr "failed")).
      { intros r0 H0 Hne. destruct (IH _ _ H0 Hf) as [H | [h [Hin Hh]]];
          [contradiction | exists h; simpl; auto]. }
      destruct (isStr s "passed").
      * right. apply (Step _ Hrun). simpl. discriminate.
      * destruct (String.eqb_spec (phaseStatus r) "failed") as [E | E];
          [left; exact E | right; apply (Step _ Hrun E)].
Qed.

(** A hook phase is [failed] exactly when some hook is read as failed. *)
Lemma analyzeHooks_char (scenario : value) (key : string) :
  truthy scenario = true ->
  exists r,
    analyzeHooks scenario key = Ret r
    /\ (phaseStatus r = "failed" <-> someHook scenario key "failed").
Proof.
  intro T. destruct (analyzeHooks_total scenario key T) as [r Hr].
  exists r. split; [exact Hr|].
  unfold analyzeHooks in Hr. rewrite (getp_truthy _ key T) in Hr; simpl in Hr.
  unfold someHook, itemsOf.
  destruct (prop scenario key);
    try (injection Hr as <-; split; [discriminate | intros [h [[] _]]]).
  split.
  - intro Hf. destruct (hookLoop_failed_inv _ _ _ Hr Hf) as [H | H];
      [discriminate H | exact H].
  - intro H. eapply hookLoop_finds_failure; eauto.
Qed.

(** The step phase is decided by three facts: whether some step is read as
    passed, as failed, as skipped. *)
Lemma analyzeExecutionPhase_char (scenario : value) :
  truthy scenario = true ->
  exists e fl,
    analyzeExecutionPhase scenario = Ret e
    /\ phaseStatus e = executionStatusOf fl
    /\ hasItems e = negb (Nat.eqb (List.length (itemsOf scenario "steps")) 0)
    /\ (hasPassedSteps fl = true <-> someStep scenario "passed")
    /\ (hasFailedSteps fl = true <-> someStep scenario "failed")
    /\ (hasSkippedSteps fl = true <-> someStep scenario "skipped").
Proof.
  intro T. unfold analyzeExecutionPhase, someStep, itemsOf.
  rewrite (getp_truthy _ "steps" T); simpl.
  destruct (prop scenario "steps");
    try (exists notExecuted, noFlags; split; [reflexivity|];
         split; [reflexivity|]; split; [reflexivity|];
         repeat split; try discriminate; intros [x [[] _]]).
  destruct (stepLoop_total l noFlags) as [fl Hfl]. rewrite Hfl; simpl.
  eexists _, fl. split; [reflexivity|]. split; [reflexivity|].
  split; [reflexivity|].
  destruct (stepLoop_flags _ _ _ Hfl) as [Hp [Hf Hk]]. simpl in Hp, Hf, Hk.
  repeat split; intro H;
    try (apply Hp in H || apply Hf in H || apply Hk in H;
         destruct H as [H | H]; [discriminate H | exact H]);
    [apply Hp | apply Hf | apply Hk]; auto.
Qed.

(** The verdict on a scenario that is not falsy and whose name converts, in
    terms of its hooks and steps. *)
Lemma verdict_of (opts : CalcOptions) (scenario : value) :
  truthy scenario = true ->
  printable (prop scenario "name") ->
  exists s e t fl,
    status (calculateScenarioStatus opts scenario)
    = fst (determineOverallStatus opts s e t)
    /\ reason (calculateScenarioStatus opts scenario)
       = snd (determineOverallStatus opts s e t)
    /\ (phaseStatus s = "failed" <-> someHook scenario "before" "failed")
    /\ (phaseStatus t = "failed" <-> someHook scenario "after" "failed")
    /\ phaseStatus e = executionStatusOf fl
    /\ hasItems e = negb (Nat.eqb (List.length (itemsOf scenario "steps")) 0)
    /\ (hasPassedSteps fl = true <-> someStep scenario "passed")
    /\ (hasFailedSteps fl = true <-> someStep scenario "failed")
    /\ (hasSkippedSteps fl = true <-> someStep scenario "skipped").
Proof.
  intros T P.
  destruct (calculateScenarioStatus_phases opts scenario T P)
    as [s [e [t [Hs [He [Ht [Hst Hre]]]]]]].
  destruct (analyzeHooks_char scenario "before" T) as [s' [Hs' Cs]].
  destruct (analyzeHooks_char scenario "after" T) as [t' [Ht' Ct]].
  destruct (analyzeExecutionPhase_char scenario T)
    as [e' [fl [He' [Ce [Ci [Cp [Cf Ck]]]]]]].
  unfold analyzeSetupPhase in Hs. unfold analyzeTeardownPhase in Ht.
  rewrite Hs in Hs'. rewrite Ht in Ht'. rewrite He in He'.
  injection Hs' as <-. injection Ht' as <-. injection He' as <-.
  exists s, e, t, fl. repeat split; tauto || assumption.
Qed.

Lemma itemsOf_falsy (scenario : value) (key : string) :
  truthy scenario = false -> itemsOf scenario key = [].
Proof. destruct scenario; simpl; try reflexivity. discriminate. Qed.

Lemma falsy_status (opts : CalcOptions) (scenario : value) :
  truthy scenario = false ->
  status (calculateScenarioStatus opts scenario) = "unknown".
Proof. intro T. unfold calculateScenarioStatus. rewrite T. reflexivity. Qed.

(** Splits a verdict into the cases of the two flags, the two hook phases
    and the three step flags. *)
Ltac verdict_cases opts s e t fl :=
  unfold determineOverallStatus;
  match goal with
  | Ce : phaseStatus e = executionStatusOf fl |- _ => rewrite Ce
  end;
  unfold executionStatusOf;
  repeat match goal with
         | H : ?A <-> _ |- _ =>
             lazymatch A with
             | context [hasItems e] => fail
             | _ => revert H
             end
         end;
  destruct (treatSetupFailuresAsFailed opts);
  destruct (treatTeardownFailuresAsFailed opts);
  destruct (String.eqb_spec (phaseStatus s) "failed");
  destruct (String.eqb_spec (phaseStatus t) "failed");
  destruct (hasPassedSteps fl); destruct (hasFailedSteps fl);
  destruct (hasSkippedSteps fl);
  simpl; intros;
  try match goal with
      | |- context [hasItems e] =>
          repeat match goal with
                 | H : context [hasItems e] |- _ => revert H
                 end;
          destruct (hasItems e); simpl; intros
      end.

Lemma steps_nonempty_iff (l : list value) :
  negb (Nat.eqb (List.length l) 0) = true <-> l <> [].
Proof. destruct l; simpl; split; congruence. Qed.

(** A scenario is [passed] exactly when its name converts to a string, some
    step passed, no step failed or was skipped, and no hook failure counts
    against it. *)
Theorem passed_exactly_when (opts : CalcOptions) (scenario : value) :
  status (calculateScenarioStatus opts scenario) = "passed"
  <-> printable (prop scenario "name")
      /\ someStep scenario "passed"
      /\ ~ someStep scenario "failed"
      /\ ~ someStep scenario "skipped"
      /\ ~ (treatSetupFailuresAsFailed opts = true
            /\ someHook scenario "before" "failed")
      /\ ~ (treatTeardownFailuresAsFailed opts = true
            /\ someHook scenario "after" "failed").
Proof.
  destruct (truthy scenario) eqn:T.
  - destruct (printable_dec (prop scenario "name")) as [P | NP].
    + destruct (verdict_of opts scenario T P)
        as [s [e [t [fl [Hst [_ [Cs [Ct [Ce [Ci [Cp [Cf Ck]]]]]]]]]]]].
      rewrite Hst. clear Hst.
      verdict_cases opts s e t fl;
        intuition (try discriminate; try congruence).
    + destruct (unprintable_status opts scenario T NP) as [E _]. rewrite E.
      split; [discriminate | intros [P _]; contradiction].
  - rewrite (falsy_status opts scenario T). unfold someStep.
    rewrite (itemsOf_falsy scenario "steps" T).
    split; [discriminate | intros [_ [[x [[] _]] _]]].
Qed.

(** A scenario is [failed] exactly when its name converts to a string and
    a hook failure counts against it, or some step failed, or passed and
    skipped steps are mixed. *)
Theorem failed_exactly_when (opts : CalcOptions) (scenario : value) :
  status (calculateScenarioStatus opts scenario) = "failed"
  <-> printable (prop scenario "name")
      /\ ((treatSetupFailuresAsFailed opts = true
           /\ someHook scenario "before" "failed")
          \/ (treatTeardownFailuresAsFailed opts = true
              /\ someHook scenario "after" "failed")
          \/ someStep scenario "failed"
          \/ (someStep scenario "passed" /\ someStep scenario "skipped")).
Proof.
  destruct (truthy scenario) eqn:T.
  - destruct (printable_dec (prop scenario "name")) as [P | NP].
    + destruct (verdict_of opts scenario T P)
        as [s [e [t [fl [Hst [_ [Cs [Ct [Ce [Ci [Cp [Cf Ck]]]]]]]]]]]].
      rewrite Hst. clear Hst.
      verdict_cases opts s e t fl;
        intuition (try discriminate; try congruence).
    + destruct (unprintable_status opts scenario T NP) as [E _]. rewrite E.
      split; [discriminate | intros [P _]; contradiction].
  - rewrite (falsy_status opts scenario T). unfold someStep, someHook.
    rewrite !(itemsOf_falsy scenario _ T).
    split; [discriminate|].
    intros [_ [[_ [x [[] _]]] | [[_ [x [[] _]]] | [[x [[] _]]
                                                   | [[x [[] _]] _]]]]].
Qed.

(** A scenario is [skipped] exactly when it is a value whose name converts
    to a string, with no hook failure counting against it, no passed and no
    failed step, and either a skipped step or no steps at all; it is
    [unknown] exactly when it is falsy, or its name converts, it has steps
    none of which is read as passed, failed or skipped, and no hook failure
    counts against it. *)
Theorem skipped_and_unknown_exactly_when
  (opts : CalcOptions) (scenario : value) :
  let clear_of_hooks :=
    ~ (treatSetupFailuresAsFailed opts = true
       /\ someHook scenario "before" "failed")
    /\ ~ (treatTeardownFailuresAsFailed opts = true
          /\ someHook scenario "after" "failed") in
  (status (calculateScenarioStatus opts scenario) = "skipped"
   <-> truthy scenario = true
       /\ printable (prop scenario "name")
       /\ clear_of_hooks
       /\ ~ someStep scenario "passed"
       /\ ~ someStep scenario "failed"
       /\ (someStep scenario "skipped" \/ itemsOf scenario "steps" = []))
  /\ (status (calculateScenarioStatus opts scenario) = "unknown"
      <-> truthy scenario = false
          \/ (printable (prop scenario "name")
              /\ clear_of_hooks
              /\ itemsOf scenario "steps" <> []
              /\ ~ someStep scenario "passed"
              /\ ~ someStep scenario "failed"
              /\ ~ someStep scenario "skipped")).
Proof.
  intro clear_of_hooks. subst clear_of_hooks.
  destruct (truthy scenario) eqn:T.
  - destruct (printable_dec (prop scenario "name")) as [P | NP];
      [|destruct (unprintable_status opts scenario T NP) as [E _]; rewrite E;
        split; (split; [discriminate|]);
        [intros [_ [P _]] | intros [D | [P _]]];
        try contradiction; discriminate D].
    destruct (verdict_of opts scenario T P)
      as [s [e [t [fl [Hst [_ [Cs [Ct [Ce [Ci [Cp [Cf Ck]]]]]]]]]]]].
    rewrite Hst. clear Hst.
    assert (Hne : hasItems e = true <-> itemsOf scenario "steps" <> [])
      by (rewrite Ci; apply steps_nonempty_iff).
    clear Ci.
    assert (Hnil : forall lit, itemsOf scenario "steps" = [] ->
                               ~ someStep scenario lit).
    { intros lit E [x [Hin _]]. rewrite E in Hin. destruct Hin. }
    verdict_cases opts s e t fl;
      (split; [split|split]);
      try solve [intuition (try discriminate; try congruence)];
      try solve [intros _; intuition (try discriminate; try congruence);
                 right; destruct (itemsOf scenario "steps") eqn:E; auto;
                 exfalso; intuition congruence].
  - rewrite (falsy_status opts scenario T).
    split; split; auto; try discriminate.
    intros [D _]. discriminate D.
Qed.

Lemma reasonOr_nonempty (r : option string) (fallback : string) :
  fallback <> "" -> reasonOr r fallback <> "".
Proof.
  intro H. unfold reasonOr. destruct r as [m|]; [|exact H].
  destruct (String.eqb_spec m ""); assumption.
Qed.

(** A hook failure that counts fails the scenario. *)
Lemma hook_failure_fails (opts : CalcOptions) (scenario : value) :
  printable (prop scenario "name") ->
  (treatSetupFailuresAsFailed opts = true
   /\ someHook scenario "before" "failed")
  \/ (treatTeardownFailuresAsFailed opts = true
      /\ someHook scenario "after" "failed") ->
  status (calculateScenarioStatus opts scenario) = "failed".
Proof.
  intros P H.
  assert (T : truthy scenario = true).
  { destruct (truthy scenario) eqn:T; [reflexivity|]. exfalso.
    unfold someHook in H. rewrite !(itemsOf_falsy scenario _ T) in H.
    destruct H as [[_ [x [[] _]]] | [_ [x [[] _]]]]. }
  destruct (verdict_of opts scenario T P)
    as [s [e [t [fl [Hst [_ [Cs [Ct [Ce [Ci [Cp [Cf Ck]]]]]]]]]]]].
  rewrite Hst. clear Hst.
  verdict_cases opts s e t fl; intuition (try discriminate; try congruence).
Qed.

(** With the teardown flag on, a failed [after] hook fails a scenario whose
    name converts to a string before the steps are looked at, and unless a
    counted setup failure comes first the reason is "Teardown failed: "
    followed by a non-empty message. *)
Theorem teardown_failure_takes_precedence
  (opts : CalcOptions) (scenario : value) :
  treatTeardownFailuresAsFailed opts = true ->
  printable (prop scenario "name") ->
  someHook scenario "after" "failed" ->
  status (calculateScenarioStatus opts scenario) = "failed"
  /\ (~ (treatSetupFailuresAsFailed opts = true
         /\ someHook scenario "before" "failed") ->
      exists why,
        why <> ""
        /\ reason (calculateScenarioStatus opts scenario)
           = "Teardown failed: " ++ why).
Proof.
  intros Hflag P Hafter. split; [apply hook_failure_fails; auto|].
  intro Hsetup.
  assert (T : truthy scenario = true).
  { destruct (truthy scenario) eqn:T; [reflexivity|]. exfalso.
    unfold someHook in Hafter. rewrite (itemsOf_falsy scenario _ T) in Hafter.
    destruct Hafter as [x [[] _]]. }
  destruct (verdict_of opts scenario T P)
    as [s [e [t [fl [_ [Hre [Cs [Ct _]]]]]]]].
  rewrite Hre. unfold determineOverallStatus. rewrite Hflag.
  assert (Et : phaseStatus t = "failed") by (apply Ct; exact Hafter).
  rewrite Et.
  assert (Es : treatSetupFailuresAsFailed opts && (phaseStatus s =? "failed")
               = false).
  { destruct (treatSetupFailuresAsFailed opts); [|reflexivity].
    destruct (String.eqb_spec (phaseStatus s) "failed") as [E | E];
      [|reflexivity].
    exfalso. apply Hsetup. split; [reflexivity | apply Cs; exact E]. }
  rewrite Es. simpl.
  eexists. split; [|reflexivity]. apply reasonOr_nonempty. discriminate.
Qed.

Lemma teardown_failure_takes_precedence_witness :
  status (calculateScenarioStatus defaultCalcOptions teardownFailureScenario)
  = "failed"
  /\ (~ (treatSetupFailuresAsFailed defaultCalcOptions = true
         /\ someHook teardownFailureScenario "before" "failed") ->
      exists why,
        why <> ""
        /\ reason (calculateScenarioStatus defaultCalcOptions
                     teardownFailureScenario)
           = "Teardown failed: " ++ why).
Proof.
  apply (teardown_failure_takes_precedence defaultCalcOptions
           teardownFailureScenario).
  - reflexivity.
  - reflexivity.
  - exists (hookWith "failed"). split; [left; reflexivity | reflexivity].
Defined.

(** Every result carries a non-empty reason, and carries details exactly
    when the scenario is not falsy. *)
Theorem reason_is_never_empty (opts : CalcOptions) (scenario : value) :
  reason (calculateScenarioStatus opts scenario) <> ""
  /\ (details (calculateScenarioStatus opts scenario) <> None
      <-> truthy scenario = true).
Proof.
  destruct (truthy scenario) eqn:T.
  - destruct (printable_dec (prop scenario "name")) as [P | NP].
    + destruct (analyzeHooks_total scenario "before" T) as [s Hs].
      destruct (analyzeExecutionPhase_total scenario T) as [e He].
      destruct (analyzeHooks_total scenario "after" T) as [t Ht].
      unfold calculateScenarioStatus, analyzeSetupPhase, analyzeTeardownPhase.
      rewrite T, Hs, He, Ht, logScenario_name, P. simpl.
      split; [|split; [reflexivity | discriminate]].
      unfold determineOverallStatus.
      repeat match goal with
             | |- context [if ?b then _ else _] => destruct b
             end; simpl; discriminate.
    + destruct (unprintable_status opts scenario T NP) as [_ [R D]].
      rewrite R. split; [discriminate | split; [reflexivity | intros _; exact D]].
  - unfold calculateScenarioStatus. rewrite T. simpl.
    split; [discriminate | split; [congruence | discriminate]].
Qed.

(** With both flags off the hooks play no part: two scenarios with the same
    steps, and with names that convert to a string alike (two strings, say,
    or the same name), get the same status and the same reason. *)
Theorem hooks_ignored_when_flags_off
  (opts : CalcOptions) (scenario1 scenario2 : value) :
  treatSetupFailuresAsFailed opts = false ->
  treatTeardownFailuresAsFailed opts = false ->
  truthy scenario1 = true ->
  truthy scenario2 = true ->
  ToString (prop scenario1 "name") = ToString (prop scenario2 "name") ->
  prop scenario1 "steps" = prop scenario2 "steps" ->
  status (calculateScenarioStatus opts scenario1)
  = status (calculateScenarioStatus opts scenario2)
  /\ reason (calculateScenarioStatus opts scenario1)
     = reason (calculateScenarioStatus opts scenario2).
Proof.
  intros Fs Ft T1 T2 Hname Hsteps.
  destruct (printable_dec (prop scenario1 "name")) as [P1 | NP1].
  2: { assert (NP2 : ~ printable (prop scenario2 "name"))
         by (unfold printable in *; rewrite <- Hname; exact NP1).
       destruct (unprintable_status opts scenario1 T1 NP1) as [E1 [R1 _]].
       destruct (unprintable_status opts scenario2 T2 NP2) as [E2 [R2 _]].
       rewrite E1, E2, R1, R2. auto. }
  assert (P2 : printable (prop scenario2 "name"))
    by (unfold printable in *; rewrite <- Hname; exact P1).
  destruct (calculateScenarioStatus_phases opts scenario1 T1 P1)
    as [s1 [e1 [t1 [_ [He1 [_ [Hst1 Hre1]]]]]]].
  destruct (calculateScenarioStatus_phases opts scenario2 T2 P2)
    as [s2 [e2 [t2 [_ [He2 [_ [Hst2 Hre2]]]]]]].
  assert (E : e1 = e2).
  { unfold analyzeExecutionPhase in He1, He2.
    rewrite (getp_truthy _ "steps" T1) in He1.
    rewrite (getp_truthy _ "steps" T2) in He2.
    rewrite Hsteps in He1. rewrite He1 in He2. injection He2 as E. exact E. }
  subst e2. rewrite Hst1, Hst2, Hre1, Hre2.
  unfold determineOverallStatus. rewrite Fs, Ft. simpl. auto.
Qed.

Lemma hooks_ignored_when_flags_off_witness :
  status (calculateScenarioStatus lenientCalcOptions setupFailureScenario)
  = status (calculateScenarioStatus lenientCalcOptions
              (VObj [("steps", VArr [stepWith "passed"; stepWith "passed"])]))
  /\ reason (calculateScenarioStatus lenientCalcOptions setupFailureScenario)
     = reason (calculateScenarioStatus lenientCalcOptions
                 (VObj [("steps", VArr [stepWith "passed"; stepWith "passed"])])).
Proof.
  apply (hooks_ignored_when_flags_off lenientCalcOptions setupFailureScenario
           (VObj [("steps", VArr [stepWith "passed"; stepWith "passed"])]));
    reflexivity.
Defined.

(** *** handleSetupFailures *)

Lemma firstFailure_char (hooks : list value) :
  exists b,
    firstFailure hooks = Ret b
    /\ (b <> None
        <-> exists h, In h hooks /\ getHookStatus h = Ret (VStr "failed")).
Proof.
  induction hooks as [|a rest [b [E IH]]]; simpl.
  - exists None. split; [reflexivity|].
    split; [congruence | intros [h [[] _]]].
  - destruct (getHookStatus_total a) as [s Hs]. rewrite Hs; simpl.
    destruct (isStr s "failed") eqn:F.
    + destruct (extractErrorMessage_total a) as [m ->]; simpl.
      exists (Some m). split; [reflexivity|]. split; [|discriminate].
      intros _. exists a. apply isStr_true in F. subst s. auto.
    + exists b. split; [exact E|]. rewrite IH. split.
      * intros [h [Hin Hh]]. exists h. auto.
      * intros [h [[<- | Hin] Hh]]; [|eauto].
        rewrite Hs in Hh. injection Hh as ->. discriminate F.
Qed.

Lemma failureIn_char (scenario : value) (key : string) :
  exists b,
    failureIn (prop scenario key) = Ret b
    /\ (b <> None <-> someHook scenario key "failed").
Proof.
  unfold someHook, itemsOf, failureIn.
  destruct (prop scenario key);
    try (exists None; split; [reflexivity|];
         split; [congruence | intros [h [[] _]]]).
  apply firstFailure_char.
Qed.

(** [handleSetupFailures] on the hooks of a scenario never throws, reports
    a setup (teardown) failure exactly when some [before] ([after]) hook is
    read as failed, and whenever it says the test should fail the calculator
    gives the scenario the status [failed], provided its name converts to a
    string. *)
Theorem handleSetupFailures_agrees (opts : CalcOptions) (scenario : value) :
  exists r,
    handleSetupFailures opts (prop scenario "before") (prop scenario "after")
    = Ret r
    /\ (setupFailed r = true <-> someHook scenario "before" "failed")
    /\ (teardownFailed r = true <-> someHook scenario "after" "failed")
    /\ (shouldFailTest r = true
        <-> (treatSetupFailuresAsFailed opts = true /\ setupFailed r = true)
            \/ (treatTeardownFailuresAsFailed opts = true
                /\ teardownFailed r = true))
    /\ (shouldFailTest r = true ->
        printable (prop scenario "name") ->
        status (calculateScenarioStatus opts scenario) = "failed").
Proof.
  destruct (failureIn_char scenario "before") as [b [Eb Cb]].
  destruct (failureIn_char scenario "after") as [a [Ea Ca]].
  unfold handleSetupFailures. rewrite Eb, Ea. simpl.
  eexists. split; [reflexivity|]. simpl.
  assert (Sb : match b with Some _ => true | None => false end = true
               <-> someHook scenario "before" "failed").
  { rewrite <- Cb. destruct b; split; congruence. }
  assert (Sa : match a with Some _ => true | None => false end = true
               <-> someHook scenario "after" "failed").
  { rewrite <- Ca. destruct a; split; congruence. }
  assert (Sh : (match b with
                | Some _ => treatSetupFailuresAsFailed opts
                | None => false
                end
                || match a with
                   | Some _ => treatTeardownFailuresAsFailed opts
                   | None => false
                   end) = true
               <-> (treatSetupFailuresAsFailed opts = true
                    /\ match b with Some _ => true | None => false end = true)
                   \/ (treatTeardownFailuresAsFailed opts = true
                       /\ match a with Some _ => true | None => false end
                          = true)).
  { destruct b, a, (treatSetupFailuresAsFailed opts),
      (treatTeardownFailuresAsFailed opts); simpl;
      intuition (try discriminate; auto). }
  split; [exact Sb|]. split; [exact Sa|]. split; [exact Sh|].
  intros H P. apply (hook_failure_fails opts scenario P).
  rewrite <- Sb, <- Sa. apply Sh, H.
Qed.

(** *** Error messages *)

Lemma length_append (a b : string) :
  String.length (a ++ b) = String.length a + String.length b.
Proof. induction a as [|c a IH]; simpl; [|rewrite IH]; reflexivity. Qed.

Lemma length_substring_le (s : string) :
  forall n m, String.length (substring n m s) <= m \/ s = "".
Proof.
  induction s as [|c s IH]; intros n m; [right; reflexivity|]. left.
  destruct n as [|n]; simpl.
  - destruct m as [|m]; simpl; [lia|].
    destruct (IH 0 m) as [H | ->]; [lia|]. destruct m; simpl; lia.
  - destruct (IH n m) as [H | ->]; [exact H|]. destruct n, m; simpl; lia.
Qed.

Lemma length_trimStart_le (s : string) :
  String.length (trimStart s) <= String.length s.
Proof.
  induction s as [|c s IH]; simpl; [lia|].
  destruct (isWhiteSpace c); simpl; lia.
Qed.

Lemma length_trimEnd_le (s : string) :
  String.length (trimEnd s) <= String.length s.
Proof.
  induction s as [|c s IH]; simpl; [lia|].
  destruct (trimEnd s); [destruct (isWhiteSpace c)|]; simpl in *; lia.
Qed.

(** The message shown for an error is never longer than 515 characters:
    500 of the original and the 15 of the truncation mark. *)
Theorem sanitizeErrorMessage_is_bounded (errorMessage : value) :
  String.length (sanitizeErrorMessage errorMessage) <= 515.
Proof.
  unfold sanitizeErrorMessage.
  destruct errorMessage; try (vm_compute; lia).
  destruct (s =? ""); [vm_compute; lia|].
  destruct (Nat.ltb_spec 500 (String.length s)) as [L | L].
  - rewrite length_append.
    change (String.length "... (truncated)") with 15.
    destruct (length_substring_le s 0 500) as [H | ->]; [lia|].
    simpl in L. lia.
  - unfold trim.
    pose proof (length_trimEnd_le (trimStart s)).
    pose proof (length_trimStart_le s). lia.
Qed.

(** *** Feature status *)

Lemma status_range (opts : CalcOptions) (scenario : value) :
  In (status (calculateScenarioStatus opts scenario))
    ["passed"; "failed"; "skipped"; "unknown"; "error"].
Proof.
  destruct (truthy scenario) eqn:T.
  - destruct (printable_dec (prop scenario "name")) as [P | NP].
    + destruct (calculateScenarioStatus_phases opts scenario T P)
        as [s [e [t [_ [_ [_ [Hst _]]]]]]].
      rewrite Hst.
      pose proof (determineOverallStatus_range opts s e t) as R.
      simpl in R. simpl. tauto.
    + destruct (unprintable_status opts scenario T NP) as [E _].
      rewrite E. simpl. auto 6.
  - rewrite (falsy_status opts scenario T). simpl. auto.
Qed.

Lemma countOf_pos (lit : string) (sts : list string) :
  0 < countOf lit sts <-> In lit sts.
Proof.
  unfold countOf. induction sts as [|st rest IH]; simpl; [split; [lia|tauto]|].
  destruct (String.eqb_spec st lit) as [E | E]; simpl.
  - split; [auto | lia].
  - rewrite IH. split; [auto | intros [H | H]; [contradiction | exact H]].
Qed.

Lemma countOf_le (lit : string) (sts : list string) :
  countOf lit sts <= List.length sts.
Proof. apply filter_length_le. Qed.

Lemma countOf_all (lit : string) (sts : list string) :
  countOf lit sts = List.length sts <-> forall st, In st sts -> st = lit.
Proof.
  unfold countOf. induction sts as [|st rest IH]; simpl; [tauto|].
  pose proof (countOf_le lit rest) as Hle. unfold countOf in Hle.
  destruct (String.eqb_spec st lit) as [E | E]; simpl.
  - split.
    + intros H x [<- | Hx]; [exact E|]. apply IH; [lia | exact Hx].
    + intro H. f_equal. apply IH. auto.
  - split; [lia|]. intro H. exfalso. apply E, H. auto.
Qed.

Lemma countOf_partition (sts : list string) :
  (forall st, In st sts ->
              In st ["passed"; "failed"; "skipped"; "unknown"; "error"]) ->
  countOf "passed" sts + countOf "failed" sts + countOf "skipped" sts
  + countOf "unknown" sts + countOf "error" sts = List.length sts.
Proof.
  unfold countOf. induction sts as [|st rest IH]; intro H; [reflexivity|].
  assert (Hrest := IH (fun x Hx => H x (or_intror Hx))).
  destruct (H st (or_introl eq_refl))
    as [<- | [<- | [<- | [<- | [<- | []]]]]];
    simpl; lia.
Qed.

Lemma either_counts (a b : string) (sts : list string) :
  0 < countOf a sts + countOf b sts <-> In a sts \/ In b sts.
Proof. rewrite <- !countOf_pos. lia. Qed.

Lemma fold_countScenario_counts (opts : CalcOptions) (scenarios : list value) :
  forall t,
    let t' := fold_left (countScenario opts) scenarios t in
    let sts := map (fun sc => status (calculateScenarioStatus opts sc))
                 scenarios in
    nPassed t' = nPassed t + countOf "passed" sts
    /\ nFailed t' = nFailed t + countOf "failed" sts
    /\ nSkipped t' = nSkipped t + countOf "skipped" sts
    /\ nErrors t' = nErrors t + countOf "unknown" sts + countOf "error" sts.
Proof.
  unfold countOf.
  induction scenarios as [|x rest IH]; intro t; simpl; [lia|].
  destruct (IH (countScenario opts t x)) as [Hp [Hf [Hk He]]].
  rewrite Hp, Hf, Hk, He. unfold countScenario.
  destruct (status_range opts x) as [<- | [<- | [<- | [<- | [<- | []]]]]];
    simpl; lia.
Qed.

Lemma only_passed_skipped (sts : list string) :
  (forall st, In st sts ->
              In st ["passed"; "failed"; "skipped"; "unknown"; "error"]) ->
  countOf "failed" sts = 0 ->
  countOf "unknown" sts = 0 ->
  countOf "error" sts = 0 ->
  forall st, In st sts -> st = "passed" \/ st = "skipped".
Proof.
  intros Hrange Zf Zu Ze st Hst.
  destruct (Hrange st Hst) as [<- | [<- | [<- | [<- | [<- | []]]]]]; auto;
    apply countOf_pos in Hst; lia.
Qed.

Lemma mix_counts (sts : list string) :
  (forall st, In st sts -> st = "passed" \/ st = "skipped") ->
  countOf "failed" sts = 0 /\ countOf "unknown" sts = 0
  /\ countOf "error" sts = 0.
Proof.
  intro H.
  assert (Z : forall lit, lit <> "passed" -> lit <> "skipped" ->
                          countOf lit sts = 0).
  { intros lit N1 N2.
    destruct (Nat.eq_dec (countOf lit sts) 0) as [Z | Z]; [exact Z|].
    assert (Hin : In lit sts) by (apply countOf_pos; lia).
    destruct (H lit Hin); contradiction. }
  repeat split; apply Z; discriminate.
Qed.

(** Turns statements about the statuses of a list into statements about
    its counts, and leaves the arithmetic to [lia]. *)
Ltac by_counts Hrange :=
  (let H := fresh in intro H);
  repeat match goal with
         | H : _ /\ _ |- _ => destruct H
         | H : In _ _ \/ In _ _ |- _ => apply either_counts in H
         | H : In _ _ |- _ => apply countOf_pos in H
         | H : ~ In _ _ |- _ => rewrite <- countOf_pos in H
         | H : forall st, In st _ -> st = _ \/ st = _ |- _ =>
             apply mix_counts in H
         | H : forall st, In st _ -> st = _ |- _ => apply countOf_all in H
         end;
  try discriminate;
  repeat match goal with
         | |- _ /\ _ => split
         | |- In _ _ \/ In _ _ => apply either_counts
         | |- In _ _ => apply countOf_pos
         | |- ~ In _ _ => rewrite <- countOf_pos
         | |- forall st, In st _ -> st = _ \/ st = _ =>
             apply (only_passed_skipped _ Hrange)
         | |- forall st, In st _ -> st = _ => apply countOf_all
         end;
  try reflexivity; try lia; exfalso; lia.

(** The status of a feature with at least one scenario, in terms of the
    statuses of its scenarios: [error] when some scenario is [unknown] or
    ['error']; otherwise [failed] when some scenario failed; otherwise
    [skipped] or [passed] when all scenarios are; otherwise [mixed]. *)
Theorem feature_status_exactly
  (opts : CalcOptions) (feature : value) (els : list value) :
  prop feature "elements" = VArr els ->
  (forall e, In e els -> nullish e = false) ->
  (exists e, In e els /\ isScenario e = true) ->
  exists r,
    calculateFeatureStatus opts feature = Ret r
    /\ (featureStatus r = "error"
        <-> In "unknown" (scenarioStatuses opts els)
            \/ In "error" (scenarioStatuses opts els))
    /\ (featureStatus r = "failed"
        <-> ~ In "unknown" (scenarioStatuses opts els)
            /\ ~ In "error" (scenarioStatuses opts els)
            /\ In "failed" (scenarioStatuses opts els))
    /\ (featureStatus r = "passed"
        <-> forall st, In st (scenarioStatuses opts els) -> st = "passed")
    /\ (featureStatus r = "skipped"
        <-> forall st, In st (scenarioStatuses opts els) -> st = "skipped")
    /\ (featureStatus r = "mixed"
        <-> In "passed" (scenarioStatuses opts els)
            /\ In "skipped" (scenarioStatuses opts els)
            /\ forall st, In st (scenarioStatuses opts els) ->
                          st = "passed" \/ st = "skipped").
Proof.
  intros Hels Hok [e0 [Hin0 He0]].
  pose proof (prop_array_truthy _ _ _ Hels) as T.
  unfold calculateFeatureStatus. rewrite T; simpl.
  rewrite (getp_truthy _ "elements" T); simpl. rewrite Hels; simpl.
  rewrite (filterE_notBackground els Hok); simpl.
  assert (Hlen : 0 < List.length (filter isScenario els)).
  { assert (Hf : In e0 (filter isScenario els)) by (apply filter_In; auto).
    destruct (filter isScenario els); [destruct Hf | simpl; lia]. }
  destruct (Nat.eqb_spec (List.length (filter isScenario els)) 0) as [Z | _];
    [lia|].
  eexists. split; [reflexivity|]. simpl.
  unfold countScenarios.
  destruct (fold_countScenario_counts opts (filter isScenario els)
              {| nPassed := 0; nFailed := 0; nSkipped := 0; nErrors := 0 |})
    as [Hp [Hf [Hk He]]].
  simpl in Hp, Hf, Hk, He. fold (scenarioStatuses opts els) in Hp, Hf, Hk, He.
  assert (Hn : List.length (filter isScenario els)
               = List.length (scenarioStatuses opts els))
    by (unfold scenarioStatuses; rewrite length_map; reflexivity).
  assert (Hrange : forall st,
             In st (scenarioStatuses opts els) ->
             In st ["passed"; "failed"; "skipped"; "unknown"; "error"]).
  { intros st Hst. unfold scenarioStatuses in Hst.
    apply in_map_iff in Hst. destruct Hst as [x [<- _]].
    apply status_range. }
  pose proof (countOf_partition _ Hrange) as Hsum.
  unfold aggregate. simpl. rewrite Hp, Hf, Hk, He, Hn.
  rewrite Hn in Hlen. clear Hp Hf Hk He Hn.
  generalize dependent (scenarioStatuses opts els). intros sts Hlen Hrange Hsum.
  destruct (Nat.ltb_spec 0 (countOf "unknown" sts + countOf "error" sts))
    as [LU | LU]; simpl.
  { split; [|split; [|split; [|split]]]; split; by_counts Hrange. }
  destruct (Nat.ltb_spec 0 (countOf "failed" sts)) as [LF | LF]; simpl.
  { split; [|split; [|split; [|split]]]; split; by_counts Hrange. }
  destruct (Nat.eqb_spec (countOf "skipped" sts) (List.length sts))
    as [EK | EK]; simpl.
  { split; [|split; [|split; [|split]]]; split; by_counts Hrange. }
  destruct (Nat.eqb_spec (countOf "passed" sts) (List.length sts))
    as [EP | EP]; simpl.
  { split; [|split; [|split; [|split]]]; split; by_counts Hrange. }
  split; [|split; [|split; [|split]]]; split; by_counts Hrange.
Qed.

Lemma feature_status_exactly_witness :
  exists r,
    calculateFeatureStatus defaultCalcOptions exampleFeature = Ret r
    /\ (featureStatus r = "error"
        <-> In "unknown" (scenarioStatuses defaultCalcOptions
                            (itemsOf exampleFeature "elements"))
            \/ In "error" (scenarioStatuses defaultCalcOptions
                             (itemsOf exampleFeature "elements"))).
Proof.
  destruct (feature_status_exactly defaultCalcOptions exampleFeature
              (itemsOf exampleFeature "elements"))
    as [r [Hr [He _]]].
  - reflexivity.
  - intros e He. simpl in He.
    repeat (destruct He as [<- | He]; [reflexivity|]). destruct He.
  - exists (scenarioWith "passed"). split; [simpl; auto | reflexivity].
  - exists r. split; assumption.
Defined.

End Verdicts.

(* ===================================================================== *)
(** ** Further properties of the integrity validator *)
(* ===================================================================== *)

Section Integrity.

Import DataIntegrityValidator.

Variable opts : Options.

(** *** The raw summary *)

Lemma forEachE_invariant {A : Type} (P : A -> Prop)
  (f : A -> value -> outcome A) (l : list value) :
  (forall a x a', P a -> f a x = Ret a' -> P a') ->
  forall a a', P a -> forEachE f l a = Ret a' -> P a'.
Proof.
  intro Hf. induction l as [|x rest IH]; intros a a' Ha Hrun; simpl in Hrun.
  - injection Hrun as <-. exact Ha.
  - destruct (f a x) as [a1 | m] eqn:E; simpl in Hrun; [|discriminate].
    eapply IH; [eapply Hf; eauto | exact Hrun].
Qed.

Lemma bump_counts (s : Summary) (st : string) :
  let s' := bump s st in
  features s' = features s /\ scenarios s' = scenarios s
  /\ steps s' = steps s
  /\ (passed s' + failed s' + skipped s' + errors s'
      = passed s + failed s + skipped s + errors s + 1)%Z
  /\ (passed s <= passed s' /\ failed s <= failed s'
      /\ skipped s <= skipped s' /\ errors s <= errors s')%Z.
Proof.
  unfold bump.
  repeat match goal with
         | |- context [if ?b then _ else _] => destruct b
         end; simpl; lia.
Qed.

Lemma addScenario_counts (s s' : Summary) (scenario : value) :
  addScenario s scenario = Ret s' ->
  features s' = features s
  /\ (passed s' + failed s' + skipped s' + errors s' - scenarios s'
      = passed s + failed s + skipped s + errors s - scenarios s)%Z
  /\ (scenarios s <= scenarios s' /\ steps s <= steps s'
      /\ passed s <= passed s' /\ failed s <= failed s'
      /\ skipped s <= skipped s' /\ errors s <= errors s')%Z.
Proof.
  unfold addScenario.
  destruct (getp scenario "type") as [t | m]; simpl; [|discriminate].
  destruct (isStr t "background"); [intro H; injection H as <-; lia|].
  destruct (getp scenario "steps") as [st | m]; simpl; [|discriminate].
  destruct st;
    try (intro H; injection H as <-;
         match goal with
         | |- context [bump ?x ?y] =>
             pose proof (bump_counts x y) as B; simpl in B
         end; simpl; lia).
  destruct (someE (stepHasStatus "failed") l) as [hf | m]; simpl;
    [|discriminate].
  destruct (someE (stepHasStatus "passed") l) as [hp | m]; simpl;
    [|discriminate].
  intro H; injection H as <-.
  match goal with
  | |- context [bump ?x ?y] => pose proof (bump_counts x y) as B; simpl in B
  end.
  simpl. lia.
Qed.

Lemma addFeature_counts (s s' : Summary) (feature : value) :
  addFeature s feature = Ret s' ->
  balanced s ->
  balanced s' /\ features s' = (features s + 1)%Z.
Proof.
  unfold addFeature.
  destruct (getp feature "elements") as [e1 | m]; simpl; [|discriminate].
  destruct (if truthy e1 then Ret e1 else getp feature "scenarios")
    as [e2 | m]; simpl; [|discriminate].
  destruct (orElse e2 (VArr [])); try discriminate.
  intros Hrun Hb.
  set (s1 := {| features := features s + 1; scenarios := scenarios s;
                steps := steps s; passed := passed s; failed := failed s;
                skipped := skipped s; errors := errors s |}) in *.
  apply (forEachE_invariant
           (fun a => balanced a /\ features a = (features s + 1)%Z)
           addScenario l) with (a := s1); [| |exact Hrun].
  - intros a x a' [Ha Hfa] Hx. apply addScenario_counts in Hx.
    unfold balanced in *. lia.
  - split; [exact Hb | reflexivity].
Qed.

Lemma forEach_addFeature_counts (l : list value) :
  forall s s',
    forEachE addFeature l s = Ret s' ->
    balanced s ->
    balanced s' /\ features s' = (features s + Z.of_nat (List.length l))%Z.
Proof.
  induction l as [|x rest IH]; intros s s' Hrun Hb; simpl in Hrun.
  - injection Hrun as <-. split; [exact Hb | simpl; lia].
  - destruct (addFeature s x) as [s1 | m] eqn:E; simpl in Hrun; [|discriminate].
    destruct (addFeature_counts _ _ _ E Hb) as [Hb1 Hf1].
    destruct (IH _ _ Hrun Hb1) as [Hb' Hf'].
    split; [exact Hb'|]. rewrite Hf', Hf1.
    change (List.length (x :: rest)) with (S (List.length rest)). lia.
Qed.

(** Whenever the raw summary is computed, its four status counts add up to
    its scenario count, no count is negative, and [features] is the length
    of the report (0 for anything that is not an array). *)
Theorem raw_summary_is_balanced (jsonData : value) (calc : Summary) :
  calculateSummaryFromRawData jsonData = Ret calc ->
  balanced calc
  /\ features calc = Z.of_nat (List.length (itemsOfReport jsonData)).
Proof.
  assert (B0 : balanced emptySummary) by (unfold balanced; simpl; lia).
  unfold calculateSummaryFromRawData, itemsOfReport.
  destruct jsonData;
    try (intro H; injection H as <-; split; [exact B0 | reflexivity]).
  intro H. destruct (forEach_addFeature_counts l _ _ H B0) as [Hb Hf].
  split; [exact Hb | rewrite Hf; reflexivity].
Qed.

Lemma raw_summary_is_balanced_witness :
  balanced scenario4Counts /\ features scenario4Counts = 1%Z.
Proof.
  apply (raw_summary_is_balanced scenario4Report scenario4Counts).
  reflexivity.
Defined.

(** *** Count validation *)

Lemma checkField_same (s : ProvidedSummary) (calc : Summary)
  (acc : list Discrepancy * bool) (f : string) :
  providedField s f = fieldOr0 (countsOf calc) f ->
  checkField opts s calc acc f = acc.
Proof. intro E. unfold checkField. rewrite E, Z.eqb_refl. reflexivity. Qed.

(** Validating the raw summary of a report against that report finds
    nothing: the result is valid, with no discrepancy and no issue. *)
Theorem own_summary_validates (reportData : value) (calc : Summary) :
  isArray reportData = true ->
  calculateSummaryFromRawData reportData = Ret calc ->
  let v := validateTestCounts opts (countsOf calc) reportData in
  isValid v = true /\ discrepancies v = [] /\ issues v = []
  /\ calculatedSummary v = Some calc.
Proof.
  intros Harr Hcalc.
  assert (Hb : balanced calc).
  { destruct reportData; try discriminate Harr.
    assert (B0 : balanced emptySummary) by (unfold balanced; simpl; lia).
    pose proof Hcalc as H. unfold calculateSummaryFromRawData in H.
    exact (proj1 (forEach_addFeature_counts l _ _ H B0)). }
  destruct Hb as [Hsum _].
  assert (T : truthy reportData && isArray reportData = true)
    by (destruct reportData; try discriminate Harr; reflexivity).
  unfold validateTestCounts. rewrite T, Hcalc.
  change (fieldOr0 (countsOf calc) "scenarios") with (scenarios calc).
  change (fieldOr0 (countsOf calc) "passed") with (passed calc).
  change (fieldOr0 (countsOf calc) "failed") with (failed calc).
  change (fieldOr0 (countsOf calc) "skipped") with (skipped calc).
  change (fieldOr0 (countsOf calc) "errors") with (errors calc).
  cbv [totalTests sumPassed sumFailed sumSkipped sumErrors].
  rewrite (proj2 (Z.eqb_eq _ _) Hsum).
  unfold fieldsToCheck. cbv [fold_left].
  rewrite !checkField_same by reflexivity.
  simpl. auto.
Qed.

Lemma checkField_flag (s : ProvidedSummary) (calc : Summary)
  (acc : list Discrepancy * bool) (f : string) :
  (snd acc = true <-> fst acc = []) ->
  (snd (checkField opts s calc acc f) = true
   <-> fst (checkField opts s calc acc f) = []).
Proof.
  intro H.
  destruct (checkField_cases opts s calc acc f) as [-> | [p [c [d [t ->]]]]];
    [exact H|].
  simpl. split; [discriminate|].
  intro E. destruct (fst acc); discriminate E.
Qed.

Lemma fold_checkField_flag (s : ProvidedSummary) (calc : Summary)
  (flds : list string) :
  forall acc,
    (snd acc = true <-> fst acc = []) ->
    (snd (fold_left (checkField opts s calc) flds acc) = true
     <-> fst (fold_left (checkField opts s calc) flds acc) = []).
Proof.
  induction flds as [|f rest IH]; intros acc H; simpl; [exact H|].
  apply IH, checkField_flag, H.
Qed.

(** The validity flag says exactly that nothing was found: a result is
    valid if and only if it has no discrepancy and no issue. *)
Theorem valid_exactly_when_nothing_found (sum : countSet) (reportData : value) :
  let v := validateTestCounts opts sum reportData in
  isValid v = true <-> discrepancies v = [] /\ issues v = [].
Proof.
  unfold validateTestCounts.
  set (s := {| totalTests := fieldOr0 sum "scenarios";
               sumPassed := fieldOr0 sum "passed";
               sumFailed := fieldOr0 sum "failed";
               sumSkipped := fieldOr0 sum "skipped";
               sumErrors := fieldOr0 sum "errors" |}).
  cbv zeta.
  match goal with
  | |- context [if ?c then ([], true) else ?x] =>
      set (st1 := if c then ([], true) else x)
  end.
  assert (H1 : snd st1 = true <-> fst st1 = []).
  { subst st1.
    match goal with
    | |- context [if ?c then _ else _] => destruct c
    end; simpl; split; congruence. }
  destruct (truthy reportData && isArray reportData); simpl;
    [|split; [intro H; split; [apply H1, H | reflexivity]
             | intros [H _]; apply H1, H]].
  destruct (calculateSummaryFromRawData reportData) as [calc | m]; simpl.
  - pose proof (fold_checkField_flag s calc fieldsToCheck st1 H1) as H2.
    split; [intro H; split; [apply H2, H | reflexivity]
           | intros [H _]; apply H2, H].
  - split; [discriminate | intros [_ D]; discriminate D].
Qed.

Lemma forEach_addFeature_nullish (l : list value) :
  (exists f, In f l /\ nullish f = true) ->
  forall s, exists m, forEachE addFeature l s = Throw m.
Proof.
  induction l as [|x rest IH]; intros [f [Hin Hf]] s; [destruct Hin|].
  simpl. destruct (addFeature s x) as [s1 | m] eqn:E; simpl; [|eauto].
  destruct Hin as [<- | Hin]; [|apply IH; eauto].
  exfalso. unfold addFeature in E.
  destruct x; try discriminate Hf; simpl in E; discriminate E.
Qed.

(** A report with a [null] or [undefined] entry is not counted at all: the
    count validation gives up with one issue, invalid, without a calculated
    summary, whatever the other entries and the provided summary are. *)
Theorem null_entry_fails_count_validation
  (sum : countSet) (l : list value) (f : value) :
  In f l ->
  nullish f = true ->
  let v := validateTestCounts opts sum (VArr l) in
  isValid v = false
  /\ List.length (issues v) = 1
  /\ calculatedSummary v = None.
Proof.
  intros Hin Hf.
  destruct (forEach_addFeature_nullish l (ex_intro _ f (conj Hin Hf))
              emptySummary) as [m E].
  unfold validateTestCounts. simpl truthy. simpl isArray. cbv iota.
  unfold calculateSummaryFromRawData. rewrite E. simpl. auto.
Qed.

(** *** Comparing count sets *)

Lemma withinTolerance_sym (pct a b : Z) :
  withinTolerance pct a b <-> withinTolerance pct b a.
Proof.
  unfold withinTolerance.
  replace (Z.abs (b - a)) with (Z.abs (a - b)) by lia.
  rewrite (Z.max_comm b a). reflexivity.
Qed.

(** The comparison of two count sets does not depend on their order: the
    same fields are flagged and the verdict is the same; a count set is
    always consistent with itself. *)
Theorem compareCountSets_is_symmetric
  (counts1 counts2 : countSet) (type12 type21 : string) :
  let r12 := compareCountSets opts counts1 counts2 type12 in
  let r21 := compareCountSets opts counts2 counts1 type21 in
  isConsistent r12 = isConsistent r21
  /\ (forall fld,
         (exists d, In d (compDiscrepancies r12) /\ dField d = fld)
         <-> (exists d, In d (compDiscrepancies r21) /\ dField d = fld))
  /\ isConsistent (compareCountSets opts counts1 counts1 type12) = true
  /\ compDiscrepancies (compareCountSets opts counts1 counts1 type12) = [].
Proof.
  intros r12 r21.
  destruct (fold_compareField opts counts1 counts2 fieldsToCompare
              {| comparisonType := type12; isConsistent := true;
                 compDiscrepancies := [];
                 compTolerance := tolerancePercentage opts |}) as [D12 C12].
  destruct (fold_compareField opts counts2 counts1 fieldsToCompare
              {| comparisonType := type21; isConsistent := true;
                 compDiscrepancies := [];
                 compTolerance := tolerancePercentage opts |}) as [D21 C21].
  destruct (fold_compareField opts counts1 counts1 fieldsToCompare
              {| comparisonType := type12; isConsistent := true;
                 compDiscrepancies := [];
                 compTolerance := tolerancePercentage opts |}) as [D11 C11].
  fold (compareCountSets opts counts1 counts2 type12) in D12, C12.
  fold (compareCountSets opts counts2 counts1 type21) in D21, C21.
  fold (compareCountSets opts counts1 counts1 type12) in D11, C11.
  fold r12 in D12, C12. fold r21 in D21, C21. simpl in *.
  assert (Self : forall fld,
             withinTolerance (tolerancePercentage opts)
               (fieldOr0 counts1 fld) (fieldOr0 counts1 fld)).
  { intro fld. unfold withinTolerance. rewrite Z.sub_diag. simpl. lia. }
  repeat split.
  - destruct (isConsistent r12) eqn:E12, (isConsistent r21) eqn:E21;
      try reflexivity.
    + destruct C12 as [C12 _]. destruct (C12 eq_refl) as [_ H].
      destruct C21 as [_ C21]. symmetry. apply C21. split; [reflexivity|].
      intros fld Hf. apply withinTolerance_sym, H, Hf.
    + destruct C21 as [C21 _]. destruct (C21 eq_refl) as [_ H].
      destruct C12 as [_ C12]. apply C12. split; [reflexivity|].
      intros fld Hf. apply withinTolerance_sym, H, Hf.
  - intros [d [Hd Hf]]. apply D12 in Hd.
    destruct Hd as [[] | [x [Hin [Hx ->]]]]. simpl in Hf. subst x.
    exists (fieldEntry opts counts2 counts1 fld). split; [|reflexivity].
    apply D21. right. exists fld. repeat split; auto.
    rewrite withinTolerance_sym. exact Hx.
  - intros [d [Hd Hf]]. apply D21 in Hd.
    destruct Hd as [[] | [x [Hin [Hx ->]]]]. simpl in Hf. subst x.
    exists (fieldEntry opts counts1 counts2 fld). split; [|reflexivity].
    apply D12. right. exists fld. repeat split; auto.
    rewrite withinTolerance_sym. exact Hx.
  - apply C11. split; [reflexivity | intros; apply Self].
  - destruct (compDiscrepancies (compareCountSets opts counts1 counts1 type12))
      as [|d rest] eqn:E; [reflexivity|].
    exfalso. destruct (D11 d) as [H _].
    destruct H as [[] | [x [_ [Hx _]]]]; [left; reflexivity|].
    apply Hx, Self.
Qed.

(** *** Expected counts, recommendations, history *)

Lemma zero_or_self (x : Z) : (if (x =? 0)%Z then 0%Z else x) = x.
Proof. destruct (Z.eqb_spec x 0); congruence. Qed.

(** Normalizing expected counts reads a [total...] alias where the plain
    field is missing or 0, and normalizing again changes nothing. *)
Theorem normalizeExpectedCounts_is_idempotent (expectedCounts : countSet) :
  normalizeExpectedCounts (normalizeExpectedCounts expectedCounts)
  = normalizeExpectedCounts expectedCounts
  /\ (forall k alias,
         In (k, alias)
           [("features", "totalFeatures"); ("scenarios", "totalScenarios");
            ("steps", "totalSteps"); ("passed", "totalPassed");
            ("failed", "totalFailed"); ("skipped", "totalSkipped");
            ("errors", "totalErrors")] ->
         fieldOr0 (normalizeExpectedCounts expectedCounts) k
         = if (fieldOr0 expectedCounts k =? 0)%Z
           then fieldOr0 expectedCounts alias
           else fieldOr0 expectedCounts k).
Proof.
  split.
  - unfold normalizeExpectedCounts at 1.
    unfold fieldOrAlias at 1 2 3 4 5 6 7.
    cbv [normalizeExpectedCounts fieldOr0 field String.eqb Ascii.eqb Bool.eqb].
    rewrite !zero_or_self. reflexivity.
  - intros k alias H. simpl in H.
    repeat (destruct H as [H | H]; [injection H as <- <-; reflexivity|]).
    destruct H.
Qed.



(** The validation history never grows beyond 20 entries: recording a
    validation appends its entry and keeps the 19 latest of the earlier
    ones. *)
Theorem recordValidation_keeps_twenty
  (now : string) (history : list HistoryEntry) (validation : Validation) :
  let entry :=
    {| hTimestamp := now;
       hIsValid := isValid validation;
       issueCount := List.length (issues validation);
       discrepancyCount := List.length (discrepancies validation) |} in
  recordValidation now history validation
  = (skipn (List.length history - 19) history ++ [entry])%list
  /\ List.length (recordValidation now history validation) <= 20.
Proof.
  intro entry.
  assert (E : recordValidation now history validation
              = (skipn (List.length history - 19) history ++ [entry])%list).
  { unfold recordValidation. fold entry. rewrite length_app. simpl List.length.
    destruct (Nat.ltb_spec 20 (List.length history + 1)) as [L | L].
    - rewrite skipn_app.
      replace (List.length history + 1 - 20) with (List.length history - 19)
        by lia.
      replace (List.length history - 19 - List.length history) with 0 by lia.
      reflexivity.
    - replace (List.length history - 19) with 0 by lia. reflexivity. }
  split; [exact E|].
  rewrite E, length_app, length_skipn. simpl. lia.
Qed.

End Integrity.

Lemma own_summary_validates_witness :
  DataIntegrityValidator.isValid
    (DataIntegrityValidator.validateTestCounts
       DataIntegrityValidator.defaultOptions
       (DataIntegrityValidator.countsOf scenario4Counts) scenario4Report)
  = true.
Proof.
  apply (own_summary_validates DataIntegrityValidator.defaultOptions
           scenario4Report scenario4Counts); reflexivity.
Defined.


Lemma null_entry_fails_count_validation_witness :
  DataIntegrityValidator.isValid
    (DataIntegrityValidator.validateTestCounts
       DataIntegrityValidator.defaultOptions scenario4Summary nullEntryReport)
  = false
  /\ List.length
       (DataIntegrityValidator.issues
          (DataIntegrityValidator.validateTestCounts
             DataIntegrityValidator.defaultOptions scenario4Summary
             nullEntryReport)) = 1
  /\ DataIntegrityValidator.calculatedSummary
       (DataIntegrityValidator.validateTestCounts
          DataIntegrityValidator.defaultOptions scenario4Summary
          nullEntryReport) = None.
Proof.
  apply (null_entry_fails_count_validation
           DataIntegrityValidator.defaultOptions scenario4Summary
           (itemsOfReport nullEntryReport) VNull).
  - simpl. auto.
  - reflexivity.
Defined.

(* ===================================================================== *)
(** ** Further properties of the sanitizer *)
(* ===================================================================== *)

Section ValidatorState.

Import CucumberJsonValidator.
Local Open Scope validator_scope.

Variable opts : Options.

Lemma evolves_refl (st : VState) : evolves opts st st.
Proof. unfold evolves. auto. Qed.

Lemma evolves_trans (st1 st2 st3 : VState) :
  evolves opts st1 st2 -> evolves opts st2 st3 -> evolves opts st1 st3.
Proof. unfold evolves. intros [A1 [B1 C1]] [A2 [B2 C2]]. repeat split; auto; lia. Qed.

Lemma keeps_ret {A : Type} (a : A) : keeps opts (retM a).
Proof. intro st. apply evolves_refl. Qed.

Lemma keeps_liftE {A : Type} (c : outcome A) : keeps opts (liftE c).
Proof. intro st. apply evolves_refl. Qed.

Lemma keeps_bind {A B : Type} (c : M A) (k : A -> M B) :
  keeps opts c -> (forall a, keeps opts (k a)) -> keeps opts (bindM c k).
Proof.
  intros Hc Hk st. unfold bindM. specialize (Hc st).
  destruct (c st) as [[a | m] st1]; simpl in *; [|exact Hc].
  eapply evolves_trans; [exact Hc | apply Hk].
Qed.

Lemma keeps_tryCatch {A : Type} (c : M A) (h : string -> M A) :
  keeps opts c -> (forall m, keeps opts (h m)) -> keeps opts (tryCatch c h).
Proof.
  intros Hc Hh st. unfold tryCatch. specialize (Hc st).
  destruct (c st) as [[a | m] st1]; simpl in *; [exact Hc|].
  eapply evolves_trans; [exact Hc | apply Hh].
Qed.

Lemma keeps_addError (loc msg : string) : keeps opts (addError opts loc msg).
Proof.
  intro st. unfold addError, evolves, errorsWithin.
  destruct (Nat.leb_spec (maxErrors opts) (List.length (validationErrors st)));
    simpl; [auto|].
  rewrite length_app. simpl. repeat split; lia.
Qed.

Lemma keeps_addWarning (loc msg : string) : keeps opts (addWarning loc msg).
Proof. intro st. unfold addWarning, evolves, errorsWithin. simpl. auto. Qed.

Lemma keeps_incrSkipped : keeps opts incrSkipped.
Proof. intro st. unfold incrSkipped, evolves, errorsWithin. simpl. auto. Qed.

(** Decomposes a goal [keeps opts c] along the structure of [c]. *)
Ltac keeps_auto :=
  repeat first
    [ apply keeps_ret | apply keeps_liftE | apply keeps_addError
    | apply keeps_addWarning | apply keeps_incrSkipped
    | match goal with
      | H : _ |- keeps _ _ => apply H
      end
    | apply keeps_bind | apply keeps_tryCatch
    | progress cbv zeta
    | match goal with
      | |- forall _, keeps _ _ => intro
      | |- keeps _ (if ?b then _ else _) => destruct b
      | |- keeps _ (match ?x with _ => _ end) => destruct x
      end ].

Lemma keeps_sanitizeTestName (name : value) (fallback type : string) :
  keeps opts (sanitizeTestName opts name fallback type).
Proof. unfold sanitizeTestName, replaceName. keeps_auto. Qed.

Lemma keeps_sanitizeStep (step : value) (fi si sti : nat) :
  keeps opts (sanitizeStep opts step fi si sti).
Proof.
  unfold sanitizeStep.
  pose proof keeps_sanitizeTestName. keeps_auto.
Qed.

Lemma keeps_mapiM {B : Type} (f : value -> nat -> M B) (l : list value) :
  (forall x i, keeps opts (f x i)) -> forall i, keeps opts (mapiM f i l).
Proof.
  intro Hf. induction l as [|x rest IH]; intro i; simpl; keeps_auto.
Qed.

Lemma keeps_sanitizeSteps (fi si : nat) (o : list (string * value)) (v : value) :
  keeps opts (sanitizeSteps opts fi si o v).
Proof.
  unfold sanitizeSteps.
  pose proof (fun l =>
                keeps_mapiM (fun step stepIndex =>
                               sanitizeStep opts step fi si stepIndex) l
                  (fun x i => keeps_sanitizeStep x fi si i)).
  destruct v; keeps_auto.
Qed.

Lemma keeps_sanitizeScenario (scenario : value) (fi si : nat) :
  keeps opts (sanitizeScenario opts scenario fi si).
Proof.
  unfold sanitizeScenario.
  pose proof keeps_sanitizeTestName. pose proof keeps_sanitizeSteps.
  keeps_auto.
Qed.

Lemma keeps_sanitizeElements (fi : nat) (l : list value) :
  forall ei, keeps opts (sanitizeElements opts fi ei l).
Proof.
  induction l as [|x rest IH]; intro ei; simpl.
  - apply keeps_ret.
  - pose proof keeps_sanitizeScenario. specialize (IH (S ei)). keeps_auto.
Qed.

Lemma keeps_sanitizeFeature (feature : value) (fi : nat) :
  keeps opts (sanitizeFeature opts feature fi).
Proof.
  unfold sanitizeFeature.
  pose proof keeps_sanitizeTestName. pose proof keeps_sanitizeElements.
  keeps_auto.
Qed.

(** *** The loop over the features *)

Lemma run_snd {A : Type} (c : M A) (st st' : VState) (r : outcome A) :
  c st = (r, st') -> snd (c st) = st'.
Proof. intro H. rewrite H. reflexivity. Qed.

Lemma sanitizeFeatures_counts (l : list value) :
  forall fi st out st',
    sanitizeFeatures opts fi l st = (Ret out, st') ->
    processedEntries st' = processedEntries st + List.length (fst out)
    /\ List.length (fst out) + List.length (snd out) = List.length l
    /\ (errorsWithin opts st -> errorsWithin opts st')
    /\ List.length (validationErrors st) <= List.length (validationErrors st').
Proof.
  induction l as [|x rest IH]; intros fi st out st' Hrun; simpl in Hrun.
  - unfold retM in Hrun. injection Hrun as <- <-. simpl. repeat split; auto.
  - apply bindM_inv in Hrun. destruct Hrun as [one [st1 [Hone Hrun]]].
    apply bindM_inv in Hrun. destruct Hrun as [later [st2 [Hlater Hrun]]].
    unfold retM in Hrun. injection Hrun as <- <-.
    destruct (IH _ _ _ _ Hlater) as [P2 [L2 [W2 M2]]]. clear IH Hlater.
    assert (Head : processedEntries st1
                   = processedEntries st + List.length (fst one)
                   /\ List.length (fst one) + List.length (snd one) = 1
                   /\ (errorsWithin opts st -> errorsWithin opts st1)
                   /\ List.length (validationErrors st)
                      <= List.length (validationErrors st1)).
    { revert Hone. unfold tryCatch, bindM at 1.
      pose proof (keeps_sanitizeFeature x fi st) as K.
      destruct (sanitizeFeature opts x fi st) as [[[v|]|m] st0]; simpl in K;
        destruct K as [Kp [Kw Km]].
      - intro H. injection H as <- <-. simpl. repeat split; auto; lia.
      - intro H. injection H as <- <-. simpl. repeat split; auto; lia.
      - pose proof (keeps_addError ("Feature " ++ showNat fi) m st0) as Ka.
        destruct (addError_run opts ("Feature " ++ showNat fi) m st0)
          as [st0' Ea].
        rewrite Ea in Ka. simpl in Ka. destruct Ka as [Ap [Aw Am]].
        rewrite (bindM_run _ _ _ _ _ Ea).
        intro H. injection H as <- <-. simpl.
        unfold errorsWithin in *. simpl. repeat split; auto; lia. }
    destruct Head as [P1 [L1 [W1 M1]]].
    simpl. rewrite !length_app. repeat split; auto; lia.
Qed.

Lemma countEntries_nullish (l : list value) :
  (exists f, In f l /\ nullish f = true) ->
  forall count,
  exists m,
    countEntries l count = Throw m
    /\ exists which, m = "Cannot read properties of " ++ which
                         ++ " (reading 'elements')".
Proof.
  induction l as [|x rest IH]; intros [f [Hin Hf]] count; [destruct Hin|].
  simpl. destruct (nullish x) eqn:N.
  - destruct x; try discriminate N; simpl; eexists; split;
      try reflexivity; [exists "undefined" | exists "null"]; reflexivity.
  - assert (Hrest : exists f, In f rest /\ nullish f = true).
    { destruct Hin as [<- | Hin]; [congruence | eauto]. }
    rewrite (getp_ok x "elements" N). simpl.
    destruct (prop x "elements"); apply IH; exact Hrest.
Qed.

(** The three ways [validateReport] ends: the input is not an array; some
    entry is [null] or [undefined] and counting throws; or every feature is
    gone through. *)
Lemma validateReport_cases (json : value) :
  (isArray json = false
   /\ validateReport opts json
      = {| isValid := false;
           errors :=
             validationErrors
               (snd (addError opts "Root"
                       "Cucumber JSON must be an array of features" reset));
           warnings := []; sanitizedData := VNull; originalEntryCount := 0;
           processedEntryCount := 0; skipped := [] |})
  \/ (exists l m,
         json = VArr l /\ countEntries l 0 = Throw m
         /\ validateReport opts json
            = {| isValid := false;
                 errors :=
                   [{| entryType := "critical"; location := "";
                       message := "Critical validation error: " ++ m |}];
                 warnings := []; sanitizedData := VNull;
                 originalEntryCount := 0; processedEntryCount := 0;
                 skipped := [] |})
  \/ (exists l n st0 out st',
         json = VArr l /\ countEntries l 0 = Ret n
         /\ validationErrors st0 = [] /\ processedEntries st0 = 0
         /\ sanitizeFeatures opts 0 l st0 = (Ret out, st')
         /\ validateReport opts json
            = {| isValid := (List.length (validationErrors st') =? 0)%nat;
                 errors := validationErrors st';
                 warnings := validationWarnings st';
                 sanitizedData := VArr (fst out);
                 originalEntryCount := n;
                 processedEntryCount := processedEntries st';
                 skipped := snd out |}).
Proof.
  destruct (isArray json) eqn:A.
  - right. destruct json; try discriminate A. unfold validateReport.
    assert (E : exists st,
               validateBasicStructure opts (VArr l) reset = (Ret true, st)
               /\ validationErrors st = [] /\ processedEntries st = 0).
    { simpl. destruct (List.length l =? 0)%nat; eexists;
        (split; [reflexivity | split; reflexivity]). }
    destruct E as [st0 [-> [E0 P0]]]. unfold sanitizeAll.
    simpl countOriginalEntries. simpl features_of.
    destruct (countEntries l 0) as [n | m] eqn:C.
    + right. rewrite (bindM_run _ _ st0 st0 n) by reflexivity.
      destruct (sanitizeFeatures_run opts l 0 st0) as [out [st' [E _]]].
      rewrite (bindM_run _ _ _ _ _ E).
      exists l, n, st0, out, st'. repeat split; auto.
    + left. exists l, m. repeat split; auto.
  - left. split; [reflexivity|]. unfold validateReport.
    destruct (addError_run opts "Root"
                "Cucumber JSON must be an array of features" reset) as [st E].
    assert (B : validateBasicStructure opts json reset = (Ret false, st)).
    { destruct json; try discriminate A; simpl;
        rewrite (bindM_run _ _ _ _ _ E); reflexivity. }
    rewrite B, E. reflexivity.
Qed.

(** The error list of a result never holds more than [maxErrors] entries
    (one, the critical error, where [maxErrors] is 0). *)
Theorem errors_are_capped (json : value) :
  List.length (errors (validateReport opts json))
  <= Nat.max (maxErrors opts) 1.
Proof.
  destruct (validateReport_cases json)
    as [[_ ->] | [[l [m [_ [_ ->]]]] | [l [n [st0 [out [st' [_ [_ [E0 [_ [Hrun ->]]]]]]]]]]]];
    simpl.
  - pose proof (keeps_addError "Root"
                  "Cucumber JSON must be an array of features" reset)
      as [_ [K _]].
    unfold errorsWithin in K. simpl in K. specialize (K (Nat.le_0_l _)). lia.
  - lia.
  - destruct (sanitizeFeatures_counts _ _ _ _ _ Hrun) as [_ [_ [W _]]].
    unfold errorsWithin in W. rewrite E0 in W. simpl in W.
    specialize (W (Nat.le_0_l _)). lia.
Qed.

(** Every feature of the input is accounted for: where sanitized data is
    produced, the processed count is its length, and the sanitized and the
    skipped features together are as many as the input has; where the
    report is rejected, nothing is counted as processed or skipped. *)
Theorem features_are_accounted_for (json : value) :
  let r := validateReport opts json in
  (forall fs,
      sanitizedData r = VArr fs ->
      processedEntryCount r = List.length fs
      /\ List.length fs + List.length (skipped r)
         = List.length (itemsOfReport json))
  /\ (sanitizedData r = VNull ->
      isValid r = false /\ processedEntryCount r = 0 /\ skipped r = []
      /\ originalEntryCount r = 0).
Proof.
  intro r. subst r.
  destruct (validateReport_cases json)
    as [[_ ->] | [[l [m [_ [_ ->]]]] | [l [n [st0 [out [st' [-> [_ [_ [P0 [Hrun ->]]]]]]]]]]]];
    simpl; (split; [intros fs H; try discriminate H | intro H;
                                                      try discriminate H]);
    auto.
  injection H as <-.
  destruct (sanitizeFeatures_counts _ _ _ _ _ Hrun) as [P [L _]].
  rewrite P, P0. auto.
Qed.

(** A single [null] or [undefined] entry rejects the whole report: no
    sanitized data, not valid, nothing processed, and the one error is the
    critical TypeError raised while the entries were counted. *)
Theorem null_entry_rejects_report (l : list value) (f : value) :
  In f l ->
  nullish f = true ->
  let r := validateReport opts (VArr l) in
  sanitizedData r = VNull
  /\ isValid r = false
  /\ processedEntryCount r = 0
  /\ warnings r = []
  /\ exists which,
       errors r
       = [{| entryType := "critical"; location := "";
             message := "Critical validation error: Cannot read properties of "
                          ++ which ++ " (reading 'elements')" |}].
Proof.
  intros Hin Hf.
  destruct (countEntries_nullish l (ex_intro _ f (conj Hin Hf)) 0)
    as [m [C [which ->]]].
  destruct (validateReport_cases (VArr l))
    as [[A _] | [[l' [m' [E [C' ->]]]] | [l' [n [_ [_ [_ [E [C' _]]]]]]]]];
    [discriminate A | |];
    injection E as <-; rewrite C in C'; [|discriminate C'].
  injection C' as <-. simpl. repeat split. exists which. reflexivity.
Qed.

(** With room for at least one error, a result is valid exactly when its
    error list is empty, and a valid result always carries sanitized data. *)
Theorem valid_exactly_when_no_errors (json : value) :
  1 <= maxErrors opts ->
  let r := validateReport opts json in
  (isValid r = true <-> errors r = [])
  /\ (isValid r = true -> exists fs, sanitizedData r = VArr fs).
Proof.
  intros Hmax r. subst r.
  destruct (validateReport_cases json)
    as [[_ ->] | [[l [m [_ [_ ->]]]] | [l [n [st0 [out [st' [_ [_ [_ [_ [_ ->]]]]]]]]]]]];
    simpl.
  - split; [|discriminate]. split; [discriminate|].
    unfold addError. simpl.
    destruct (Nat.leb_spec (maxErrors opts) 0); [lia | discriminate].
  - split; [split|]; discriminate.
  - split; [|eauto].
    destruct (validationErrors st'); simpl; split; congruence.
Qed.

(** *** Generated ids *)

Lemma allChars_app (p : ascii -> bool) (a b : string) :
  allChars p (a ++ b) = allChars p a && allChars p b.
Proof.
  induction a as [|c a IH]; simpl; [reflexivity|].
  rewrite IH, andb_assoc. reflexivity.
Qed.

Lemma string_of_uint_idChars (d : Decimal.uint) :
  allChars idChar (NilEmpty.string_of_uint d) = true.
Proof. induction d; simpl; auto. Qed.

Lemma showNat_idChars (n : nat) : allChars idChar (showNat n) = true.
Proof.
  unfold showNat, NilZero.string_of_uint.
  destruct (Nat.to_uint n); try reflexivity; apply string_of_uint_idChars.
Qed.

Lemma dashChar_idChar (c : ascii) : idChar (dashChar c) = true.
Proof.
  unfold dashChar.
  match goal with
  | |- context [if ?b then _ else _] => destruct b eqn:E
  end; [|reflexivity].
  unfold idChar. rewrite E. reflexivity.
Qed.

Lemma dashNonAlnum_idChars (s : string) :
  allChars idChar (dashNonAlnum s) = true.
Proof.
  induction s as [|c s IH]; simpl; [reflexivity|].
  rewrite dashChar_idChar, IH. reflexivity.
Qed.

(** A generated id starts with "feature-" and holds only lower-case
    letters, digits and dashes; generating one throws exactly when the name
    is a truthy value that is not a string. *)
Theorem generateId_shape (name : value) (fi si : nat) :
  (forall g,
      generateId name fi si = Ret g ->
      allChars idChar g = true /\ exists rest, g = "feature-" ++ rest)
  /\ ((exists g, generateId name fi si = Ret g)
      <-> truthy name = false \/ exists s, name = VStr s).
Proof.
  unfold generateId, orElse. split.
  - intros g.
    destruct (if truthy name
              then name
              else VStr ("scenario-" ++ showNat si)) as [| | | |b| |];
      try discriminate.
    assert (A : allChars idChar
                  ("feature-" ++ showNat fi ++ "-"
                     ++ dashNonAlnum (toLowerCase b) ++ "-" ++ showNat si)
                = true).
    { rewrite !allChars_app, !showNat_idChars, dashNonAlnum_idChars.
      reflexivity. }
    intro H. injection H as <-. split; [exact A|].
    eexists. reflexivity.
  - destruct (truthy name) eqn:T.
    + split.
      * intros [g H]. right. destruct name; try discriminate H. eauto.
      * intros [D | [s0 ->]]; [discriminate D | eauto].
    + split; [auto | eauto].
Qed.

(** *** Names, ids and hooks of the sanitized data *)

Lemma stableFeature_shape (f : value) :
  stableFeature opts f ->
  exists name pushed,
    f = VObj (featureObject f name pushed)
    /\ stableName name
    /\ Forall (stableScenario opts) pushed.
Proof.
  intro H. destruct (H 0 reset) as [st' E].
  destruct (sanitizeFeature_shape opts f 0 reset) as [r [st1 [E1 Hr]]].
  rewrite E in E1. injection E1 as <- _.
  destruct Hr as [[_ D] | [_ [name [pushed [Hn [Hs [_ Hsome]]]]]]];
    [discriminate D|].
  injection Hsome as Hf. exists name, pushed. auto.
Qed.

Lemma stableScenario_shape (sc : value) :
  stableScenario opts sc ->
  exists name id out,
    sc = VObj (scenarioObject sc name id out)
    /\ stableName name
    /\ truthy id = true
    /\ Forall (stableStep opts) out.
Proof.
  intro H. destruct (H 0 0 reset) as [st' E].
  destruct (sanitizeScenario_shape opts sc 0 0 reset st' sc E)
    as [_ [name [id [out [Hn [Tid [Hs [_ Hv]]]]]]]].
  exists name, id, out. auto.
Qed.

Lemma stableStep_shape (step : value) :
  stableStep opts step ->
  exists name,
    step = VObj (stepObject step name)
    /\ stableName name
    /\ notAnObject step = false.
Proof.
  intro H. destruct (H 0 0 0 reset) as [st' E].
  destruct (sanitizeStep_shape opts step 0 0 0 reset) as [r [st1 [E1 Hr]]].
  rewrite E in E1. injection E1 as <- _.
  destruct Hr as [[_ D] | [N [name [Hn Hsome]]]]; [discriminate D|].
  injection Hsome as Hs. exists name. auto.
Qed.

(** After sanitization every feature, scenario and step has a name that is
    a non-empty trimmed string, every feature has an array of elements,
    every scenario a truthy id and type, and every step a truthy keyword. *)
Theorem sanitized_entries_are_named (json : value) (fs : list value) :
  sanitizedData (validateReport opts json) = VArr fs ->
  forall f,
    In f fs ->
    namedWell f
    /\ exists els,
         prop f "elements" = VArr els
         /\ forall sc,
              In sc els ->
              namedWell sc
              /\ truthy (prop sc "id") = true
              /\ truthy (prop sc "type") = true
              /\ forall steps st,
                   prop sc "steps" = VArr steps ->
                   In st steps ->
                   namedWell st /\ truthy (prop st "keyword") = true.
Proof.
  intros E f Hf.
  destruct (validateReport_data opts json) as [E' | [fs' [E' [Hs _]]]];
    rewrite E in E'; [discriminate E'|]. injection E' as <-.
  rewrite Forall_forall in Hs.
  destruct (stableFeature_shape f (Hs f Hf)) as [name [pushed [Ef [Hn Hsc]]]].
  destruct (featureObject_lookups f name pushed) as [Ln Le].
  split.
  - exists name. split; [|exact Hn]. rewrite Ef, prop_VObj, Ln. reflexivity.
  - exists pushed. split; [rewrite Ef, prop_VObj, Le; reflexivity|].
    intros sc Hin. rewrite Forall_forall in Hsc.
    destruct (stableScenario_shape sc (Hsc sc Hin))
      as [sname [id [out [Es [Hsn [Tid Hout]]]]]].
    destruct (scenarioObject_lookups sc sname id out)
      as [Lname [Lid [Ltype [Lsteps _]]]].
    split; [exists sname; split; [|exact Hsn];
            rewrite Es, prop_VObj, Lname; reflexivity|].
    split; [rewrite Es, prop_VObj, Lid; exact Tid|].
    split; [rewrite Es, prop_VObj, Ltype; apply orElse_truthy; reflexivity|].
    intros steps st Hsteps Hst.
    assert (Hout' : steps = out).
    { destruct Lsteps as [[_ L] | [A P]].
      - rewrite Es, prop_VObj, L in Hsteps. injection Hsteps as <-. reflexivity.
      - rewrite Hsteps in A. discriminate A. }
    subst steps. rewrite Forall_forall in Hout.
    destruct (stableStep_shape st (Hout st Hst)) as [stname [Est [Hstn N]]].
    destruct (stepObject_lookups st stname N) as [Ls [Lk _]].
    split; [exists stname; split; [|exact Hstn];
            rewrite Est, prop_VObj, Ls; reflexivity|].
    rewrite Est, prop_VObj, Lk. apply orElse_truthy. reflexivity.
Qed.

Lemma sanitizeHook_good (hook : value) (type : string) :
  truthy (prop (sanitizeHook hook type) "result") = true
  /\ truthy (prop (sanitizeHook hook type) "match") = true.
Proof.
  unfold sanitizeHook. destruct (notAnObject hook); [split; reflexivity|].
  rewrite !prop_VObj, lookup_setprop_other, !lookup_setprop_same
    by discriminate.
  split; apply orElse_truthy; reflexivity.
Qed.

(** After sanitization every [before] and [after] hook has a truthy
    [result] and a truthy [match]. *)
Theorem sanitized_hooks_have_results
  (json : value) (fs els hooks : list value) (f sc h : value) (key : string) :
  sanitizedData (validateReport opts json) = VArr fs ->
  In f fs ->
  prop f "elements" = VArr els ->
  In sc els ->
  key = "before" \/ key = "after" ->
  prop sc key = VArr hooks ->
  In h hooks ->
  truthy (prop h "result") = true /\ truthy (prop h "match") = true.
Proof.
  intros E Hf Hels Hsc Hkey Hhooks Hh.
  destruct (validateReport_data opts json) as [E' | [fs' [E' [Hs _]]]];
    rewrite E in E'; [discriminate E'|]. injection E' as <-.
  rewrite Forall_forall in Hs.
  destruct (stableFeature_shape f (Hs f Hf)) as [name [pushed [Ef [_ Hp]]]].
  destruct (featureObject_lookups f name pushed) as [_ Le].
  rewrite Ef, prop_VObj, Le in Hels. injection Hels as <-.
  rewrite Forall_forall in Hp.
  destruct (stableScenario_shape sc (Hp sc Hsc))
    as [sname [id [out [Es [_ [_ _]]]]]].
  destruct (scenarioObject_lookups sc sname id out) as [_ [_ [_ [_ Lh]]]].
  destruct (Lh key Hkey) as [[l [Hl L]] | [A _]];
    [|rewrite Hhooks in A; discriminate A].
  rewrite Hhooks in Hl. injection Hl as <-.
  assert (Again : prop sc key = VArr (map (fun hook => sanitizeHook hook key)
                                        hooks)).
  { rewrite Es at 1. rewrite prop_VObj, L. reflexivity. }
  rewrite Hhooks in Again. injection Again as Again.
  rewrite Again in Hh. apply in_map_iff in Hh. destruct Hh as [h' [<- _]].
  apply sanitizeHook_good.
Qed.

End ValidatorState.

Lemma null_entry_rejects_report_witness :
  CucumberJsonValidator.sanitizedData
    (CucumberJsonValidator.validateReport
       CucumberJsonValidator.defaultOptions nullEntryReport) = VNull
  /\ CucumberJsonValidator.isValid
       (CucumberJsonValidator.validateReport
          CucumberJsonValidator.defaultOptions nullEntryReport) = false.
Proof.
  pose proof (null_entry_rejects_report CucumberJsonValidator.defaultOptions
                (itemsOfReport nullEntryReport) VNull
                (or_intror (or_introl eq_refl)) eq_refl) as H.
  cbv zeta in H. destruct H as [A [B _]].
  split; [exact A | exact B].
Defined.

Lemma valid_exactly_when_no_errors_witness :
  CucumberJsonValidator.isValid
    (CucumberJsonValidator.validateReport
       CucumberJsonValidator.defaultOptions statusOnlyReport) = true
  <-> CucumberJsonValidator.errors
        (CucumberJsonValidator.validateReport
           CucumberJsonValidator.defaultOptions statusOnlyReport) = [].
Proof.
  apply (valid_exactly_when_no_errors CucumberJsonValidator.defaultOptions
           statusOnlyReport).
  simpl. lia.
Defined.

Lemma sanitized_entries_are_named_witness :
  namedWell
    (nth 0
       (itemsOfReport
          (CucumberJsonValidator.sanitizedData
             (CucumberJsonValidator.validateReport
                CucumberJsonValidator.defaultOptions bareStepReport)))
       VNull).
Proof.
  eapply (sanitized_entries_are_named CucumberJsonValidator.defaultOptions
            bareStepReport).
  - reflexivity.
  - left. reflexivity.
Defined.

Lemma sanitized_hooks_have_results_witness :
  truthy (prop (CucumberJsonValidator.sanitizeHook VNull "before") "result")
  = true
  /\ truthy (prop (CucumberJsonValidator.sanitizeHook VNull "before") "match")
     = true.
Proof.
  eapply (sanitized_hooks_have_results CucumberJsonValidator.defaultOptions
            nullHookReport).
  - reflexivity.
  - left. reflexivity.
  - reflexivity.
  - left. reflexivity.
  - left. reflexivity.
  - reflexivity.
  - left. reflexivity.
Defined.

(* ===================================================================== *)
(** ** Properties of the report service *)
(* ===================================================================== *)

Section Service.

Import DataIntegrityValidator ReportService.

Variable this : Service.

(** *** Counting *)

Lemma countStatus_counts (c : Summary) (st : value) :
  let c' := countStatus c st in
  features c' = features c /\ scenarios c' = scenarios c
  /\ steps c' = steps c
  /\ (passed c' + failed c' + skipped c' + errors c'
      = passed c + failed c + skipped c + errors c + 1)%Z
  /\ (passed c <= passed c' /\ failed c <= failed c'
      /\ skipped c <= skipped c' /\ errors c <= errors c')%Z.
Proof.
  unfold countStatus.
  repeat match goal with
         | |- context [if ?b then _ else _] => destruct b
         end; simpl; lia.
Qed.

Lemma countScenario_counts (c c' : Summary) (scenario : value) :
  countScenario this c scenario = Ret c' ->
  features c' = features c
  /\ (passed c' + failed c' + skipped c' + errors c' - scenarios c'
      = passed c + failed c + skipped c + errors c - scenarios c)%Z
  /\ (scenarios c <= scenarios c' /\ steps c <= steps c'
      /\ passed c <= passed c' /\ failed c <= failed c'
      /\ skipped c <= skipped c' /\ errors c <= errors c')%Z.
Proof.
  unfold countScenario.
  destruct (getp scenario "type") as [t | m]; simpl; [|discriminate].
  destruct (isStr t "background"); [intro H; injection H as <-; lia|].
  match goal with
  | |- context [countStatus ?x ?y] =>
      pose proof (countStatus_counts x y) as B; simpl in B
  end.
  destruct (prop scenario "steps");
    intro H; injection H as <-; simpl; lia.
Qed.

Lemma countFeature_counts (c c' : Summary) (feature : value) :
  countFeature this c feature = Ret c' ->
  balanced c ->
  balanced c' /\ features c' = (features c + 1)%Z.
Proof.
  unfold countFeature.
  destruct (getp feature "elements") as [e | m]; simpl; [|discriminate].
  intros Hrun Hb.
  set (c1 := {| features := features c + 1; scenarios := scenarios c;
                steps := steps c; passed := passed c; failed := failed c;
                skipped := skipped c; errors := errors c |}) in *.
  assert (B1 : balanced c1 /\ features c1 = (features c + 1)%Z)
    by (split; [exact Hb | reflexivity]).
  destruct e; try (injection Hrun as <-; exact B1).
  apply (forEachE_invariant
           (fun a => balanced a /\ features a = (features c + 1)%Z)
           (countScenario this) l) with (a := c1); [|exact B1|exact Hrun].
  intros a x a' [Ha Hfa] Hx. apply countScenario_counts in Hx.
  unfold balanced in *. lia.
Qed.

Lemma forEach_countFeature_counts (l : list value) :
  forall c c',
    forEachE (countFeature this) l c = Ret c' ->
    balanced c ->
    balanced c' /\ features c' = (features c + Z.of_nat (List.length l))%Z.
Proof.
  induction l as [|x rest IH]; intros c c' Hrun Hb; simpl in Hrun.
  - injection Hrun as <-. split; [exact Hb | simpl; lia].
  - destruct (countFeature this c x) as [c1 | m] eqn:E; simpl in Hrun;
      [|discriminate].
    destruct (countFeature_counts _ _ _ E Hb) as [Hb1 Hf1].
    destruct (IH _ _ Hrun Hb1) as [Hb' Hf'].
    split; [exact Hb'|]. rewrite Hf', Hf1.
    change (List.length (x :: rest)) with (S (List.length rest)). lia.
Qed.

Lemma extract_balanced (reportData : value) (c : Summary) :
  extractAccurateTestCounts this reportData = Ret c ->
  balanced c
  /\ features c = Z.of_nat (List.length (itemsOfReport reportData)).
Proof.
  assert (B0 : balanced emptySummary) by (unfold balanced; simpl; lia).
  unfold extractAccurateTestCounts, itemsOfReport.
  destruct reportData;
    try (intro H; injection H as <-; split; [exact B0 | reflexivity]).
  intro H. destruct (forEach_countFeature_counts l _ _ H B0) as [Hb Hf].
  split; [exact Hb | rewrite Hf; reflexivity].
Qed.

(** Whenever the service extracts counts, the four status counts add up to
    the scenario count, no count is negative, and [features] is the length
    of the report (0 for anything that is not an array). *)
Theorem extracted_counts_are_balanced (reportData : value) (c : Summary) :
  extractAccurateTestCounts this reportData = Ret c ->
  balanced c
  /\ features c = Z.of_nat (List.length (itemsOfReport reportData)).
Proof. apply extract_balanced. Qed.

(** The consistency check of the service never reports a [count_mismatch]:
    the counts it validates are its own and add up, so every discrepancy it
    returns is a [cross_validation_mismatch] against the raw summary. *)
Theorem consistency_check_has_no_count_mismatch
  (reportData : value) (v : Validation) :
  validateReportConsistency this reportData = Ret v ->
  forall d,
    In d (discrepancies v) ->
    discrepancyType d = "cross_validation_mismatch".
Proof.
  unfold validateReportConsistency.
  destruct (extractAccurateTestCounts this reportData) as [c | m] eqn:E;
    simpl; [|discriminate].
  intro H. injection H as <-. intros d Hd.
  destruct (extract_balanced _ _ E) as [[Hsum _] _].
  destruct (count_mismatch_iff (integrityValidator this) (countsOf c)
              reportData) as [[Hm _] _].
  destruct d as [f e k df | f pr k df t]; [|reflexivity].
  exfalso. apply Hm; [|exact Hsum].
  eexists. split; [exact Hd | reflexivity].
Qed.

(** *** Enhancing *)

Lemma read_spreadAny (v : value) (k : string) :
  headDigit k = false ->
  match lookup k (spreadAny v) with Some x => x | None => VUndefined end
  = prop v k.
Proof.
  intro H. destruct v; simpl; try reflexivity.
  - rewrite (lookup_indexed k _ H). reflexivity.
  - rewrite (lookup_indexed k l H). reflexivity.
Qed.

(** Marking a copy with [_calculatedStatus] leaves every other data
    property as it was. *)
Lemma prop_marked (v x : value) (k : string) :
  headDigit k = false -> k <> "_calculatedStatus" ->
  prop (VObj (setprop (spreadAny v) "_calculatedStatus" x)) k = prop v k.
Proof.
  intros H Hne. rewrite prop_VObj, lookup_setprop_other by exact Hne.
  apply read_spreadAny, H.
Qed.

Lemma countScenario_enhanced (c : Summary) (sc : value) :
  nullish sc = false ->
  truthy (prop sc "_calculatedStatus") = false ->
  countScenario this c (enhanceScenario this sc) = countScenario this c sc.
Proof.
  intros N Stale. unfold countScenario, enhanceScenario.
  rewrite (getp_ok sc "type" N).
  rewrite getp_ok by reflexivity.
  rewrite !prop_marked by (reflexivity || discriminate).
  simpl bindE. destruct (isStr (prop sc "type") "background"); [reflexivity|].
  rewrite Stale, !lookup_setprop_same.
  reflexivity.
Qed.

Lemma forEach_countScenario_enhanced (l : list value) :
  (forall sc, In sc l ->
              nullish sc = false
              /\ truthy (prop sc "_calculatedStatus") = false) ->
  forall c,
    forEachE (countScenario this) (map (enhanceScenario this) l) c
    = forEachE (countScenario this) l c.
Proof.
  induction l as [|sc rest IH]; intros H c; simpl; [reflexivity|].
  destruct (H sc (or_introl eq_refl)) as [N Stale].
  rewrite (countScenario_enhanced c sc N Stale).
  destruct (countScenario this c sc); simpl; [|reflexivity].
  apply IH. intros x Hx. apply H. right. exact Hx.
Qed.

Lemma countScenario_total (c : Summary) (sc : value) :
  nullish sc = false -> exists c', countScenario this c sc = Ret c'.
Proof.
  intro N. unfold countScenario. rewrite (getp_ok sc "type" N). simpl.
  destruct (isStr (prop sc "type") "background"); [eauto|].
  destruct (prop sc "steps"); eauto.
Qed.

Lemma forEach_countScenario_total (l : list value) :
  (forall sc, In sc l -> nullish sc = false) ->
  forall c, exists c', forEachE (countScenario this) l c = Ret c'.
Proof.
  induction l as [|sc rest IH]; intros H c; simpl; [eauto|].
  destruct (countScenario_total c sc (H sc (or_introl eq_refl))) as [c1 E].
  rewrite E. simpl. apply IH. intros x Hx. apply H. right. exact Hx.
Qed.

Lemma filterE_notBackground_inv (l k : list value) :
  TestStatusCalculator.filterE TestStatusCalculator.notBackground l = Ret k ->
  forall e, In e l -> nullish e = false.
Proof.
  revert k. induction l as [|x rest IH]; intros k Hrun e He;
    [destruct He|].
  simpl in Hrun. unfold TestStatusCalculator.notBackground at 1 in Hrun.
  destruct (getp x "type") as [t | m] eqn:Et; simpl in Hrun; [|discriminate].
  destruct (TestStatusCalculator.filterE TestStatusCalculator.notBackground
              rest) as [keep | m] eqn:Er; simpl in Hrun; [|discriminate].
  destruct He as [<- | He].
  - destruct x; try reflexivity; discriminate Et.
  - exact (IH keep eq_refl e He).
Qed.

(** What [enhanceFeature] leaves under [elements] when it returns. *)
Lemma enhanceFeature_elements (f f' : value) :
  enhanceFeature this f = Ret f' ->
  nullish f = false
  /\ nullish f' = false
  /\ ((exists l,
          prop f "elements" = VArr l
          /\ prop f' "elements" = VArr (map (enhanceScenario this) l)
          /\ forall e, In e l -> nullish e = false)
      \/ (isArray (prop f "elements") = false
          /\ prop f' "elements" = prop f "elements")).
Proof.
  unfold enhanceFeature.
  destruct (TestStatusCalculator.calculateFeatureStatus
              (statusCalculator this) f) as [r | m] eqn:Ef; simpl;
    [|discriminate].
  destruct (getp f "elements") as [e | m] eqn:Eg; simpl; [|discriminate].
  assert (N : nullish f = false)
    by (destruct f; try reflexivity; discriminate Eg).
  rewrite (getp_ok f "elements" N) in Eg. injection Eg as <-.
  destruct (prop f "elements") eqn:Ee;
    try (intro H; injection H as <-; split; [exact N|];
         split; [reflexivity|]; right; split; [reflexivity|];
         rewrite prop_marked by (reflexivity || discriminate); exact Ee).
  intro H. injection H as <-. split; [exact N|]. split; [reflexivity|].
  left. exists l. split; [reflexivity|].
  split; [rewrite prop_VObj, lookup_setprop_same; reflexivity|].
  pose proof (prop_array_truthy _ _ _ Ee) as T.
  unfold TestStatusCalculator.calculateFeatureStatus in Ef.
  rewrite T in Ef. simpl in Ef.
  rewrite (getp_truthy _ "elements" T), Ee in Ef. simpl in Ef.
  destruct (TestStatusCalculator.filterE TestStatusCalculator.notBackground l)
    as [k | m] eqn:Ek; [|discriminate Ef].
  exact (filterE_notBackground_inv l k Ek).
Qed.

Lemma countFeature_enhanced (f f' : value) (c : Summary) :
  enhanceFeature this f = Ret f' ->
  (forall sc, In sc (itemsOf f "elements") ->
              truthy (prop sc "_calculatedStatus") = false) ->
  exists c',
    countFeature this c f' = Ret c' /\ countFeature this c f = Ret c'.
Proof.
  intros He Stale.
  destruct (enhanceFeature_elements f f' He)
    as [N [N' [[l [El [El' Hl]]] | [A E]]]];
    unfold countFeature; rewrite (getp_ok f "elements" N),
      (getp_ok f' "elements" N'); simpl.
  - rewrite El, El'. unfold itemsOf in Stale. rewrite El in Stale.
    rewrite forEach_countScenario_enhanced by (intros sc Hsc; auto).
    match goal with
    | |- context [forEachE _ l ?c1] =>
        destruct (forEach_countScenario_total l Hl c1) as [c' Ec]
    end.
    exists c'. rewrite Ec. auto.
  - rewrite E. destruct (prop f "elements"); try discriminate A; eauto.
Qed.

Lemma extract_enhanced_list (l : list value) :
  forall l',
    mapE (enhanceFeature this) l = Ret l' ->
    (forall f sc, In f l -> In sc (itemsOf f "elements") ->
                  truthy (prop sc "_calculatedStatus") = false) ->
    forall c,
    exists c',
      forEachE (countFeature this) l' c = Ret c'
      /\ forEachE (countFeature this) l c = Ret c'.
Proof.
  induction l as [|f rest IH]; intros l' Hmap Stale c; simpl in Hmap.
  - injection Hmap as <-. simpl. eauto.
  - destruct (enhanceFeature this f) as [f' | m] eqn:Ef; simpl in Hmap;
      [|discriminate].
    destruct (mapE (enhanceFeature this) rest) as [rest' | m] eqn:Er;
      simpl in Hmap; [|discriminate].
    injection Hmap as <-.
    destruct (countFeature_enhanced f f' c Ef) as [c1 [E1 E2]].
    { intros sc Hsc. apply (Stale f sc); [left; reflexivity | exact Hsc]. }
    simpl. rewrite E1, E2. simpl.
    apply (IH rest' eq_refl).
    intros g sc Hg. apply Stale. right. exact Hg.
Qed.

(** Counting an enhanced report gives the counts of the report it was made
    from, provided no scenario brought a [_calculatedStatus] of its own:
    wherever enhancing returns, both extractions return, with one result. *)
Theorem enhanced_report_counts_the_same (reportData enhanced : value) :
  noStaleStatus reportData ->
  enhanceReportWithAccurateStatus this reportData = Ret enhanced ->
  exists c,
    extractAccurateTestCounts this enhanced = Ret c
    /\ extractAccurateTestCounts this reportData = Ret c.
Proof.
  intros Stale. unfold enhanceReportWithAccurateStatus.
  destruct reportData;
    try (intro H; injection H as <-; exists emptySummary; split; reflexivity).
  destruct (mapE (enhanceFeature this) l) as [l' | m] eqn:Em; simpl;
    [|discriminate].
  intro H. injection H as <-.
  apply (extract_enhanced_list l l' Em).
  intros f sc Hf Hsc. exact (Stale f sc Hf Hsc).
Qed.

(** *** The two counters on well-formed data *)

Lemma stepHasStatus_total (lit : string) (step : value) :
  nullish step = false -> exists b, stepHasStatus lit step = Ret b.
Proof.
  intro N. unfold stepHasStatus. rewrite (getp_ok _ "result" N). simpl.
  destruct (truthy (prop step "result")) eqn:T.
  - rewrite (getp_truthy _ "status" T). simpl. eauto.
  - rewrite (getp_ok _ "status" N). simpl. eauto.
Qed.

Lemma someE_stepHasStatus_total (lit : string) (l : list value) :
  (forall st, In st l -> nullish st = false) ->
  exists b, someE (stepHasStatus lit) l = Ret b.
Proof.
  induction l as [|st rest IH]; intro H; simpl; [eauto|].
  destruct (stepHasStatus_total lit st (H st (or_introl eq_refl))) as [b E].
  rewrite E. simpl. destruct b; [eauto|].
  apply IH. intros x Hx. apply H. right. exact Hx.
Qed.

Lemma countable_scenario_step (sc : value) (c r : Summary) :
  countableScenario sc ->
  sameSizes c r ->
  exists c' r',
    countScenario this c sc = Ret c'
    /\ addScenario r sc = Ret r'
    /\ sameSizes c' r'.
Proof.
  intros [N Hsteps] [S1 [S2 S3]]. unfold countScenario, addScenario.
  rewrite (getp_ok sc "type" N), (getp_ok sc "steps" N). simpl.
  destruct (isStr (prop sc "type") "background");
    [exists c, r; repeat split; assumption|].
  match goal with
  | |- context [countStatus ?x ?y] =>
      pose proof (countStatus_counts x y) as B1; simpl in B1;
      set (c2 := countStatus x y) in *
  end.
  destruct (prop sc "steps") eqn:Es;
    try (eexists; eexists; split; [reflexivity|]; split; [reflexivity|];
         match goal with
         | |- context [bump ?x ?y] =>
             pose proof (bump_counts x y) as B2; simpl in B2
         end;
         unfold sameSizes; simpl; lia).
  assert (Hl : forall st, In st l -> nullish st = false)
    by (intros st Hst; exact (Hsteps l st eq_refl Hst)).
  destruct (someE_stepHasStatus_total "failed" l Hl) as [hf Ef].
  destruct (someE_stepHasStatus_total "passed" l Hl) as [hp Ep].
  rewrite Ef, Ep. simpl.
  eexists; eexists; split; [reflexivity|]; split; [reflexivity|].
  match goal with
  | |- context [bump ?x ?y] =>
      pose proof (bump_counts x y) as B2; simpl in B2
  end.
  unfold sameSizes; simpl; lia.
Qed.

Lemma countable_scenarios_step (l : list value) :
  Forall countableScenario l ->
  forall c r,
    sameSizes c r ->
    exists c' r',
      forEachE (countScenario this) l c = Ret c'
      /\ forEachE addScenario l r = Ret r'
      /\ sameSizes c' r'.
Proof.
  induction 1 as [|sc rest Hsc _ IH]; intros c r S; simpl; [eauto|].
  destruct (countable_scenario_step sc c r Hsc S) as [c1 [r1 [E1 [E2 S1]]]].
  rewrite E1, E2. simpl. apply IH, S1.
Qed.

Lemma countable_feature_step (f : value) (c r : Summary) :
  countableFeature f ->
  sameSizes c r ->
  exists c' r',
    countFeature this c f = Ret c'
    /\ addFeature r f = Ret r'
    /\ sameSizes c' r'.
Proof.
  intros [els [Hels Hsc]] [S1 [S2 S3]].
  pose proof (prop_array_truthy _ _ _ Hels) as T.
  unfold countFeature, addFeature.
  rewrite (getp_truthy _ "elements" T), Hels. simpl.
  apply (countable_scenarios_step els Hsc).
  unfold sameSizes; simpl; lia.
Qed.

Lemma countable_features_step (l : list value) :
  Forall countableFeature l ->
  forall c r,
    sameSizes c r ->
    exists c' r',
      forEachE (countFeature this) l c = Ret c'
      /\ forEachE addFeature l r = Ret r'
      /\ sameSizes c' r'.
Proof.
  induction 1 as [|f rest Hf _ IH]; intros c r S; simpl; [eauto|].
  destruct (countable_feature_step f c r Hf S) as [c1 [r1 [E1 [E2 S1]]]].
  rewrite E1, E2. simpl. apply IH, S1.
Qed.

Lemma enhanceFeature_total (f : value) :
  countableFeature f -> exists f', enhanceFeature this f = Ret f'.
Proof.
  intros [els [Hels Hsc]].
  pose proof (prop_array_truthy _ _ _ Hels) as T.
  assert (Hn : forall e, In e els -> nullish e = false).
  { rewrite Forall_forall in Hsc. intros e He. exact (proj1 (Hsc e He)). }
  unfold enhanceFeature, TestStatusCalculator.calculateFeatureStatus.
  rewrite T. simpl. rewrite (getp_truthy _ "elements" T), Hels. simpl.
  rewrite (filterE_notBackground els Hn). simpl.
  destruct (List.length (filter isScenario els) =? 0)%nat; simpl; eauto.
Qed.

Lemma mapE_enhanceFeature_total (l : list value) :
  Forall countableFeature l ->
  exists l', mapE (enhanceFeature this) l = Ret l'.
Proof.
  induction 1 as [|f rest Hf _ [rest' IH]]; simpl; [eauto|].
  destruct (enhanceFeature_total f Hf) as [f' E].
  rewrite E, IH. simpl. eauto.
Qed.

Lemma stableScenario_countable (opts : CucumberJsonValidator.Options)
  (sc : value) :
  stableScenario opts sc -> countableScenario sc.
Proof.
  intro H.
  destruct (stableScenario_shape opts sc H)
    as [name [id [out [Es [_ [_ Hout]]]]]].
  destruct (scenarioObject_lookups sc name id out) as [_ [_ [_ [Lsteps _]]]].
  split; [rewrite Es; reflexivity|].
  intros l st Hl Hst.
  assert (E : l = out).
  { destruct Lsteps as [[_ L] | [A _]].
    - rewrite Es, prop_VObj, L in Hl. injection Hl as <-. reflexivity.
    - rewrite Hl in A. discriminate A. }
  subst l. rewrite Forall_forall in Hout.
  destruct (stableStep_shape opts st (Hout st Hst)) as [n [-> _]].
  reflexivity.
Qed.

Lemma stableFeature_countable (opts : CucumberJsonValidator.Options)
  (f : value) :
  stableFeature opts f -> countableFeature f.
Proof.
  intro H.
  destruct (stableFeature_shape opts f H) as [name [pushed [Ef [_ Hp]]]].
  destruct (featureObject_lookups f name pushed) as [_ Le].
  exists pushed. split; [rewrite Ef, prop_VObj, Le; reflexivity|].
  rewrite Forall_forall in *. intros sc Hsc.
  exact (stableScenario_countable opts sc (Hp sc Hsc)).
Qed.

(** What the sanitizer returns can always be processed further: on the
    sanitized data the service's extraction, the raw summary and the
    enhancement all return, and the two counters agree on the number of
    features, scenarios and steps. *)
Theorem sanitized_report_is_countable
  (opts : CucumberJsonValidator.Options) (json : value) (fs : list value) :
  CucumberJsonValidator.sanitizedData
    (CucumberJsonValidator.validateReport opts json) = VArr fs ->
  exists counts raw enhanced,
    extractAccurateTestCounts this (VArr fs) = Ret counts
    /\ calculateSummaryFromRawData (VArr fs) = Ret raw
    /\ enhanceReportWithAccurateStatus this (VArr fs) = Ret enhanced
    /\ sameSizes counts raw
    /\ features counts = Z.of_nat (List.length fs).
Proof.
  intro E.
  destruct (validateReport_data opts json) as [E' | [fs' [E' [Hs _]]]];
    rewrite E in E'; [discriminate E'|]. injection E' as <-.
  assert (Hc : Forall countableFeature fs).
  { rewrite Forall_forall in *. intros f Hf.
    exact (stableFeature_countable opts f (Hs f Hf)). }
  destruct (countable_features_step fs Hc emptySummary emptySummary)
    as [counts [raw [E1 [E2 S]]]];
    [unfold sameSizes; auto|].
  destruct (mapE_enhanceFeature_total fs Hc) as [fs' E3].
  exists counts, raw, (VArr fs'). simpl.
  rewrite E1, E2, E3. simpl. repeat split; try apply S.
  apply (extract_balanced (VArr fs) counts E1).
Qed.

End Service.

(* ===================================================================== *)
(** ** Classification and recovery *)
(* ===================================================================== *)

Section Classification.

Import TestStatusCalculator.

Variable opts : CalcOptions.

Lemma aggregate_range (t : Tally) (n : nat) :
  In (fst (aggregate t n))
    ["passed"; "failed"; "skipped"; "unknown"; "error"; "mixed"].
Proof.
  unfold aggregate.
  repeat match goal with
         | |- context [if ?b then _ else _] => destruct b
         end; simpl; auto 8.
Qed.

Lemma filterE_notBackground_cases (l : list value) :
  (exists k, filterE notBackground l = Ret k
             /\ forall e, In e l -> nullish e = false)
  \/ (exists m, filterE notBackground l = Throw m
                /\ exists e, In e l /\ nullish e = true).
Proof.
  induction l as [|x rest IH]; simpl.
  - left. exists []. split; [reflexivity | intros e []].
  - destruct (nullish x) eqn:N.
    + right. destruct x; try discriminate N; simpl; eexists;
        (split; [reflexivity|]); eexists; (split; [left; reflexivity|]);
        reflexivity.
    + assert (Ex : notBackground x
                   = Ret (negb (isStr (prop x "type") "background")))
        by (unfold notBackground; rewrite (getp_ok x "type" N); reflexivity).
      rewrite Ex. simpl.
      destruct IH as [[k [E H]] | [m [E [e [He Hn]]]]]; rewrite E; simpl.
      * left. eexists. split; [reflexivity|].
        intros e [<- | He]; auto.
      * right. exists m. split; [reflexivity|]. exists e. auto.
Qed.

Lemma calculateFeatureStatus_cases (feature : value) :
  (exists r, calculateFeatureStatus opts feature = Ret r
             /\ In (featureStatus r)
                  ["passed"; "failed"; "skipped"; "unknown"; "error"; "mixed"]
             /\ ~ (truthy (prop feature "elements") = true
                   /\ (isArray (prop feature "elements") = false
                       \/ exists e, In e (itemsOf feature "elements")
                                    /\ nullish e = true)))
  \/ (exists m, calculateFeatureStatus opts feature = Throw m
                /\ truthy (prop feature "elements") = true
                /\ (isArray (prop feature "elements") = false
                    \/ exists e, In e (itemsOf feature "elements")
                                 /\ nullish e = true)).
Proof.
  unfold calculateFeatureStatus, itemsOf.
  destruct (truthy feature) eqn:T; simpl.
  - rewrite (getp_truthy _ "elements" T). simpl.
    destruct (truthy (prop feature "elements")) eqn:Te; simpl.
    + destruct (prop feature "elements") eqn:Ee;
        try (right; eexists; split; [reflexivity|]; split; [reflexivity|];
             left; reflexivity).
      destruct (filterE_notBackground_cases l)
        as [[k [E H]] | [m [E [e [He Hn]]]]]; rewrite E; simpl.
      * left.
        assert (No : ~ (true = true
                        /\ (true = false
                            \/ exists e, In e l /\ nullish e = true))).
        { intros [_ [D | [e [He Hn]]]]; [discriminate D|].
          rewrite (H e He) in Hn. discriminate Hn. }
        destruct (List.length k =? 0)%nat; eexists;
          (split; [reflexivity|]); (split; [|exact No]); simpl;
          [auto 8 | apply aggregate_range].
      * right. exists m. split; [reflexivity|]. split; [reflexivity|].
        right. exists e. auto.
    + left. eexists. split; [reflexivity|]. split; [simpl; auto 8|].
      intros [D _]. discriminate D.
  - left. eexists. split; [reflexivity|]. split; [simpl; auto 8|].
    intros [D _]. destruct feature; try discriminate T; discriminate D.
Qed.

(** [classifyTestResult] answers with one of six statuses; it throws exactly
    when [elements] is truthy and either not an array or an array holding a
    [null] or [undefined] entry; and data with none of [elements], [steps],
    [before] and [after] is classified [unknown] although the calculator
    gives the same data, where its name converts to a string, the status
    [skipped]. *)
Theorem classifyTestResult_outcomes (testData : value) :
  (forall c,
      classifyTestResult opts testData = Ret c ->
      In (classifiedStatus c)
        ["passed"; "failed"; "skipped"; "unknown"; "error"; "mixed"])
  /\ ((exists m, classifyTestResult opts testData = Throw m)
      <-> truthy (prop testData "elements") = true
          /\ (isArray (prop testData "elements") = false
              \/ exists e, In e (itemsOf testData "elements")
                           /\ nullish e = true))
  /\ (truthy testData = true ->
      truthy (prop testData "elements") = false ->
      truthy (prop testData "steps") = false ->
      truthy (prop testData "before") = false ->
      truthy (prop testData "after") = false ->
      classifyTestResult opts testData
      = Ret (Unclassified "unknown" "Unrecognized test data format")
      /\ (printable (prop testData "name") ->
          status (calculateScenarioStatus opts testData) = "skipped")).
Proof.
  unfold classifyTestResult. split; [|split].
  - intros c. destruct (truthy testData); simpl;
      [|intro H; injection H as <-; simpl; auto 8].
    destruct (truthy (prop testData "elements")).
    + destruct (calculateFeatureStatus_cases testData)
        as [[r [E [R _]]] | [m [E _]]]; rewrite E; simpl; [|discriminate].
      intro H. injection H as <-. exact R.
    + destruct (truthy (prop testData "steps")
                || truthy (prop testData "before")
                || truthy (prop testData "after"));
        intro H; injection H as <-; simpl; [|auto 8].
      pose proof (status_range opts testData) as R. simpl in R. simpl.
      intuition.
  - destruct (truthy testData) eqn:T; simpl.
    + destruct (truthy (prop testData "elements")) eqn:Te.
      * destruct (calculateFeatureStatus_cases testData)
          as [[r [E [_ No]]] | [m [E [_ Yes]]]]; rewrite E; simpl.
        -- split; [intros [m D]; discriminate D|].
           intro H. exfalso. apply No. rewrite Te. exact H.
        -- split; [auto | eauto].
      * split; [|intros [D _]; discriminate D].
        destruct (truthy (prop testData "steps")
                  || truthy (prop testData "before")
                  || truthy (prop testData "after"));
          intros [m D]; discriminate D.
    + split; [intros [m D]; discriminate D|].
      intros [D _]. destruct testData; try discriminate T; discriminate D.
  - intros T Te Ts Tb Ta. rewrite T, Te, Ts, Tb, Ta. simpl.
    split; [reflexivity|]. intro P.
    apply empty_scenario_skipped; [exact T|exact P| | |];
      match goal with
      | |- noItems ?v = true => destruct v; try reflexivity; discriminate
      end.
Qed.

End Classification.

Lemma classifyTestResult_outcomes_witness :
  TestStatusCalculator.classifyTestResult TestStatusCalculator.defaultCalcOptions
    emptyScenario
  = Ret (TestStatusCalculator.Unclassified "unknown"
           "Unrecognized test data format")
  /\ TestStatusCalculator.status
       (TestStatusCalculator.calculateScenarioStatus
          TestStatusCalculator.defaultCalcOptions emptyScenario) = "skipped".
Proof.
  destruct (classifyTestResult_outcomes TestStatusCalculator.defaultCalcOptions
              emptyScenario) as [_ [_ H]].
  destruct H as [H1 H2]; try reflexivity.
  split; [exact H1 | apply H2; reflexivity].
Defined.

Section Recovery.

Import CucumberJsonValidator.

(** The copy [handleMalformedEntry] works on once the name is settled. *)
Lemma named_reads (entry : value) (context : RecoveryContext) :
  typeofObject entry = true ->
  let sanitized := spread entry in
  let named :=
    if negb (truthy (read sanitized "name"))
    then setprop sanitized "name"
           (orElse (fallbackName context) (VStr "Recovered Entry"))
    else sanitized in
  read named "name" = recoveryName entry context
  /\ truthy (recoveryName entry context) = true
  /\ forall k, headDigit k = false -> k <> "name" ->
               read named k = prop entry k.
Proof.
  intros Ho sanitized named.
  assert (R : forall k, headDigit k = false -> read sanitized k = prop entry k).
  { intros k Hk. unfold read, sanitized. symmetry. apply prop_spread, Hk. }
  assert (Erec : recoveryName entry context
                 = if truthy (prop entry "name") then prop entry "name"
                   else orElse (fallbackName context) (VStr "Recovered Entry"))
    by reflexivity.
  rewrite Erec. subst named.
  rewrite (R "name" eq_refl).
  destruct (truthy (prop entry "name")) eqn:Tn; simpl.
  - split; [apply R; reflexivity|]. split; [exact Tn|].
    intros k Hk _. apply R, Hk.
  - split; [unfold read; rewrite lookup_setprop_same; reflexivity|].
    split; [apply orElse_truthy; reflexivity|].
    intros k Hk Hne. unfold read. rewrite lookup_setprop_other by exact Hne.
    apply R, Hk.
Qed.

(** Recovery succeeds exactly for an object or array that has a truthy [id]
    or whose name (its own, else the fallback, else "Recovered Entry") is a
    string.  A recovered entry has that name, a truthy [id] (its own where
    it had one) and every other data property of the original, and no
    error is reported; a failed recovery returns no entry and one error. *)
Theorem handleMalformedEntry_recovers
  (entry : value) (context : RecoveryContext) :
  let r := handleMalformedEntry entry context in
  (recovered r = true
   <-> notAnObject entry = false
       /\ (truthy (prop entry "id") = true
           \/ exists s, recoveryName entry context = VStr s))
  /\ (recovered r = true ->
      recoveryErrors r = []
      /\ exists o,
           sanitizedEntry r = VObj o
           /\ read o "name" = recoveryName entry context
           /\ truthy (read o "name") = true
           /\ truthy (read o "id") = true
           /\ (truthy (prop entry "id") = true ->
               read o "id" = prop entry "id")
           /\ forall k,
                headDigit k = false -> k <> "name" -> k <> "id" ->
                read o k = prop entry k)
  /\ (recovered r = false ->
      sanitizedEntry r = VNull /\ List.length (recoveryErrors r) = 1).
Proof.
  intro r. subst r. unfold handleMalformedEntry, notAnObject.
  destruct (truthy entry) eqn:T; simpl;
    [|split; [split; [discriminate | intros [D _]; discriminate D]|];
      split; [discriminate | auto]].
  destruct (typeofObject entry) eqn:Ho; simpl;
    [|split; [split; [discriminate | intros [D _]; discriminate D]|];
      split; [discriminate | auto]].
  destruct (named_reads entry context Ho) as [Rn [Tn Rk]].
  cbv zeta in Rn, Rk.
  set (named := if negb (truthy (read (spread entry) "name"))
                then setprop (spread entry) "name"
                       (orElse (fallbackName context) (VStr "Recovered Entry"))
                else spread entry) in *.
  rewrite (Rk "id" eq_refl) by discriminate. rewrite Rn.
  destruct (truthy (prop entry "id")) eqn:Ti; simpl.
  - split; [split; auto|]. split; [|discriminate].
    intros _. split; [reflexivity|]. exists named.
    split; [reflexivity|]. split; [exact Rn|].
    split; [rewrite Rn; exact Tn|].
    split; [rewrite (Rk "id" eq_refl) by discriminate; exact Ti|].
    split; [intros _; apply Rk; [reflexivity | discriminate]|].
    intros k Hk Hn _. apply Rk; assumption.
  - destruct (generateId (recoveryName entry context) (featureIndex context)
                (scenarioIndex context)) as [g | m] eqn:Eg; simpl.
    + assert (Hs : exists s, recoveryName entry context = VStr s).
      { unfold generateId in Eg. rewrite (orElse_left _ _ Tn) in Eg.
        destruct (recoveryName entry context); try discriminate Eg. eauto. }
      split; [split; auto|]. split; [|discriminate].
      intros _. split; [reflexivity|]. exists (setprop named "id" (VStr g)).
      split; [reflexivity|].
      assert (Rn' : read (setprop named "id" (VStr g)) "name"
                    = recoveryName entry context).
      { unfold read. rewrite lookup_setprop_other by discriminate. exact Rn. }
      split; [exact Rn'|]. split; [rewrite Rn'; exact Tn|].
      split; [unfold read; rewrite lookup_setprop_same;
              exact (generateId_truthy _ _ _ _ Eg)|].
      split; [discriminate|].
      intros k Hk Hn Hi. unfold read.
      rewrite lookup_setprop_other by exact Hi. apply Rk; assumption.
    + split; [|split; [discriminate | auto]].
      split; [discriminate|]. intros [_ [D | [s Hs]]]; [discriminate D|].
      unfold generateId in Eg. rewrite (orElse_left _ _ Tn), Hs in Eg.
      discriminate Eg.
Qed.

End Recovery.

Lemma extracted_counts_are_balanced_witness :
  balanced twoMixedCounts
  /\ DataIntegrityValidator.features twoMixedCounts = 1%Z.
Proof.
  apply (extracted_counts_are_balanced ReportService.newReportService
           twoMixedReport twoMixedCounts).
  reflexivity.
Defined.

Lemma consistency_check_has_no_count_mismatch_witness :
  DataIntegrityValidator.discrepancyType
    (DataIntegrityValidator.CrossValidationMismatch "passed" 0 2 2 1)
  = "cross_validation_mismatch".
Proof.
  apply (consistency_check_has_no_count_mismatch ReportService.newReportService
           twoMixedReport
           (DataIntegrityValidator.validateTestCounts
              (ReportService.integrityValidator ReportService.newReportService)
              (DataIntegrityValidator.countsOf twoMixedCounts)
              twoMixedReport)).
  - reflexivity.
  - left. reflexivity.
Defined.

Lemma enhanced_report_counts_the_same_witness :
  exists c,
    ReportService.extractAccurateTestCounts ReportService.newReportService
      (match ReportService.enhanceReportWithAccurateStatus
               ReportService.newReportService twoMixedReport with
       | Ret enhanced => enhanced
       | Throw _ => VNull
       end) = Ret c
    /\ ReportService.extractAccurateTestCounts ReportService.newReportService
         twoMixedReport = Ret c.
Proof.
  apply (enhanced_report_counts_the_same ReportService.newReportService
           twoMixedReport).
  - intros f sc Hf Hsc. simpl in Hf. destruct Hf as [<- | []].
    simpl in Hsc. destruct Hsc as [<- | [<- | []]]; reflexivity.
  - reflexivity.
Defined.

Lemma sanitized_report_is_countable_witness :
  exists counts raw enhanced,
    ReportService.extractAccurateTestCounts ReportService.newReportService
      (CucumberJsonValidator.sanitizedData
         (CucumberJsonValidator.validateReport
            CucumberJsonValidator.defaultOptions bareStepReport))
    = Ret counts
    /\ DataIntegrityValidator.calculateSummaryFromRawData
         (CucumberJsonValidator.sanitizedData
            (CucumberJsonValidator.validateReport
               CucumberJsonValidator.defaultOptions bareStepReport))
       = Ret raw
    /\ ReportService.enhanceReportWithAccurateStatus
         ReportService.newReportService
         (CucumberJsonValidator.sanitizedData
            (CucumberJsonValidator.validateReport
               CucumberJsonValidator.defaultOptions bareStepReport))
       = Ret enhanced
    /\ sameSizes counts raw.
Proof.
  destruct (sanitized_report_is_countable ReportService.newReportService
              CucumberJsonValidator.defaultOptions bareStepReport
              (itemsOfReport
                 (CucumberJsonValidator.sanitizedData
                    (CucumberJsonValidator.validateReport
                       CucumberJsonValidator.defaultOptions bareStepReport)))
              eq_refl)
    as [counts [raw [enhanced [E1 [E2 [E3 [S _]]]]]]].
  exists counts, raw, enhanced. repeat split; try assumption; apply S.
Defined.
